(** * Auto daily commit: scheduler, repository classifier and retrying commit

    A shallow embedding of the TypeScript sources of the auto-commit
    service (scheduler.service.ts, git.manager.ts, auto-commit.service.ts,
    config.manager.ts, types/validation.ts, utils/file-analyzer.ts and
    utils/logger.ts) together with the properties their specification
    states about them.

    Conventions of the embedding
    - a JavaScript string is a [string]; one [ascii] stands for one code
      unit, so [String.length] is the [length] property.
    - a JavaScript number that the code uses as an integer is a [Z].
    - everything outside the process (child processes, the file system, the
      clock, the callbacks handed to the scheduler) answers through an
      oracle [Env] that sees the history of interactions so far; the history
      is the trace that every operation extends.
    - a method of a class is a function in the monad [M S], where [S] is the
      record of the object's fields; a thrown exception keeps the mutations
      made before it.
    - [await] is sequencing: one logical thread of control. *)

From Stdlib Require Import ZArith List String Ascii Bool Lia Arith DecimalString.
Import ListNotations.
Open Scope string_scope.
Open Scope Z_scope.

(* ===================================================================== *)
(** * JavaScript strings *)
(* ===================================================================== *)

Module Js.

Definition newline : ascii := Ascii.ascii_of_nat 10.
Definition nl : string := String newline "".
Definition dquote : string := String (Ascii.ascii_of_nat 34) "".
Definition backslash : string := String (Ascii.ascii_of_nat 92) "".

(** [String.prototype.startsWith], with the receiver second. *)
Fixpoint startsWith (p s : string) : bool :=
  match p, s with
  | EmptyString, _ => true
  | String a p', String b s' => Ascii.eqb a b && startsWith p' s'
  | String _ _, EmptyString => false
  end.

(** [hay.includes(needle)]. *)
Fixpoint includes (needle hay : string) : bool :=
  startsWith needle hay ||
  match hay with
  | EmptyString => false
  | String _ hay' => includes needle hay'
  end.

Definition endsWith (p s : string) : bool :=
  (String.length p <=? String.length s)%nat &&
  String.eqb (substring (String.length s - String.length p) (String.length p) s) p.

(** [toLowerCase] on the ASCII letters.  The needles the sources search for
    after lowering are ASCII words none of whose letters is the lower case
    of a non-ASCII code unit next to the same neighbours, so the outcome of
    those searches is the one of the full Unicode mapping. *)
Definition lower_ascii (c : ascii) : ascii :=
  let n := nat_of_ascii c in
  if ((65 <=? n) && (n <=? 90))%nat then ascii_of_nat (n + 32) else c.

Fixpoint toLowerCase (s : string) : string :=
  match s with
  | EmptyString => EmptyString
  | String c s' => String (lower_ascii c) (toLowerCase s')
  end.

(** White space as [trim] sees it: TAB, LF, VT, FF, CR, SP and NBSP. *)
Definition isSpace (c : ascii) : bool :=
  let n := nat_of_ascii c in
  ((9 <=? n) && (n <=? 13) || (n =? 32) || (n =? 160))%nat.

Fixpoint trimStart (s : string) : string :=
  match s with
  | EmptyString => EmptyString
  | String c s' => if isSpace c then trimStart s' else s
  end.

Fixpoint trimEnd (s : string) : string :=
  match s with
  | EmptyString => EmptyString
  | String c s' =>
      match trimEnd s' with
      | EmptyString => if isSpace c then EmptyString else String c EmptyString
      | t => String c t
      end
  end.

Definition trim (s : string) : string := trimEnd (trimStart s).

(** [s.split(sep)] for a separator of one code unit: never empty. *)
Fixpoint split (sep : ascii) (s : string) : list string :=
  match s with
  | EmptyString => [EmptyString]
  | String c s' =>
      if Ascii.eqb c sep then EmptyString :: split sep s'
      else match split sep s' with
           | [] => [String c EmptyString]
           | h :: t => String c h :: t
           end
  end.

(** [s.substring(n)] and [s.substring(0, n)]. *)
Fixpoint drop (n : nat) (s : string) : string :=
  match n, s with
  | O, _ => s
  | S k, EmptyString => EmptyString
  | S k, String _ s' => drop k s'
  end.

Fixpoint take (n : nat) (s : string) : string :=
  match n, s with
  | O, _ => EmptyString
  | S k, EmptyString => EmptyString
  | S k, String c s' => String c (take k s')
  end.

(** [arr.join(sep)]. *)
Fixpoint join (sep : string) (l : list string) : string :=
  match l with
  | [] => ""
  | [x] => x
  | x :: rest => x ++ sep ++ join sep rest
  end.

(** [n.toString()] for an integer. *)
Definition numToString (z : Z) : string := NilZero.string_of_int (Z.to_int z).

Definition isDigit (c : ascii) : bool :=
  let n := nat_of_ascii c in ((48 <=? n) && (n <=? 57))%nat.

Definition digitVal (c : ascii) : Z := Z.of_nat (nat_of_ascii c) - 48.

Fixpoint digitsPrefix (acc : Z) (seen : bool) (s : string) : option Z :=
  match s with
  | String c s' =>
      if isDigit c then digitsPrefix (10 * acc + digitVal c) true s'
      else if seen then Some acc else None
  | EmptyString => if seen then Some acc else None
  end.

(** [parseInt(s, 10)]: leading white space, an optional sign, then the
    longest run of decimal digits; [None] is NaN. *)
Definition parseInt (s : string) : option Z :=
  match trimStart s with
  | String "-" r => option_map Z.opp (digitsPrefix 0 false r)
  | String "+" r => digitsPrefix 0 false r
  | r => digitsPrefix 0 false r
  end.

(** The replacement text of [String.prototype.replace] when the pattern
    has no capture group: [$$] is a dollar, [$&] the match, [$`] what
    precedes it, [$'] what follows it; any other dollar stands for itself. *)
Fixpoint getSubstitution (matched before after repl : string) : string :=
  match repl with
  | EmptyString => EmptyString
  | String c r =>
      if Ascii.eqb c "$" then
        match r with
        | String "$" r' => String "$" (getSubstitution matched before after r')
        | String "&" r' => matched ++ getSubstitution matched before after r'
        | String "`" r' => before ++ getSubstitution matched before after r'
        | String "'" r' => after ++ getSubstitution matched before after r'
        | _ => String c (getSubstitution matched before after r)
        end
      else String c (getSubstitution matched before after r)
  end.

(** [s.replace(new RegExp(lit, 'g'), repl)] where the expression matches
    the literal text [pat] (not empty): matches are found left to right and
    do not overlap.  [before] is the part of the subject already passed and
    [skip] counts the code units of a match still to be dropped. *)
Fixpoint replaceAllFrom (pat repl before s : string) (skip : nat) : string :=
  match s with
  | EmptyString => EmptyString
  | String c s' =>
      match skip with
      | S k => replaceAllFrom pat repl (before ++ String c "") s' k
      | O =>
          if startsWith pat s then
            getSubstitution pat before (drop (String.length pat) s) repl
            ++ replaceAllFrom pat repl (before ++ String c "") s'
                 (String.length pat - 1)
          else String c (replaceAllFrom pat repl (before ++ String c "") s' 0)
      end
  end.

Definition replaceAll (pat repl s : string) : string :=
  replaceAllFrom pat repl "" s 0.

End Js.

(* ===================================================================== *)
(** * JavaScript dates *)
(* ===================================================================== *)

(** Time values are milliseconds since the epoch (UTC).  The local time
    zone is a fixed offset [tza] (no daylight saving change inside the
    interval a statement is about).  [None] is the invalid date.  Time values
    are taken inside the range on which the language keeps them as they are. *)
Module Date.

Definition msPerDay : Z := 86400000.
Definition Day (t : Z) : Z := t / msPerDay.
Definition TimeWithinDay (t : Z) : Z := t mod msPerDay.

(** Year, month (1..12) and day of the month of a day number. *)
Definition civilFromDays (n : Z) : Z * Z * Z :=
  let z := n + 719468 in
  let era := z / 146097 in
  let doe := z mod 146097 in
  let yoe := (doe - doe / 1460 + doe / 36524 - doe / 146096) / 365 in
  let doy := doe - (365 * yoe + yoe / 4 - yoe / 100) in
  let mp := (5 * doy + 2) / 153 in
  let d := doy - (153 * mp + 2) / 5 + 1 in
  let m := if mp <? 10 then mp + 3 else mp - 9 in
  (yoe + era * 400 + (if m <=? 2 then 1 else 0), m, d).

(** Day number of a year, month (1..12) and day of the month. *)
Definition daysFromCivil (y m d : Z) : Z :=
  let y' := y - (if m <=? 2 then 1 else 0) in
  let era := y' / 400 in
  let yoe := y' mod 400 in
  let mp := if 2 <? m then m - 3 else m + 9 in
  let doy := (153 * mp + 2) / 5 + d - 1 in
  let doe := yoe * 365 + yoe / 4 - yoe / 100 + doy in
  era * 146097 + doe - 719468.

Definition YearFromTime (t : Z) : Z := fst (fst (civilFromDays (Day t))).
(** Months count from 0, as in the language. *)
Definition MonthFromTime (t : Z) : Z := snd (fst (civilFromDays (Day t))) - 1.
Definition DateFromTime (t : Z) : Z := snd (civilFromDays (Day t)).
Definition WeekDay (t : Z) : Z := (Day t + 4) mod 7.
Definition HourFromTime (t : Z) : Z := (t / 3600000) mod 24.
Definition MinFromTime (t : Z) : Z := (t / 60000) mod 60.
Definition SecFromTime (t : Z) : Z := (t / 1000) mod 60.
Definition msFromTime (t : Z) : Z := t mod 1000.

Definition MakeTime (h m s ms : Z) : Z := h * 3600000 + m * 60000 + s * 1000 + ms.
Definition MakeDay (year month date : Z) : Z :=
  daysFromCivil (year + month / 12) (month mod 12 + 1) 1 + date - 1.
Definition MakeDate (day time : Z) : Z := day * msPerDay + time.

Definition t := option Z.

Section Zone.
Variable tza : Z.

Definition LocalTime (u : Z) : Z := u + tza.
Definition UTC (l : Z) : Z := l - tza.

Definition getFullYear (d : t) : option Z := option_map (fun u => YearFromTime (LocalTime u)) d.
Definition getMonth (d : t) : option Z := option_map (fun u => MonthFromTime (LocalTime u)) d.
Definition getDate (d : t) : option Z := option_map (fun u => DateFromTime (LocalTime u)) d.

(** A setter rebuilds the local time from its fields; an argument that is
    NaN, or an invalid receiver, gives the invalid date. *)
Definition withLocal (d : t) (arg : option Z) (f : Z -> Z -> Z) : t :=
  match d, arg with
  | Some u, Some a => Some (UTC (f (LocalTime u) a))
  | _, _ => None
  end.

Definition setMilliseconds (d : t) (ms : option Z) : t :=
  withLocal d ms (fun l v =>
    MakeDate (Day l) (MakeTime (HourFromTime l) (MinFromTime l) (SecFromTime l) v)).
Definition setSeconds (d : t) (s : option Z) : t :=
  withLocal d s (fun l v =>
    MakeDate (Day l) (MakeTime (HourFromTime l) (MinFromTime l) v (msFromTime l))).
Definition setMinutes (d : t) (m : option Z) : t :=
  withLocal d m (fun l v =>
    MakeDate (Day l) (MakeTime (HourFromTime l) v (SecFromTime l) (msFromTime l))).
Definition setHours (d : t) (h : option Z) : t :=
  withLocal d h (fun l v =>
    MakeDate (Day l) (MakeTime v (MinFromTime l) (SecFromTime l) (msFromTime l))).
Definition setDate (d : t) (dt : option Z) : t :=
  withLocal d dt (fun l v =>
    MakeDate (MakeDay (YearFromTime l) (MonthFromTime l) v) (TimeWithinDay l)).

(** [new Date(year, month, date)]: local midnight; a year from 0 to 99 is
    read as 1900 + year. *)
Definition ofYMD (y m d : option Z) : t :=
  match y, m, d with
  | Some y, Some m, Some d =>
      let yr := if (0 <=? y) && (y <=? 99) then 1900 + y else y in
      Some (UTC (MakeDate (MakeDay yr m d) 0))
  | _, _, _ => None
  end.

(** [a <= b] and [a > b] on dates: comparisons with NaN are false. *)
Definition leb (a b : t) : bool :=
  match a, b with Some x, Some y => x <=? y | _, _ => false end.
Definition gtb (a b : t) : bool :=
  match a, b with Some x, Some y => y <? x | _, _ => false end.

(** The time value of a local civil time. *)
Definition ofLocal (y mo d h mi s : Z) : Z :=
  UTC (MakeDate (MakeDay y (mo - 1) d) (MakeTime h mi s 0)).

End Zone.

Definition pad (w : nat) (z : Z) : string :=
  let s := Js.numToString z in
  Js.take (w - String.length s) "000000" ++ s.

(** [toISOString] of a valid date (UTC); years outside 0..9999 take the
    six digit form with a sign. *)
Definition toISOString (u : Z) : string :=
  let y := YearFromTime u in
  (if (0 <=? y) && (y <=? 9999) then pad 4 y
   else (if y <? 0 then "-" else "+") ++ pad 6 (Z.abs y))
  ++ "-" ++ pad 2 (MonthFromTime u + 1) ++ "-" ++ pad 2 (DateFromTime u)
  ++ "T" ++ pad 2 (HourFromTime u) ++ ":" ++ pad 2 (MinFromTime u)
  ++ ":" ++ pad 2 (SecFromTime u) ++ "." ++ pad 3 (msFromTime u) ++ "Z".

Definition weekdayName (n : Z) : string :=
  nth (Z.to_nat n)
    ["Sunday"; "Monday"; "Tuesday"; "Wednesday"; "Thursday"; "Friday"; "Saturday"] "".
Definition monthName (n : Z) : string :=
  nth (Z.to_nat n)
    ["January"; "February"; "March"; "April"; "May"; "June"; "July"; "August";
     "September"; "October"; "November"; "December"] "".

(** [toTimeString().split(' ')[0]]: the local time of day. *)
Definition timeOfDay (tza u : Z) : string :=
  let l := LocalTime tza u in
  pad 2 (HourFromTime l) ++ ":" ++ pad 2 (MinFromTime l) ++ ":" ++ pad 2 (SecFromTime l).

End Date.

(* ===================================================================== *)
(** * Data model (types/index.ts, scheduler.service.ts) *)
(* ===================================================================== *)

Inductive LogLevel := LevelDebug | LevelInfo | LevelError.

Inductive GitRepositoryState :=
  clean | dirty | merging | rebasing | detached | conflict | unknown.

Inductive FileChangeType :=
  code | config | documentation | test | asset | dependency | mixed.

Record FileAnalysis := {
  changeType : FileChangeType;
  files : list string;
  summary : string
}.

(** [AutoCommitConfig], every key holding a value of its declared type.
    The three numbers are integers: NaN, the infinities and fractions, which
    are numbers of the code too, are no values of this record. *)
Record AutoCommitConfig := {
  enabled : bool;
  commitTime : string;
  messageTemplate : string;
  excludePatterns : list string;
  logLevel : LogLevel;
  repositoryPath : option string;
  maxCommitMessageLength : Z;
  retryAttempts : Z;
  retryDelayMs : Z
}.

(** [Partial<AutoCommitConfig>]: an absent key is [None], a key that is
    present holds a value of its declared type (a number: an integer). *)
Record PartialConfig := {
  p_enabled : option bool;
  p_commitTime : option string;
  p_messageTemplate : option string;
  p_excludePatterns : option (list string);
  p_logLevel : option LogLevel;
  p_repositoryPath : option string;
  p_maxCommitMessageLength : option Z;
  p_retryAttempts : option Z;
  p_retryDelayMs : option Z
}.

Record CommitResult := {
  success : bool;
  commitHash : option string;
  message : string;
  timestamp : Z;
  filesChanged : Z;
  error : option string
}.

(** The persisted scheduler state; timestamps are ISO-8601 strings. *)
Module SchedulerState.
Record t := mk {
  lastRun : option string;
  nextRun : option string;
  isActive : bool;
  cronExpression : string;
  missedExecutions : list string
}.
End SchedulerState.

(** What [JSON.parse] of a state file yields: any key may be absent. *)
Record LoadedState := {
  l_lastRun : option string;
  l_nextRun : option string;
  l_isActive : option bool;
  l_cronExpression : option string;
  l_missedExecutions : option (list string)
}.

(** The error classes of types/index.ts and the two built-in ones the
    code can meet. *)
Inductive ErrClass :=
  PlainError | TypeError | RangeError | SyntaxError
| GitOperationError | ConfigurationError | SchedulerError.

#[warnings="-register-all"]
Inductive JsError :=
  MkError (cls : ErrClass) (msg : string) (code : option string) (cause : option JsError).

Definition errClass (e : JsError) : ErrClass := let 'MkError c _ _ _ := e in c.
(** [error instanceof Error ? error.message : String(error)] *)
Definition errMessage (e : JsError) : string := let 'MkError _ m _ _ := e in m.
Definition errCode (e : JsError) : option string := let 'MkError _ _ c _ := e in c.
Definition errCause (e : JsError) : option JsError := let 'MkError _ _ _ c := e in c.

Definition newError (m : string) : JsError := MkError PlainError m None None.
Definition newTypeError (m : string) : JsError := MkError TypeError m None None.
Definition newGitOperationError (m : string) (cause : option JsError) : JsError :=
  MkError GitOperationError m (Some "GIT_OPERATION_ERROR") cause.
Definition newConfigurationError (m : string) (cause : option JsError) : JsError :=
  MkError ConfigurationError m (Some "CONFIGURATION_ERROR") cause.
Definition newSchedulerError (m : string) (cause : option JsError) : JsError :=
  MkError SchedulerError m (Some "SCHEDULER_ERROR") cause.

(** [error.code === c] *)
Definition hasCode (c : string) (e : JsError) : bool :=
  match errCode e with Some x => String.eqb x c | None => false end.

Definition isGitOperationError (e : JsError) : bool :=
  match errClass e with GitOperationError => true | _ => false end.
Definition isConfigurationError (e : JsError) : bool :=
  match errClass e with ConfigurationError => true | _ => false end.

(* ===================================================================== *)
(** * The environment and the trace *)
(* ===================================================================== *)

(** The function handed to the scheduler: the thunk of the service that
    starts [executeCommit] without awaiting it, or some other function. *)
Inductive Callback := ExecuteCommitThunk | Handler (id : nat).

(** File contents up to JSON (de)serialisation. *)
Inductive FileData :=
| StateJson (j : LoadedState)
| ConfigJson (c : AutoCommitConfig)
| Text (s : string).

Inductive Severity := SDebug | SInfo | SWarn | SError.

Inductive Event :=
| EvLog (sev : Severity) (text : string)
| EvExec (cwd command : string)
| EvAccess (path : string)
| EvReadFile (path : string)
| EvMkdir (path : string)
| EvWriteFile (path : string) (data : FileData)
| EvSleep (ms : Z)
| EvCall (cb : Callback)
| EvTaskCreate (expression : string)
| EvTaskStart
| EvTaskStop
| EvTaskDestroy.

Definition Trace := list Event.

Record ExecResult := { stdout : string; stderr : string }.

(** What [exec] settles with: its output, or the rejection's
    [message], [stderr] and [stdout]. *)
Inductive ExecOutcome :=
| ExecOk (r : ExecResult)
| ExecFail (emessage estderr estdout : string).

Record Env := {
  tza : Z;
  (** [new Date()] *)
  clock : Trace -> Z;
  (** [child_process.exec(command, { cwd })] *)
  exec : Trace -> string -> string -> ExecOutcome;
  (** [fs.access], [fs.readFile], [fs.mkdir], [fs.writeFile] *)
  access : Trace -> string -> bool;
  readFile : Trace -> string -> FileData + JsError;
  mkdir : Trace -> string -> option JsError;
  writeFile : Trace -> string -> FileData -> option JsError;
  (** what calling a callback does: return, or throw *)
  runCallback : Trace -> Callback -> option JsError;
  (** [cron.validate] of node-cron and [new Date(string)] *)
  cronValidate : string -> bool;
  dateParse : string -> Date.t;
  (** the [path] module *)
  basename : string -> string;
  extname : string -> string;
  dirname : string -> string;
  isAbsolute : string -> bool;
  pathResolve : string -> string -> string;
  pathJoin : string -> string -> string
}.

(* ===================================================================== *)
(** * The monad of methods *)
(* ===================================================================== *)

Inductive Res (A : Type) := Ok (a : A) | Throw (e : JsError).
Arguments Ok {A} a.
Arguments Throw {A} e.

Definition M (S A : Type) : Type := Env -> S -> Trace -> Res A * S * Trace.

Definition ret {S A} (a : A) : M S A := fun _ s tr => (Ok a, s, tr).
Definition throw {S A} (e : JsError) : M S A := fun _ s tr => (Throw e, s, tr).
Definition bind {S A B} (m : M S A) (k : A -> M S B) : M S B :=
  fun E s tr =>
    match m E s tr with
    | (Ok a, s', tr') => k a E s' tr'
    | (Throw e, s', tr') => (Throw e, s', tr')
    end.
(** [try { m } catch (e) { h e }] *)
Definition tryCatch {S A} (m : M S A) (h : JsError -> M S A) : M S A :=
  fun E s tr =>
    match m E s tr with
    | (Ok a, s', tr') => (Ok a, s', tr')
    | (Throw e, s', tr') => h e E s' tr'
    end.

Definition get {S} : M S S := fun _ s tr => (Ok s, s, tr).
Definition put {S} (s : S) : M S unit := fun _ _ tr => (Ok tt, s, tr).
Definition modify {S} (f : S -> S) : M S unit := fun _ s tr => (Ok tt, f s, tr).
Definition ask {S} : M S Env := fun E s tr => (Ok E, s, tr).
Definition history {S} : M S Trace := fun _ s tr => (Ok tr, s, tr).
Definition emit {S} (ev : Event) : M S unit := fun _ s tr => (Ok tt, s, tr ++ [ev])%list.

(** A method of a component called from the object that owns it. *)
Definition zoom {S T A} (proj : S -> T) (inj : T -> S -> S) (m : M T A) : M S A :=
  fun E s tr => let '(r, t', tr') := m E (proj s) tr in (r, inj t' s, tr').

Declare Scope js_scope.
Delimit Scope js_scope with js.
Notation "x <- m ;; k" := (bind m (fun x => k))
  (at level 61, m at next level, right associativity) : js_scope.
Notation "m ;; k" := (bind m (fun _ => k))
  (at level 61, right associativity) : js_scope.
Open Scope js_scope.

(** ** Interactions with the environment *)

Definition now {S} : M S Z := fun E s tr => (Ok (clock E tr), s, tr).

Definition execAsync {S} (cwd command : string) : M S ExecOutcome :=
  fun E s tr => (Ok (exec E tr cwd command), s, (tr ++ [EvExec cwd command])%list).

Definition fsAccess {S} (path : string) : M S bool :=
  fun E s tr => (Ok (access E tr path), s, (tr ++ [EvAccess path])%list).

Definition fsReadFile {S} (path : string) : M S FileData :=
  fun E s tr =>
    (match readFile E tr path with inl d => Ok d | inr e => Throw e end,
     s, (tr ++ [EvReadFile path])%list).

Definition fsMkdir {S} (path : string) : M S unit :=
  fun E s tr =>
    (match mkdir E tr path with None => Ok tt | Some e => Throw e end,
     s, (tr ++ [EvMkdir path])%list).

Definition fsWriteFile {S} (path : string) (d : FileData) : M S unit :=
  fun E s tr =>
    (match writeFile E tr path d with None => Ok tt | Some e => Throw e end,
     s, (tr ++ [EvWriteFile path d])%list).

(** [await new Promise(resolve => setTimeout(resolve, ms))] *)
Definition sleep {S} (ms : Z) : M S unit := emit (EvSleep ms).

(** Calling the function [cb]. *)
Definition call {S} (cb : Callback) : M S unit :=
  fun E s tr =>
    (match runCallback E tr cb with None => Ok tt | Some e => Throw e end,
     s, (tr ++ [EvCall cb])%list).

(** ** utils/logger.ts

    The class [Logger] has the methods [info], [debug] and [error]; none of
    them throws (they start an asynchronous write and return).  It has no
    method [warn]: calling it on an instance of the class is calling
    [undefined]. *)
Definition logInfo {S} (text : string) : M S unit := emit (EvLog SInfo text).
Definition logDebug {S} (text : string) : M S unit := emit (EvLog SDebug text).
Definition logError {S} (text : string) : M S unit := emit (EvLog SError text).

(** [defaultLogger.warn(...)], [defaultLogger] being [new Logger()]. *)
Definition defaultLogger_warn {S} (text : string) : M S unit :=
  throw (newTypeError "defaultLogger.warn is not a function").

(** A logger object handed to the service: it implements the interface and
    may carry a [warn] method beside it, as the logger of the integration
    tests does. *)
Record Logger := { hasWarn : bool; level : LogLevel }.

Definition defaultLogger : Logger := {| hasWarn := false; level := LevelInfo |}.
Definition createLogger (lv : LogLevel) : Logger := {| hasWarn := false; level := lv |}.

Definition logger_warn {S} (l : Logger) (text : string) : M S unit :=
  if hasWarn l then emit (EvLog SWarn text)
  else throw (newTypeError "this.logger.warn is not a function").

(* ===================================================================== *)
(** * utils/file-analyzer.ts *)
(* ===================================================================== *)

Module FileAnalyzer.

Definition arrayIncludes (l : list string) (x : string) : bool :=
  existsb (String.eqb x) l.
(** [patterns.some(p => s.includes(p))] *)
Definition someIncluded (patterns : list string) (s : string) : bool :=
  existsb (fun p => Js.includes p s) patterns.

Definition isDependencyFile (fileName directory : string) : bool :=
  arrayIncludes
    ["package.json"; "package-lock.json"; "yarn.lock"; "pnpm-lock.yaml";
     "composer.json"; "composer.lock"; "requirements.txt"; "pipfile";
     "pipfile.lock"; "gemfile"; "gemfile.lock"; "cargo.toml"; "cargo.lock";
     "go.mod"; "go.sum"] fileName
  || Js.includes "node_modules" directory
  || Js.includes "vendor" directory.

Definition isConfigFile (fileName extension : string) : bool :=
  let hasConfigPattern := someIncluded ["config"; ".env"; "settings"; "options"] fileName in
  let isDotfile := Js.startsWith "." fileName && negb (Js.includes "git" fileName) in
  let hasConfigExtension :=
    arrayIncludes [".json"; ".yaml"; ".yml"; ".toml"; ".ini"; ".conf"] extension in
  hasConfigPattern || isDotfile || hasConfigExtension.

Definition isDocumentationFile (fileName extension directory : string) : bool :=
  arrayIncludes [".md"; ".txt"; ".rst"; ".adoc"; ".org"] extension
  || someIncluded ["readme"; "changelog"; "license"; "contributing"; "authors"] fileName
  || someIncluded ["docs"; "documentation"; "wiki"] directory.

Definition isTestFile (fileName directory : string) : bool :=
  someIncluded ["test"; "spec"; ".test."; ".spec."] fileName
  || someIncluded ["test"; "__tests__"; "spec"; "specs"; "tests"] directory.

Definition isAssetFile (extension directory : string) : bool :=
  arrayIncludes
    ([".png"; ".jpg"; ".jpeg"; ".gif"; ".svg"; ".ico"; ".webp"; ".bmp"]
     ++ [".css"; ".scss"; ".sass"; ".less"; ".styl"]
     ++ [".woff"; ".woff2"; ".ttf"; ".eot"; ".otf"]
     ++ [".mp4"; ".webm"; ".mp3"; ".wav"; ".ogg"; ".avi"; ".mov"])%list extension
  || someIncluded ["assets"; "static"; "public"; "images"; "img"; "media"; "fonts"] directory.

Definition isCodeFile (extension : string) : bool :=
  arrayIncludes
    [".js"; ".ts"; ".jsx"; ".tsx"; ".mjs"; ".cjs"; ".py"; ".pyx"; ".pyi";
     ".java"; ".kt"; ".scala"; ".c"; ".cpp"; ".cc"; ".cxx"; ".h"; ".hpp";
     ".cs"; ".php"; ".phtml"; ".rb"; ".rake"; ".go"; ".rs"; ".swift"; ".dart";
     ".sh"; ".bash"; ".zsh"; ".fish"; ".sql"; ".html"; ".htm"; ".xml";
     ".vue"; ".svelte"] extension.

Definition categorizeFile (E : Env) (filePath : string) : FileChangeType :=
  let fileName := Js.toLowerCase (basename E filePath) in
  let extension := Js.toLowerCase (extname E filePath) in
  let directory := Js.toLowerCase (dirname E filePath) in
  if isDependencyFile fileName directory then dependency
  else if isConfigFile fileName extension then config
  else if isDocumentationFile fileName extension directory then documentation
  else if isTestFile fileName directory then test
  else if isAssetFile extension directory then asset
  else if isCodeFile extension then code
  else mixed.

Definition categoryName (c : FileChangeType) : string :=
  match c with
  | code => "code" | config => "config" | documentation => "documentation"
  | test => "test" | asset => "asset" | dependency => "dependency"
  | mixed => "mixed"
  end.

Definition sameCategory (a b : FileChangeType) : bool :=
  String.eqb (categoryName a) (categoryName b).

(** The keys of [categories], in insertion order. *)
Definition categoryKeys : list FileChangeType :=
  [code; config; documentation; test; asset; dependency].

(** [Object.entries(categories)] after the loop over the files. *)
Definition categories (E : Env) (fs : list string) : list (FileChangeType * Z) :=
  map (fun k =>
         (k, Z.of_nat (List.length
                         (filter (fun f => sameCategory (categorizeFile E f) k) fs))))
      categoryKeys.

Definition generateChangeSummary (cats : list (FileChangeType * Z)) (totalFiles : Z) : string :=
  let nonZeroCategories :=
    Js.join ", "
      (map (fun kc => Js.numToString (snd kc) ++ " " ++ categoryName (fst kc))
           (filter (fun kc => 0 <? snd kc) cats)) in
  if String.eqb nonZeroCategories "" then Js.numToString totalFiles ++ " files"
  else nonZeroCategories.

(** The share [count / total > 0.7] is compared exactly, as the quotient of
    two file counts is never within rounding distance of 0.7 unless it is
    7/10. *)
Definition analyzeFiles (E : Env) (fs : list string) : FileAnalysis :=
  match fs with
  | [] => {| changeType := mixed; files := []; summary := "no changes" |}
  | _ =>
    let cats := categories E fs in
    let totalCategorized := fold_left (fun sum kc => sum + snd kc) cats 0 in
    let maxCategory :=
      fold_left (fun mx kc => if snd mx <? snd kc then kc else mx) cats (mixed, 0) in
    let ct :=
      if (0 <? totalCategorized) && (7 * totalCategorized <? 10 * snd maxCategory)
      then fst maxCategory else mixed in
    {| changeType := ct; files := fs;
       summary := generateChangeSummary cats (Z.of_nat (List.length fs)) |}
  end.

End FileAnalyzer.

(* ===================================================================== *)
(** * types/validation.ts *)
(* ===================================================================== *)

Module Validation.

Definition isStar (s : string) : bool := String.eqb s "*".

Definition inRange (lo hi : nat) (c : ascii) : bool :=
  let n := nat_of_ascii c in ((lo <=? n) && (n <=? hi))%nat.
Definition d09 := inRange 48 57.

(** The five alternatives of [CRON_PATTERN], one per field. *)
Definition minuteField (s : string) : bool :=
  isStar s ||
  match s with
  | String a "" => d09 a
  | String a (String b "") => inRange 48 53 a && d09 b
  | _ => false
  end.
Definition hourField (s : string) : bool :=
  isStar s ||
  match s with
  | String a "" => d09 a
  | String a (String b "") =>
      inRange 48 49 a && d09 b || Ascii.eqb a "2" && inRange 48 51 b
  | _ => false
  end.
Definition dayField (s : string) : bool :=
  isStar s ||
  match s with
  | String a "" => d09 a
  | String a (String b "") =>
      inRange 49 50 a && d09 b || Ascii.eqb a "3" && inRange 48 49 b
  | _ => false
  end.
Definition monthField (s : string) : bool :=
  isStar s ||
  match s with
  | String a "" => d09 a
  | String a (String b "") => Ascii.eqb a "1" && inRange 48 50 b
  | _ => false
  end.
Definition weekdayField (s : string) : bool :=
  isStar s ||
  match s with
  | String a "" => inRange 48 54 a
  | _ => false
  end.

(** [CRON_PATTERN.test(s)]: the expression is anchored and its fields hold
    no blank, so it matches when the five blank-separated parts match. *)
Definition CRON_PATTERN_test (s : string) : bool :=
  match Js.split " " s with
  | [a; b; c; d; e] =>
      minuteField a && hourField b && dayField c && monthField d && weekdayField e
  | _ => false
  end.

(** [validateConfig(config).errors] for a configuration whose fields have
    their declared types: the tests [typeof ... !== ...] and [Array.isArray]
    of the code are false on such a configuration, and the errors they guard
    ("... must be a boolean", "... must be a number" and the like) are not
    raised. *)
Definition validationErrors (c : AutoCommitConfig) : list string :=
  ((if negb (CRON_PATTERN_test (commitTime c))
    then ["commitTime must be a valid cron expression"] else [])
   ++ (if Z.of_nat (String.length (messageTemplate c)) <? 10
       then ["messageTemplate must be at least 10 characters long"] else [])
   ++ (if 200 <? Z.of_nat (String.length (messageTemplate c))
       then ["messageTemplate must be no more than 200 characters long"] else [])
   ++ (if maxCommitMessageLength c <? 20
       then ["maxCommitMessageLength must be at least 20"] else [])
   ++ (if 200 <? maxCommitMessageLength c
       then ["maxCommitMessageLength must be no more than 200"] else [])
   ++ (if retryAttempts c <? 0 then ["retryAttempts must be at least 0"] else [])
   ++ (if 10 <? retryAttempts c then ["retryAttempts must be no more than 10"] else [])
   ++ (if retryDelayMs c <? 1000 then ["retryDelayMs must be at least 1000"] else []))%list.

(** [validateConfig(config).isValid] *)
Definition validateConfig (c : AutoCommitConfig) : bool :=
  match validationErrors c with [] => true | _ => false end.

(** DEFAULT_CONFIG *)
Definition DEFAULT_CONFIG : AutoCommitConfig :=
  {| enabled := true;
     commitTime := "0 18 * * *";
     messageTemplate := "chore: daily auto-commit - {summary}";
     excludePatterns :=
       ["node_modules/**"; ".git/**"; "*.log"; ".env*"; "dist/**"; "build/**"];
     logLevel := LevelInfo;
     repositoryPath := None;
     maxCommitMessageLength := 72;
     retryAttempts := 3;
     retryDelayMs := 5000 |}.

End Validation.

(* ===================================================================== *)
(** * services/git.manager.ts *)
(* ===================================================================== *)

Module GitManager.

Record t := { repositoryPath : string; timeout : Z }.

Definition nonEmpty (s : string) : bool := negb (String.eqb s "").

(** The message of the error [executeGitCommand] throws for a rejection
    of [exec]. *)
Definition failureMessage (emessage estderr estdout : string) : string :=
  let errorMessage := if nonEmpty emessage then emessage else "Unknown error" in
  "Git command failed: " ++ errorMessage ++ Js.nl
  ++ "stderr: " ++ estderr ++ Js.nl ++ "stdout: " ++ estdout.

(** executeGitCommand *)
Definition executeGitCommand (command : string) : M t ExecResult :=
  let fullCommand := "git " ++ command in
  g <- get ;;
  logDebug "Executing Git command" ;;
  out <- execAsync (repositoryPath g) fullCommand ;;
  match out with
  | ExecOk result =>
      logDebug "Git command completed" ;;
      ret result
  | ExecFail emessage estderr estdout =>
      logError "Git command failed" ;;
      throw (newError (failureMessage emessage estderr estdout))
  end.

(** hasChanges *)
Definition hasChanges : M t bool :=
  tryCatch
    (r <- executeGitCommand "status --porcelain" ;;
     ret (0 <? String.length (Js.trim (stdout r)))%nat)
    (fun error =>
       logError "Failed to check for changes" ;;
       throw (newGitOperationError
                ("Failed to check for changes: " ++ errMessage error) (Some error))).

Definition nonEmptyLines (s : string) : list string :=
  filter (fun line => (0 <? String.length line)%nat) (Js.split Js.newline (Js.trim s)).

(** getChangedFiles *)
Definition getChangedFiles : M t (list string) :=
  tryCatch
    (r <- executeGitCommand "status --porcelain" ;;
     ret (map (fun line => Js.trim (Js.drop 3 line)) (nonEmptyLines (stdout r))))
    (fun error =>
       logError "Failed to get changed files" ;;
       throw (newGitOperationError
                ("Failed to get changed files: " ++ errMessage error) (Some error))).

(** getGitDirectory *)
Definition getGitDirectory : M t string :=
  tryCatch
    (r <- executeGitCommand "rev-parse --git-dir" ;;
     let gitDir := Js.trim (stdout r) in
     E <- ask ;;
     g <- get ;;
     if negb (isAbsolute E gitDir) then ret (pathResolve E (repositoryPath g) gitDir)
     else ret gitDir)
    (fun error =>
       throw (newGitOperationError
                ("Failed to get Git directory: " ++ errMessage error) (Some error))).

(** getRepositoryState: ordered checks, the first that applies decides. *)
Definition getRepositoryState : M t GitRepositoryState :=
  tryCatch
    (executeGitCommand "rev-parse --git-dir" ;;
     conflicted <-
       tryCatch (executeGitCommand "diff --check" ;; ret false)
                (fun error => ret (Js.includes "conflict" (errMessage error))) ;;
     if conflicted then ret conflict else
     gitDir <- getGitDirectory ;;
     E <- ask ;;
     inMerge <- fsAccess (pathJoin E gitDir "MERGE_HEAD") ;;
     if inMerge then ret merging else
     rebaseMerge <- fsAccess (pathJoin E gitDir "rebase-merge") ;;
     if rebaseMerge then ret rebasing else
     rebaseApply <- fsAccess (pathJoin E gitDir "rebase-apply") ;;
     if rebaseApply then ret rebasing else
     isDetached <-
       tryCatch (r <- executeGitCommand "symbolic-ref -q HEAD" ;;
                 ret (negb (nonEmpty (Js.trim (stdout r)))))
                (fun _ => ret true) ;;
     if isDetached then ret detached else
     changes <- hasChanges ;;
     ret (if changes then dirty else clean))
    (fun error =>
       logError "Failed to determine repository state" ;;
       ret unknown).

(** isRepositoryClean: the safety predicate. *)
Definition isRepositoryClean : M t bool :=
  tryCatch
    (state <- getRepositoryState ;;
     ret (match state with clean | dirty => true | _ => false end))
    (fun error =>
       logError "Failed to check repository state" ;;
       ret false).

(** escapeCommitMessage *)
Definition escapeCommitMessage (message : string) : string :=
  Js.trim
    (Js.replaceAll Js.nl " "
      (Js.replaceAll "$" (Js.backslash ++ "$")
        (Js.replaceAll "`" (Js.backslash ++ "`")
          (Js.replaceAll Js.dquote (Js.backslash ++ Js.dquote) message)))).

(** getLatestCommitHash *)
Definition getLatestCommitHash : M t string :=
  tryCatch
    (r <- executeGitCommand "rev-parse HEAD" ;; ret (Js.trim (stdout r)))
    (fun error =>
       throw (newGitOperationError
                ("Failed to get latest commit hash: " ++ errMessage error) (Some error))).

(** getChangedFilesFromCommit *)
Definition getChangedFilesFromCommit (commitHash : string) : M t (list string) :=
  tryCatch
    (r <- executeGitCommand ("diff-tree --no-commit-id --name-only -r " ++ commitHash) ;;
     ret (nonEmptyLines (stdout r)))
    (fun error =>
       defaultLogger_warn "Failed to get changed files from commit" ;;
       ret []).

(** createCommit: one attempt. *)
Definition createCommit (message : string) : M t string :=
  tryCatch
    (safe <- isRepositoryClean ;;
     (if negb safe
      then throw (newGitOperationError
                    "Repository is not in a clean state for auto-commit" None)
      else ret tt) ;;
     changes <- hasChanges ;;
     (if negb changes then throw (newGitOperationError "No changes to commit" None)
      else ret tt) ;;
     (if negb (nonEmpty message) || (String.length (Js.trim message) =? 0)%nat
      then throw (newGitOperationError "Commit message cannot be empty" None)
      else ret tt) ;;
     let escapedMessage := escapeCommitMessage message in
     logDebug "Adding changes to staging area" ;;
     executeGitCommand "add ." ;;
     status <- executeGitCommand "status --porcelain --cached" ;;
     (if negb (nonEmpty (Js.trim (stdout status)))
      then throw (newGitOperationError "No files were staged for commit" None)
      else ret tt) ;;
     logDebug "Creating commit" ;;
     executeGitCommand ("commit -m " ++ Js.dquote ++ escapedMessage ++ Js.dquote) ;;
     commitHash <- getLatestCommitHash ;;
     getChangedFilesFromCommit commitHash ;;
     logInfo "Successfully created commit" ;;
     ret commitHash)
    (fun error =>
       logError "Failed to create commit" ;;
       if isGitOperationError error then throw error
       else throw (newGitOperationError
                     ("Failed to create commit: " ++ errMessage error) (Some error))).

(** The test of the retry loop on a caught error: is it one that is not
    retried? *)
Definition dontRetry (error : JsError) : bool :=
  isGitOperationError error &&
  let errorMessage := Js.toLowerCase (errMessage error) in
  Js.includes "no changes" errorMessage
  || Js.includes "empty" errorMessage
  || Js.includes "not in a clean state" errorMessage.

(** The body of [for (attempt = 1; attempt <= maxRetries; attempt++)];
    [left] counts the iterations that remain, [lastError] is the variable
    of that name. *)
Fixpoint retryLoop (message : string) (maxRetries retryDelayMs : Z)
         (left : nat) (attempt : Z) (lastError : option JsError)
  : M t (string + option JsError) :=
  match left with
  | O => ret (inr lastError)
  | S left' =>
      r <- tryCatch
             (logDebug "Attempting to create commit" ;;
              h <- createCommit message ;;
              ret (inl h))
             (fun error =>
                (if dontRetry error then throw error else ret tt) ;;
                (if attempt <? maxRetries
                 then defaultLogger_warn "Commit attempt failed, retrying" ;;
                      sleep retryDelayMs
                 else ret tt) ;;
                ret (inr error)) ;;
      match r with
      | inl h => ret (inl h)
      | inr error =>
          retryLoop message maxRetries retryDelayMs left' (attempt + 1) (Some error)
      end
  end.

Definition optMessage (e : option JsError) : string :=
  match e with Some e => errMessage e | None => "undefined" end.

(** createCommitWithRetry *)
Definition createCommitWithRetry (message : string) (maxRetries retryDelayMs : Z)
  : M t string :=
  r <- retryLoop message maxRetries retryDelayMs (Z.to_nat maxRetries) 1 None ;;
  match r with
  | inl h => ret h
  | inr lastError =>
      throw (newGitOperationError
               ("Failed to create commit after " ++ Js.numToString maxRetries
                ++ " attempts: " ++ optMessage lastError)
               lastError)
  end.

(** The strings the template placeholders stand for, in the order of the
    object literal. *)
Definition placeholders (tza : Z) (now : Z) (analysis : FileAnalysis) (fs : list string)
  : list (string * string) :=
  let count := Js.numToString (Z.of_nat (List.length fs)) in
  [ ("{type}", FileAnalyzer.categoryName (changeType analysis));
    ("{count}", count);
    ("{files}", count);
    ("{summary}", summary analysis);
    ("{date}", hd "" (Js.split "T" (Date.toISOString now)));
    ("{time}", Date.timeOfDay tza now);
    ("{timestamp}", Date.toISOString now);
    ("{day}", Date.weekdayName (Date.WeekDay (Date.LocalTime tza now)));
    ("{month}", Date.monthName (Date.MonthFromTime (Date.LocalTime tza now)));
    ("{year}", Js.numToString (Date.YearFromTime (Date.LocalTime tza now))) ].

Definition replacePlaceholders (subst : list (string * string)) (template : string) : string :=
  fold_left (fun message pv => Js.replaceAll (fst pv) (snd pv) message) subst template.

(** applyMessageTemplate, at the time [now]. *)
Definition applyMessageTemplate (tza now : Z) (template : string)
           (analysis : FileAnalysis) (fs : list string) : string :=
  let message := replacePlaceholders (placeholders tza now analysis fs) template in
  let maxLength := 72%nat in
  if (maxLength <? String.length message)%nat
  then Js.take (maxLength - 3) message ++ "..."
  else message.

(** generateCommitMessage.  [if (customTemplate)] is false for a template
    that is absent ([None]) and for the empty string: both go on to the
    [switch] on the change type. *)
Definition generateCommitMessage (fs : list string) (customTemplate : option string)
  : M t string :=
  match fs with
  | [] => ret "chore: daily auto-commit (no changes detected)"
  | _ =>
    E <- ask ;;
    let analysis := FileAnalyzer.analyzeFiles E fs in
    let n := Js.numToString (Z.of_nat (List.length fs)) in
    let template := match customTemplate with Some template => template | None => "" end in
    if nonEmpty template then
      t0 <- now ;;
      ret (applyMessageTemplate (tza E) t0 template analysis fs)
    else
      ret (match changeType analysis with
           | code => "feat: update application code (" ++ n ++ " files)"
           | config => "config: update configuration files (" ++ n ++ " files)"
           | documentation => "docs: update documentation (" ++ n ++ " files)"
           | test => "test: update test files (" ++ n ++ " files)"
           | asset => "assets: update static assets (" ++ n ++ " files)"
           | dependency => "deps: update dependencies (" ++ n ++ " files)"
           | mixed => "chore: daily auto-commit with multiple updates (" ++ n ++ " files)"
           end)
  end.

(** isGitRepository *)
Definition isGitRepository : M t bool :=
  tryCatch (executeGitCommand "rev-parse --git-dir" ;; ret true) (fun _ => ret false).

(** getCurrentBranch *)
Definition getCurrentBranch : M t string :=
  tryCatch
    (r <- executeGitCommand "branch --show-current" ;; ret (Js.trim (stdout r)))
    (fun error =>
       tryCatch
         (r <- executeGitCommand "rev-parse --abbrev-ref HEAD" ;; ret (Js.trim (stdout r)))
         (fun _ =>
            throw (newGitOperationError
                     ("Failed to get current branch: " ++ errMessage error) (Some error)))).

Record RepositoryInfo := {
  isRepository : bool;
  currentBranch : option string;
  lastCommit : option string;
  info_hasChanges : bool;
  state : GitRepositoryState
}.

Definition notARepository : RepositoryInfo :=
  {| isRepository := false; currentBranch := None; lastCommit := None;
     info_hasChanges := false; state := unknown |}.

(** getRepositoryInfo; the four queries of [Promise.all] are run one after
    the other. *)
Definition getRepositoryInfo : M t RepositoryInfo :=
  tryCatch
    (isRepo <- isGitRepository ;;
     if negb isRepo then ret notARepository else
     branch <- tryCatch (b <- getCurrentBranch ;; ret (Some b)) (fun _ => ret None) ;;
     commit <- tryCatch (h <- getLatestCommitHash ;; ret (Some h)) (fun _ => ret None) ;;
     changes <- tryCatch hasChanges (fun _ => ret false) ;;
     st <- getRepositoryState ;;
     ret {| isRepository := true; currentBranch := branch; lastCommit := commit;
            info_hasChanges := changes; state := st |})
    (fun error =>
       logError "Failed to get repository info" ;;
       ret notARepository).

(** setRepositoryPath *)
Definition setRepositoryPath (path : string) : M t unit :=
  modify (fun g => {| repositoryPath := path; timeout := timeout g |}).

End GitManager.

(* ===================================================================== *)
(** * services/config.manager.ts *)
(* ===================================================================== *)

Module ConfigManager.

Record t := { configPath : string; cachedConfig : option AutoCommitConfig }.

(** validateConfig *)
Definition validateConfig (c : AutoCommitConfig) : bool := Validation.validateConfig c.

(** saveConfig *)
Definition saveConfig (c : AutoCommitConfig) : M t unit :=
  tryCatch
    ((if negb (Validation.validateConfig c)
      then throw (newConfigurationError
                    ("Cannot save invalid configuration: "
                     ++ Js.join ", " (Validation.validationErrors c)) None)
      else ret tt) ;;
     E <- ask ;;
     m <- get ;;
     fsMkdir (dirname E (configPath m)) ;;
     fsWriteFile (configPath m) (ConfigJson c) ;;
     modify (fun m => {| configPath := configPath m; cachedConfig := Some c |}))
    (fun error =>
       if isConfigurationError error then throw error
       else throw (newConfigurationError
                     ("Failed to save configuration: " ++ errMessage error) (Some error))).

End ConfigManager.

(* ===================================================================== *)
(** * services/scheduler.service.ts *)
(* ===================================================================== *)

Module Scheduler.

(** The task object of node-cron. *)
Record ScheduledTask := { expression : string }.

Record t := {
  task : option ScheduledTask;
  callback : option Callback;
  cronExpression : string;
  stateFilePath : string;
  state : SchedulerState.t
}.

Definition setTask (x : option ScheduledTask) (s : t) : t :=
  {| task := x; callback := callback s; cronExpression := cronExpression s;
     stateFilePath := stateFilePath s; state := state s |}.
Definition setCallback (x : option Callback) (s : t) : t :=
  {| task := task s; callback := x; cronExpression := cronExpression s;
     stateFilePath := stateFilePath s; state := state s |}.
Definition setCronExpression (x : string) (s : t) : t :=
  {| task := task s; callback := callback s; cronExpression := x;
     stateFilePath := stateFilePath s; state := state s |}.
Definition setState (x : SchedulerState.t) (s : t) : t :=
  {| task := task s; callback := callback s; cronExpression := cronExpression s;
     stateFilePath := stateFilePath s; state := x |}.

Local Abbreviation lastRun := SchedulerState.lastRun.
Local Abbreviation nextRun := SchedulerState.nextRun.
Local Abbreviation isActive := SchedulerState.isActive.
Local Abbreviation missedExecutions := SchedulerState.missedExecutions.
Local Abbreviation mk := SchedulerState.mk.

Definition stLastRun (x : option string) (st : SchedulerState.t) :=
  mk x (nextRun st) (isActive st) (SchedulerState.cronExpression st) (missedExecutions st).
Definition stNextRun (x : option string) (st : SchedulerState.t) :=
  mk (lastRun st) x (isActive st) (SchedulerState.cronExpression st) (missedExecutions st).
Definition stIsActive (x : bool) (st : SchedulerState.t) :=
  mk (lastRun st) (nextRun st) x (SchedulerState.cronExpression st) (missedExecutions st).
Definition stCronExpression (x : string) (st : SchedulerState.t) :=
  mk (lastRun st) (nextRun st) (isActive st) x (missedExecutions st).
Definition stMissedExecutions (x : list string) (st : SchedulerState.t) :=
  mk (lastRun st) (nextRun st) (isActive st) (SchedulerState.cronExpression st) x.

Definition modifyState (f : SchedulerState.t -> SchedulerState.t) : M t unit :=
  modify (fun s => setState (f (state s)) s).

(** The constructor. *)
Definition new (stateFilePath : string) : t :=
  {| task := None; callback := None; cronExpression := "";
     stateFilePath := stateFilePath;
     state := mk None None false "" [] |}.

Definition orElse {A} (a : option A) (b : option A) : option A :=
  match a with Some _ => a | None => b end.
Definition orDefault {A} (a : option A) (b : A) : A :=
  match a with Some x => x | None => b end.

(** [JSON.stringify(this.state)] and [JSON.parse(stateData)]. *)
Definition stringify (st : SchedulerState.t) : FileData :=
  StateJson {| l_lastRun := lastRun st; l_nextRun := nextRun st;
               l_isActive := Some (isActive st);
               l_cronExpression := Some (SchedulerState.cronExpression st);
               l_missedExecutions := Some (missedExecutions st) |}.

Definition noKeys : LoadedState :=
  {| l_lastRun := None; l_nextRun := None; l_isActive := None;
     l_cronExpression := None; l_missedExecutions := None |}.

Definition parse {S} (d : FileData) : M S LoadedState :=
  match d with
  | StateJson j => ret j
  | ConfigJson _ => ret noKeys
  | Text _ => throw (MkError SyntaxError "Unexpected token in JSON" None None)
  end.

(** [{ ...this.state, ...loadedState,
       missedExecutions: loadedState.missedExecutions || [] }] *)
Definition merge (st : SchedulerState.t) (j : LoadedState) : SchedulerState.t :=
  mk (orElse (l_lastRun j) (lastRun st))
     (orElse (l_nextRun j) (nextRun st))
     (orDefault (l_isActive j) (isActive st))
     (orDefault (l_cronExpression j) (SchedulerState.cronExpression st))
     (orDefault (l_missedExecutions j) []).

(** saveState *)
Definition saveState : M t unit :=
  tryCatch
    (E <- ask ;;
     s <- get ;;
     fsMkdir (pathJoin E (stateFilePath s) "..") ;;
     s <- get ;;
     fsWriteFile (stateFilePath s) (stringify (state s)))
    (fun error => logError "Failed to save scheduler state").

(** loadState *)
Definition loadState : M t unit :=
  tryCatch
    (s <- get ;;
     stateData <- fsReadFile (stateFilePath s) ;;
     loadedState <- parse stateData ;;
     modifyState (fun st => merge st loadedState))
    (fun error =>
       if hasCode "ENOENT" error
       then logDebug "No scheduler state file found, using defaults"
       else logError "Failed to load scheduler state").

(** getNextCronDate *)
Definition getNextCronDate (tza : Z) (cronExpression : string) (fromDate : Date.t)
  : Res Date.t :=
  let parts := Js.split " " cronExpression in
  if negb (List.length parts =? 5)%nat then Throw (newError "Invalid cron expression format")
  else
    let minute := nth 0 parts "" in
    let hour := nth 1 parts "" in
    let next := fromDate in
    let next := Date.setSeconds tza next (Some 0) in
    let next := Date.setMilliseconds tza next (Some 0) in
    let next := if negb (String.eqb minute "*")
                then Date.setMinutes tza next (Js.parseInt minute) else next in
    let next := if negb (String.eqb hour "*")
                then Date.setHours tza next (Js.parseInt hour) else next in
    let next := if Date.leb next fromDate
                then Date.setDate tza next (option_map (fun d => d + 1) (Date.getDate tza next))
                else next in
    Ok next.

Definition liftRes {S A} (r : Res A) : M S A :=
  match r with Ok a => ret a | Throw e => throw e end.

(** [d.toISOString()], which throws on the invalid date. *)
Definition toISOString {S} (d : Date.t) : M S string :=
  match d with
  | Some u => ret (Date.toISOString u)
  | None => throw (MkError RangeError "Invalid time value" None None)
  end.

(** calculateNextRun *)
Definition calculateNextRun : M t unit :=
  s <- get ;;
  if String.eqb (cronExpression s) "" then ret tt else
  tryCatch
    (E <- ask ;;
     t0 <- now ;;
     nextRun <- liftRes (getNextCronDate (tza E) (cronExpression s) (Some t0)) ;;
     iso <- toISOString nextRun ;;
     modifyState (stNextRun (Some iso)))
    (fun error => logError "Failed to calculate next run time").

(** updateLastRun *)
Definition updateLastRun : M t unit :=
  t0 <- now ;;
  modifyState (stLastRun (Some (Date.toISOString t0))) ;;
  calculateNextRun.

(** [new Date(d.getFullYear(), d.getMonth(), d.getDate())] *)
Definition calendarDate (tza : Z) (d : Date.t) : Date.t :=
  Date.ofYMD tza (Date.getFullYear tza d) (Date.getMonth tza d) (Date.getDate tza d).

(** shouldHaveRunSince; nothing in its [try] block throws. *)
Definition shouldHaveRunSince (tza : Z) (s : t) (lastRun currentTime : Date.t) : bool :=
  if String.eqb (cronExpression s) "" then false
  else
    let lastRunDate := calendarDate tza lastRun in
    let currentDate := calendarDate tza currentTime in
    Date.gtb currentDate lastRunDate.

(** isRunning *)
Definition isRunning (s : t) : bool :=
  match task s with Some _ => isActive (state s) | None => false end.

(** stop; the promise of [saveState] is not awaited and cannot reject.
    The write is modelled where the call is made; in the code the file is
    written when the promise is run, with the state of that moment. *)
Definition stop : M t unit :=
  s <- get ;;
  match task s with
  | Some _ =>
      tryCatch
        (emit EvTaskStop ;;
         emit EvTaskDestroy ;;
         modify (setTask None) ;;
         modifyState (stIsActive false) ;;
         logInfo "Scheduler stopped" ;;
         saveState)
        (fun error => logError "Error stopping scheduler")
  | None => ret tt
  end.

(** schedule *)
Definition schedule (cronExpr : string) (cb : Callback) : M t unit :=
  tryCatch
    (E <- ask ;;
     (if negb (cronValidate E cronExpr)
      then throw (newSchedulerError ("Invalid cron expression: " ++ cronExpr) None)
      else ret tt) ;;
     stop ;;
     modify (setCallback (Some cb)) ;;
     modify (setCronExpression cronExpr) ;;
     emit (EvTaskCreate cronExpr) ;;
     modify (setTask (Some {| expression := cronExpr |})) ;;
     modifyState (stCronExpression cronExpr) ;;
     modifyState (stIsActive false) ;;
     calculateNextRun ;;
     logInfo "Scheduler configured")
    (fun error =>
       let message := "Failed to schedule task: " ++ errMessage error in
       logError message ;;
       throw (newSchedulerError message (Some error))).

(** start; the promise of [saveState] is not awaited, as in [stop]. *)
Definition start : M t unit :=
  s <- get ;;
  match task s with
  | None => throw (newSchedulerError "No task scheduled. Call schedule() first." None)
  | Some _ =>
      if isRunning s then logDebug "Scheduler is already running"
      else
        tryCatch
          (emit EvTaskStart ;;
           modifyState (stIsActive true) ;;
           calculateNextRun ;;
           logInfo "Scheduler started" ;;
           saveState)
          (fun error =>
             let message := "Failed to start scheduler: " ++ errMessage error in
             logError message ;;
             throw (newSchedulerError message (Some error)))
  end.

(** updateSchedule *)
Definition updateSchedule (cronExpr : string) : M t unit :=
  s <- get ;;
  if String.eqb cronExpr (cronExpression s)
  then logDebug "Cron expression unchanged, skipping update"
  else
    let wasRunning := isRunning s in
    match callback s with
    | Some cb =>
        schedule cronExpr cb ;;
        (if wasRunning then start else ret tt) ;;
        logInfo "Scheduler updated with new cron expression"
    | None => ret tt
    end.

(** [arr.slice(-10)] *)
Definition lastTen (l : list string) : list string := skipn (List.length l - 10) l.

(** The two statements that log a missed run: [push], then the cut. *)
Definition recordMissed (iso : string) (l : list string) : list string :=
  let l := (l ++ [iso])%list in
  if (10 <? List.length l)%nat then lastTen l else l.

Definition truthy (s : option string) : bool :=
  match s with Some x => negb (String.eqb x "") | None => false end.

(** The block of [handleMissedExecutions] under [if (shouldHaveRun)];
    [t0] is the [now] of the method. *)
Definition recoverMissedRun (cb : Callback) (t0 : Z) : M t bool :=
  logInfo "Detected missed execution, executing now" ;;
  modifyState (fun st =>
    stMissedExecutions (recordMissed (Date.toISOString t0) (missedExecutions st)) st) ;;
  tryCatch
    (call cb ;;
     updateLastRun ;;
     saveState ;;
     ret true)
    (fun error =>
       logError "Failed to execute missed callback" ;;
       throw error).

(** handleMissedExecutions *)
Definition handleMissedExecutions : M t bool :=
  tryCatch
    (loadState ;;
     s <- get ;;
     match callback s with
     | Some cb =>
       if negb (truthy (lastRun (state s))) then ret false else
       E <- ask ;;
       let lastRun := dateParse E (orDefault (lastRun (state s)) "") in
       t0 <- now ;;
       let shouldHaveRun := shouldHaveRunSince (tza E) s lastRun (Some t0) in
       if shouldHaveRun then recoverMissedRun cb t0 else ret false
     | None => ret false
     end)
    (fun error =>
       logError "Failed to handle missed executions" ;;
       ret false).

End Scheduler.

(* ===================================================================== *)
(** * services/auto-commit.service.ts *)
(* ===================================================================== *)

Module AutoCommitService.

Record t := {
  gitManager : GitManager.t;
  scheduler : Scheduler.t;
  configManager : ConfigManager.t;
  logger : Logger;
  config : option AutoCommitConfig;
  isInitialized : bool;
  isServiceRunning : bool;
  totalCommits : Z;
  lastCommitDate : option Z;
  lastError : option string
}.

Definition setGitManager (x : GitManager.t) (s : t) : t :=
  {| gitManager := x; scheduler := scheduler s; configManager := configManager s;
     logger := logger s; config := config s; isInitialized := isInitialized s;
     isServiceRunning := isServiceRunning s; totalCommits := totalCommits s;
     lastCommitDate := lastCommitDate s; lastError := lastError s |}.
Definition setScheduler (x : Scheduler.t) (s : t) : t :=
  {| gitManager := gitManager s; scheduler := x; configManager := configManager s;
     logger := logger s; config := config s; isInitialized := isInitialized s;
     isServiceRunning := isServiceRunning s; totalCommits := totalCommits s;
     lastCommitDate := lastCommitDate s; lastError := lastError s |}.
Definition setConfigManager (x : ConfigManager.t) (s : t) : t :=
  {| gitManager := gitManager s; scheduler := scheduler s; configManager := x;
     logger := logger s; config := config s; isInitialized := isInitialized s;
     isServiceRunning := isServiceRunning s; totalCommits := totalCommits s;
     lastCommitDate := lastCommitDate s; lastError := lastError s |}.
Definition setLogger (x : Logger) (s : t) : t :=
  {| gitManager := gitManager s; scheduler := scheduler s;
     configManager := configManager s;
     logger := x; config := config s; isInitialized := isInitialized s;
     isServiceRunning := isServiceRunning s; totalCommits := totalCommits s;
     lastCommitDate := lastCommitDate s; lastError := lastError s |}.
Definition setConfig (x : option AutoCommitConfig) (s : t) : t :=
  {| gitManager := gitManager s; scheduler := scheduler s;
     configManager := configManager s;
     logger := logger s; config := x; isInitialized := isInitialized s;
     isServiceRunning := isServiceRunning s; totalCommits := totalCommits s;
     lastCommitDate := lastCommitDate s; lastError := lastError s |}.
Definition setIsServiceRunning (x : bool) (s : t) : t :=
  {| gitManager := gitManager s; scheduler := scheduler s;
     configManager := configManager s;
     logger := logger s; config := config s; isInitialized := isInitialized s;
     isServiceRunning := x; totalCommits := totalCommits s;
     lastCommitDate := lastCommitDate s; lastError := lastError s |}.
Definition setTotalCommits (x : Z) (s : t) : t :=
  {| gitManager := gitManager s; scheduler := scheduler s;
     configManager := configManager s;
     logger := logger s; config := config s; isInitialized := isInitialized s;
     isServiceRunning := isServiceRunning s; totalCommits := x;
     lastCommitDate := lastCommitDate s; lastError := lastError s |}.
Definition setLastCommitDate (x : option Z) (s : t) : t :=
  {| gitManager := gitManager s; scheduler := scheduler s;
     configManager := configManager s;
     logger := logger s; config := config s; isInitialized := isInitialized s;
     isServiceRunning := isServiceRunning s; totalCommits := totalCommits s;
     lastCommitDate := x; lastError := lastError s |}.
Definition setLastError (x : option string) (s : t) : t :=
  {| gitManager := gitManager s; scheduler := scheduler s;
     configManager := configManager s;
     logger := logger s; config := config s; isInitialized := isInitialized s;
     isServiceRunning := isServiceRunning s; totalCommits := totalCommits s;
     lastCommitDate := lastCommitDate s; lastError := x |}.

(** Calls into the three components. *)
Definition git {A} (m : M GitManager.t A) : M t A := zoom gitManager setGitManager m.
Definition sched {A} (m : M Scheduler.t A) : M t A := zoom scheduler setScheduler m.
Definition conf {A} (m : M ConfigManager.t A) : M t A :=
  zoom configManager setConfigManager m.

Definition warn (text : string) : M t unit :=
  s <- get ;; logger_warn (logger s) text.

(** [logger.setLogLevel] *)
Definition setLogLevel (lv : LogLevel) : M t unit :=
  modify (fun s => setLogger {| hasWarn := hasWarn (logger s); level := lv |} s).

Definition stateName (st : GitRepositoryState) : string :=
  match st with
  | clean => "clean" | dirty => "dirty" | merging => "merging"
  | rebasing => "rebasing" | detached => "detached" | conflict => "conflict"
  | unknown => "unknown"
  end.

(** executeCommit *)
Definition executeCommit : M t CommitResult :=
  startTime <- now ;;
  logInfo "Starting commit execution" ;;
  tryCatch
    (s <- get ;;
     match config s with
     | None => throw (newConfigurationError "Configuration not loaded" None)
     | Some cfg =>
       logDebug "Checking for uncommitted changes" ;;
       hasChanges <- git GitManager.hasChanges ;;
       if negb hasChanges then
         logInfo "No changes to commit, skipping" ;;
         ret {| success := true; commitHash := None; message := "No changes to commit";
                timestamp := startTime; filesChanged := 0; error := None |}
       else
       logDebug "Changes detected, proceeding with commit" ;;
       logDebug "Checking repository state" ;;
       isClean <- git GitManager.isRepositoryClean ;;
       if negb isClean then
         repoInfo <- git GitManager.getRepositoryInfo ;;
         let warningMessage :=
           "Repository is not in a clean state ("
           ++ stateName (GitManager.state repoInfo) ++ "), skipping auto-commit" in
         warn warningMessage ;;
         modify (setLastError (Some warningMessage)) ;;
         ret {| success := false; commitHash := None; message := warningMessage;
                timestamp := startTime; filesChanged := 0;
                error := Some ("Repository state: "
                               ++ stateName (GitManager.state repoInfo)) |}
       else
       logDebug "Getting list of changed files" ;;
       changedFiles <- git GitManager.getChangedFiles ;;
       let n := Z.of_nat (List.length changedFiles) in
       logInfo "Changed files detected" ;;
       logDebug "Generating commit message" ;;
       commitMessage <-
         git (GitManager.generateCommitMessage changedFiles (Some (messageTemplate cfg))) ;;
       logInfo "Commit message generated" ;;
       logDebug "Creating commit" ;;
       outcome <-
         tryCatch
           (h <- git (GitManager.createCommitWithRetry commitMessage
                        (retryAttempts cfg) (retryDelayMs cfg)) ;;
            ret (inl h))
           (fun error =>
              let errorMessage := errMessage error in
              logError "Failed to create commit" ;;
              modify (setLastError (Some errorMessage)) ;;
              ret (inr {| success := false; commitHash := None;
                          message := commitMessage; timestamp := startTime;
                          filesChanged := n; error := Some errorMessage |})) ;;
       match outcome with
       | inr failure => ret failure
       | inl hash =>
           modify (fun s => setTotalCommits (totalCommits s + 1) s) ;;
           modify (setLastCommitDate (Some startTime)) ;;
           modify (setLastError None) ;;
           logInfo "Commit created successfully" ;;
           ret {| success := true; commitHash := Some hash; message := commitMessage;
                  timestamp := startTime; filesChanged := n; error := None |}
       end
     end)
    (fun error =>
       let errorMessage := errMessage error in
       logError "Unexpected error during commit execution" ;;
       modify (setLastError (Some errorMessage)) ;;
       ret {| success := false; commitHash := None;
              message := "Commit execution failed"; timestamp := startTime;
              filesChanged := 0; error := Some errorMessage |}).

(** A handler shared by [start], [stop] and [updateConfig]: record the
    text of the error, log it, throw it again. *)
Definition recordAndRethrow {A} (what : string) (error : JsError) : M t A :=
  modify (setLastError (Some (errMessage error))) ;;
  logError what ;;
  throw error.

(** start *)
Definition start : M t unit :=
  tryCatch
    (s <- get ;;
     if negb (isInitialized s)
     then throw (newError "Service not initialized. Call initialize() first.") else
     match config s with
     | None => throw (newConfigurationError "Configuration not loaded" None)
     | Some cfg =>
       if negb (enabled cfg)
       then logInfo "Auto-commit service is disabled in configuration" else
       if isServiceRunning s then logDebug "Service is already running" else
       logInfo "Starting auto-commit service" ;;
       sched (Scheduler.schedule (commitTime cfg) ExecuteCommitThunk) ;;
       sched Scheduler.start ;;
       modify (setIsServiceRunning true) ;;
       logInfo "Auto-commit service started successfully"
     end)
    (recordAndRethrow "Failed to start auto-commit service").

(** stop *)
Definition stop : M t unit :=
  tryCatch
    (logInfo "Stopping auto-commit service" ;;
     s <- get ;;
     if negb (isServiceRunning s) then logDebug "Service is not running" else
     sched Scheduler.stop ;;
     modify (setIsServiceRunning false) ;;
     logInfo "Auto-commit service stopped successfully")
    (recordAndRethrow "Failed to stop auto-commit service").

(** [{ ...this.config, ...newConfig }] *)
Definition mergeConfig (c : AutoCommitConfig) (n : PartialConfig) : AutoCommitConfig :=
  {| enabled := Scheduler.orDefault (p_enabled n) (enabled c);
     commitTime := Scheduler.orDefault (p_commitTime n) (commitTime c);
     messageTemplate := Scheduler.orDefault (p_messageTemplate n) (messageTemplate c);
     excludePatterns := Scheduler.orDefault (p_excludePatterns n) (excludePatterns c);
     logLevel := Scheduler.orDefault (p_logLevel n) (logLevel c);
     repositoryPath := Scheduler.orElse (p_repositoryPath n) (repositoryPath c);
     maxCommitMessageLength :=
       Scheduler.orDefault (p_maxCommitMessageLength n) (maxCommitMessageLength c);
     retryAttempts := Scheduler.orDefault (p_retryAttempts n) (retryAttempts c);
     retryDelayMs := Scheduler.orDefault (p_retryDelayMs n) (retryDelayMs c) |}.

(** The condition of the step that updates the scheduler:
    [newConfig.commitTime && newConfig.commitTime !== this.config.commitTime],
    evaluated on the configuration the service holds at that point. *)
Definition commitTimeChanged (n : PartialConfig) (held : option AutoCommitConfig) : bool :=
  match p_commitTime n, held with
  | Some time, Some cfg => Scheduler.truthy (Some time) && negb (String.eqb time (commitTime cfg))
  | _, _ => false
  end.

(** updateConfig *)
Definition updateConfig (newConfig : PartialConfig) : M t unit :=
  tryCatch
    (s <- get ;;
     match config s with
     | None => throw (newConfigurationError "Configuration not loaded" None)
     | Some cfg =>
       logInfo "Updating configuration" ;;
       let updatedConfig := mergeConfig cfg newConfig in
       (if negb (ConfigManager.validateConfig updatedConfig)
        then throw (newConfigurationError "Invalid configuration" None) else ret tt) ;;
       conf (ConfigManager.saveConfig updatedConfig) ;;
       s <- get ;;
       let wasRunning := isServiceRunning s in
       (if wasRunning then stop else ret tt) ;;
       modify (setConfig (Some updatedConfig)) ;;
       setLogLevel (logLevel updatedConfig) ;;
       (if Scheduler.truthy (p_repositoryPath newConfig)
        then git (GitManager.setRepositoryPath
                    (Scheduler.orDefault (p_repositoryPath newConfig) ""))
        else ret tt) ;;
       s <- get ;;
       (if commitTimeChanged newConfig (config s)
        then sched (Scheduler.updateSchedule (Scheduler.orDefault (p_commitTime newConfig) ""))
        else ret tt) ;;
       (if wasRunning && enabled updatedConfig then start else ret tt) ;;
       logInfo "Configuration updated successfully"
     end)
    (recordAndRethrow "Failed to update configuration").

End AutoCommitService.

(* ===================================================================== *)
(** * Vocabulary of the statements *)
(* ===================================================================== *)

Module Spec.

(** ** Traces *)

(** [tr'] is [tr] followed by events that all pass the test [q]. *)
Definition extends (q : Event -> bool) (tr tr' : Trace) : Prop :=
  exists d, tr' = (tr ++ d)%list /\ forallb q d = true.

(** Whatever the environment answers, [m] adds only events that pass [q]. *)
Definition emitsOnly {S A} (q : Event -> bool) (m : M S A) : Prop :=
  forall E s tr r s' tr', m E s tr = (r, s', tr') -> extends q tr tr'.

(** A method that leaves the fields of its object as they are. *)
Definition readOnly {S A} (m : M S A) : Prop :=
  forall E s tr r s' tr', m E s tr = (r, s', tr') -> s' = s.

(** ** The retrying commit *)

(** The loop announces every attempt with one debug line. *)
Definition isAttempt (ev : Event) : bool :=
  match ev with
  | EvLog SDebug text => String.eqb text "Attempting to create commit"
  | _ => false
  end.

Definition isSleep (ev : Event) : bool :=
  match ev with EvSleep _ => true | _ => false end.

(** The number of attempts and the delays slept, as the trace shows them. *)
Definition attempts (tr : Trace) : nat := List.length (filter isAttempt tr).

Definition delays (tr : Trace) : list Z :=
  flat_map (fun ev => match ev with EvSleep ms => [ms] | _ => [] end) tr.

Definition quiet (ev : Event) : bool := negb (isAttempt ev) && negb (isSleep ev).

(** The errors of the three preconditions of an attempt, as [createCommit]
    throws them. *)
Definition UnsafeStateError : JsError :=
  newGitOperationError "Repository is not in a clean state for auto-commit" None.

Definition NoChangesError : JsError := newGitOperationError "No changes to commit" None.

Definition EmptyMessageError : JsError :=
  newGitOperationError "Commit message cannot be empty" None.

Definition preconditionError (e : JsError) : Prop :=
  e = NoChangesError \/ e = EmptyMessageError \/ e = UnsafeStateError.

(** ** The message template *)

(** A placeholder is an opening brace, a name without braces and a
    closing brace. *)
Fixpoint closes (r : string) : bool :=
  match r with
  | EmptyString => false
  | String c r' =>
      if Ascii.eqb c "}" then String.eqb r' ""
      else if Ascii.eqb c "{" then false
      else closes r'
  end.

Definition placeholderShape (p : string) : bool :=
  match p with
  | String c r => Ascii.eqb c "{" && closes r
  | EmptyString => false
  end.

Definition knownPlaceholders : list string :=
  ["{type}"; "{count}"; "{files}"; "{summary}"; "{date}"; "{time}"; "{timestamp}";
   "{day}"; "{month}"; "{year}"].

(** ** The scheduler *)

(** The candidate of the next-run computation: the local day of [u] at
    [h]:[m]:00.000. *)
Definition todayAt (tza u h m : Z) : Z :=
  Date.UTC tza (Date.MakeDate (Date.Day (Date.LocalTime tza u)) (Date.MakeTime h m 0 0)).

Definition isCall (ev : Event) : bool :=
  match ev with EvCall _ => true | _ => false end.

Definition isWrite (ev : Event) : bool :=
  match ev with EvWriteFile _ _ => true | _ => false end.

(** How often a callback was called, and what was written to files. *)
Definition calls (tr : Trace) : nat := List.length (filter isCall tr).

Definition writes (tr : Trace) : Trace := filter isWrite tr.

Definition noCall (ev : Event) : bool := negb (isCall ev).

(** The local calendar day of a time value. *)
Definition localDay (tza u : Z) : Z := Date.Day (Date.LocalTime tza u).

(** What the scheduler keeps across the refresh of its run times. *)
Definition sameBook (s s' : Scheduler.t) : Prop :=
  Scheduler.task s' = Scheduler.task s
  /\ Scheduler.callback s' = Scheduler.callback s
  /\ Scheduler.cronExpression s' = Scheduler.cronExpression s
  /\ Scheduler.stateFilePath s' = Scheduler.stateFilePath s
  /\ SchedulerState.missedExecutions (Scheduler.state s')
     = SchedulerState.missedExecutions (Scheduler.state s)
  /\ SchedulerState.isActive (Scheduler.state s')
     = SchedulerState.isActive (Scheduler.state s)
  /\ SchedulerState.cronExpression (Scheduler.state s')
     = SchedulerState.cronExpression (Scheduler.state s).

(** ** The service *)

(** What a failed run leaves in [lastError]: the text of the error the
    result reports, or, for a repository that is not safe, the message that
    names its state. *)
Definition failureRecorded (res : CommitResult) (s' : AutoCommitService.t) : Prop :=
  success res = false ->
  exists text,
    AutoCommitService.lastError s' = Some text /\
    (error res = Some text \/
     exists st,
       text = "Repository is not in a clean state (" ++ AutoCommitService.stateName st
              ++ "), skipping auto-commit"
       /\ message res = text
       /\ error res = Some ("Repository state: " ++ AutoCommitService.stateName st)).

(** How a run of [executeCommit] ends: with nothing to commit, at a
    repository that is not safe, at an error of the commit (after the
    retries), at any other error, or with a commit. *)
Inductive Ending :=
| NothingToCommit
| UnsafeState (st : GitRepositoryState)
| CommitError (commitMessage : string) (files : Z) (e : JsError)
| InternalError (e : JsError)
| Committed (commitMessage : string) (files : Z) (hash : string).

(** The trace after the given lines were logged. *)
Definition logged (tr : Trace) (lines : list (Severity * string)) : Trace :=
  fold_left (fun tr l => tr ++ [EvLog (fst l) (snd l)])%list lines tr.

(** The ending of the run that starts in the service [s] after [tr], read
    off the calls of the run into the git manager, each at the point of the
    run where it is made: the first of them that throws, or that reports no
    change or a state that is not safe, decides. *)
Definition ending (E : Env) (s : AutoCommitService.t) (tr : Trace) : Ending :=
  match AutoCommitService.config s with
  | None => InternalError (newConfigurationError "Configuration not loaded" None)
  | Some cfg =>
    match GitManager.hasChanges E (AutoCommitService.gitManager s)
            (logged tr [(SInfo, "Starting commit execution");
                        (SDebug, "Checking for uncommitted changes")]) with
    | (Throw e, _, _) => InternalError e
    | (Ok false, _, _) => NothingToCommit
    | (Ok true, g1, tr1) =>
      match GitManager.isRepositoryClean E g1
              (logged tr1 [(SDebug, "Changes detected, proceeding with commit");
                           (SDebug, "Checking repository state")]) with
      | (Throw e, _, _) => InternalError e
      | (Ok false, g2, tr2) =>
        match GitManager.getRepositoryInfo E g2 tr2 with
        | (Throw e, _, _) => InternalError e
        | (Ok repoInfo, _, _) =>
            if hasWarn (AutoCommitService.logger s)
            then UnsafeState (GitManager.state repoInfo)
            else InternalError (newTypeError "this.logger.warn is not a function")
        end
      | (Ok true, g2, tr2) =>
        match GitManager.getChangedFiles E g2
                (logged tr2 [(SDebug, "Getting list of changed files")]) with
        | (Throw e, _, _) => InternalError e
        | (Ok changedFiles, g3, tr3) =>
          let n := Z.of_nat (List.length changedFiles) in
          match GitManager.generateCommitMessage changedFiles (Some (messageTemplate cfg))
                  E g3 (logged tr3 [(SInfo, "Changed files detected");
                                    (SDebug, "Generating commit message")]) with
          | (Throw e, _, _) => InternalError e
          | (Ok commitMessage, g4, tr4) =>
            match GitManager.createCommitWithRetry commitMessage
                    (retryAttempts cfg) (retryDelayMs cfg) E g4
                    (logged tr4 [(SInfo, "Commit message generated");
                                 (SDebug, "Creating commit")]) with
            | (Throw e, _, _) => CommitError commitMessage n e
            | (Ok hash, _, _) => Committed commitMessage n hash
            end
          end
        end
      end
    end
  end.

(** The three failure modes. *)
Definition failureMode (x : Ending) : bool :=
  match x with
  | UnsafeState _ | CommitError _ _ _ | InternalError _ => true
  | NothingToCommit | Committed _ _ _ => false
  end.

Definition unsafeMessage (st : GitRepositoryState) : string :=
  "Repository is not in a clean state (" ++ AutoCommitService.stateName st
  ++ "), skipping auto-commit".

(** The text of the failure: the message of the error that was thrown or,
    for a state that is not safe, the message that names the state. *)
Definition underlyingText (x : Ending) : option string :=
  match x with
  | UnsafeState st => Some (unsafeMessage st)
  | CommitError _ _ e => Some (errMessage e)
  | InternalError e => Some (errMessage e)
  | NothingToCommit | Committed _ _ _ => None
  end.

(** The result object of a run that started at [startTime]. *)
Definition resultOf (startTime : Z) (x : Ending) : CommitResult :=
  match x with
  | NothingToCommit =>
      {| success := true; commitHash := None; message := "No changes to commit";
         timestamp := startTime; filesChanged := 0; error := None |}
  | UnsafeState st =>
      {| success := false; commitHash := None; message := unsafeMessage st;
         timestamp := startTime; filesChanged := 0;
         error := Some ("Repository state: " ++ AutoCommitService.stateName st) |}
  | CommitError commitMessage n e =>
      {| success := false; commitHash := None; message := commitMessage;
         timestamp := startTime; filesChanged := n; error := Some (errMessage e) |}
  | InternalError e =>
      {| success := false; commitHash := None; message := "Commit execution failed";
         timestamp := startTime; filesChanged := 0; error := Some (errMessage e) |}
  | Committed commitMessage n hash =>
      {| success := true; commitHash := Some hash; message := commitMessage;
         timestamp := startTime; filesChanged := n; error := None |}
  end.

(** ** The classifier *)

(** The commands that stage or commit. *)
Definition isStagingOrCommit (ev : Event) : bool :=
  match ev with
  | EvExec _ command =>
      Js.startsWith "git add" command || Js.startsWith "git commit" command
  | _ => false
  end.

Definition noStaging (ev : Event) : bool := negb (isStagingOrCommit ev).

(** Does the rejection of [git diff --check] count as a conflict? *)
Definition reportsConflict (o : ExecOutcome) : bool :=
  match o with
  | ExecOk _ => false
  | ExecFail m se so => Js.includes "conflict" (GitManager.failureMessage m se so)
  end.

(** The directory of the repository's metadata, from the answer of
    [git rev-parse --git-dir]. *)
Definition gitDirOf (E : Env) (g : GitManager.t) (r : ExecResult) : string :=
  let d := Js.trim (stdout r) in
  if isAbsolute E d then d else pathResolve E (GitManager.repositoryPath g) d.

(** The repository as the classifier finds it in the middle of a merge:
    a repository, no conflict reported by the check, the marker present. *)
Record MidMerge (E : Env) (g : GitManager.t) (rdir : ExecResult) : Prop := {
  mm_repository :
    forall tr,
      exec E tr (GitManager.repositoryPath g) "git rev-parse --git-dir" = ExecOk rdir;
  mm_no_conflict :
    forall tr,
      reportsConflict (exec E tr (GitManager.repositoryPath g) "git diff --check") = false;
  mm_marker :
    forall tr, access E tr (pathJoin E (gitDirOf E g rdir) "MERGE_HEAD") = true
}.

(** Uncommitted modifications, at every query. *)
Definition Modified (E : Env) (g : GitManager.t) (rstat : ExecResult) : Prop :=
  (forall tr,
     exec E tr (GitManager.repositoryPath g) "git status --porcelain" = ExecOk rstat)
  /\ (0 <? String.length (Js.trim (stdout rstat)))%nat = true.

(** The result of a run skipped for a merge in progress. *)
Definition skippedForMerge (t0 : Z) : CommitResult :=
  {| success := false; commitHash := None;
     message := "Repository is not in a clean state (merging), skipping auto-commit";
     timestamp := t0; filesChanged := 0;
     error := Some "Repository state: merging" |}.

End Spec.

(* ===================================================================== *)
(** * Sample environments *)
(* ===================================================================== *)

Module Sample.

(** [new Date(s)] for the strings [toISOString] writes (four digit years). *)
Definition digitsAt (s : string) (i n : nat) : option Z :=
  let part := substring i n s in
  if forallb Js.isDigit (list_ascii_of_string part) && (String.length part =? n)%nat
  then Js.parseInt part else None.

Definition parseISO (s : string) : Date.t :=
  match digitsAt s 0 4, digitsAt s 5 2, digitsAt s 8 2,
        digitsAt s 11 2, digitsAt s 14 2, digitsAt s 17 2, digitsAt s 20 3 with
  | Some y, Some mo, Some d, Some h, Some mi, Some sec, Some ms =>
      if String.eqb (substring 4 1 s ++ substring 7 1 s ++ substring 10 1 s
                     ++ substring 13 1 s ++ substring 16 1 s ++ substring 19 1 s
                     ++ substring 23 2 s) "--T::.Z"
      then Some (Date.MakeDate (Date.MakeDay y (mo - 1) d) (Date.MakeTime h mi sec ms))
      else None
  | _, _, _, _, _, _, _ => None
  end.

Definition ok (out : string) : ExecOutcome := ExecOk {| stdout := out; stderr := "" |}.

(** A child process that answers by the command alone. *)
Definition answer (answers : list (string * ExecOutcome)) (command : string) : ExecOutcome :=
  match find (fun a => String.eqb (fst a) command) answers with
  | Some a => snd a
  | None => ExecFail ("Command failed: " ++ command) "" ""
  end.

(** An environment in UTC with POSIX paths: the clock, the answers of git,
    the paths that exist, the content of the state file and what the
    callback does. *)
Definition env (clk : Z) (answers : list (string * ExecOutcome))
           (present : string -> bool) (file : FileData + JsError)
           (cb : option JsError) : Env :=
  {| tza := 0;
     clock := fun _ => clk;
     exec := fun _ _ command => answer answers command;
     access := fun _ path => present path;
     readFile := fun _ _ => file;
     mkdir := fun _ _ => None;
     writeFile := fun _ _ _ => None;
     runCallback := fun _ _ => cb;
     cronValidate := Validation.CRON_PATTERN_test;
     dateParse := parseISO;
     basename := fun p => p;
     extname := fun _ => "";
     dirname := fun _ => ".";
     isAbsolute := Js.startsWith "/";
     pathResolve := fun a b => a ++ "/" ++ b;
     pathJoin := fun a b => a ++ "/" ++ b |}.

Definition ENOENT : JsError :=
  MkError PlainError "ENOENT: no such file or directory" (Some "ENOENT") None.

Definition repo : GitManager.t :=
  {| GitManager.repositoryPath := "/srv/site"; GitManager.timeout := 30000 |}.

(** 2025-01-03T09:00:00.000Z *)
Definition morning : Z := 1735894800000.

(** A healthy work tree with one modified file. *)
Definition healthy : list (string * ExecOutcome) :=
  [ ("git rev-parse --git-dir", ok ".git");
    ("git diff --check", ok "");
    ("git symbolic-ref -q HEAD", ok "refs/heads/main");
    ("git status --porcelain", ok " M notes.txt") ].

(** The same, where staging fails every time (a stale index lock). *)
Definition lockedIndex : list (string * ExecOutcome) :=
  (healthy ++
   [ ("git add .",
      ExecFail "Command failed: git add ."
               "fatal: Unable to create index.lock: File exists." "") ])%list.

(** A work tree without modifications. *)
Definition unchanged : list (string * ExecOutcome) :=
  [ ("git rev-parse --git-dir", ok ".git");
    ("git diff --check", ok "");
    ("git symbolic-ref -q HEAD", ok "refs/heads/main");
    ("git status --porcelain", ok "") ].

(** A merge stopped on conflicts: the check finds the markers left in a
    file. *)
Definition conflicted : list (string * ExecOutcome) :=
  [ ("git rev-parse --git-dir", ok ".git");
    ("git diff --check",
     ExecFail "Command failed: git diff --check" ""
              "notes.txt:3: leftover conflict marker");
    ("git symbolic-ref -q HEAD", ok "refs/heads/main");
    ("git status --porcelain", ok "UU notes.txt") ].

Definition noFile (_ : string) : bool := false.
Definition mergeHead (path : string) : bool := String.eqb path "/srv/site/.git/MERGE_HEAD".

Definition envLocked : Env := env morning lockedIndex noFile (inr ENOENT) None.
Definition envUnchanged : Env := env morning unchanged noFile (inr ENOENT) None.
Definition envMerging : Env := env morning healthy mergeHead (inr ENOENT) None.
Definition envConflicted : Env := env morning conflicted mergeHead (inr ENOENT) None.

(** A state file as [saveState] writes it. *)
Definition saved (lastRun : string) (missed : list string) : FileData :=
  StateJson {| l_lastRun := Some lastRun; l_nextRun := None; l_isActive := Some false;
               l_cronExpression := Some "0 18 * * *"; l_missedExecutions := Some missed |}.

Definition tenRuns : list string :=
  map (fun d => "2024-12-" ++ d ++ "T18:00:00.000Z")
      ["11"; "12"; "13"; "14"; "15"; "16"; "17"; "18"; "19"; "20"].

Definition envTwoDaysLater : Env :=
  env morning healthy noFile (inl (saved "2025-01-01T18:00:00.000Z" [])) None.
Definition envSameDay : Env :=
  env morning healthy noFile (inl (saved "2025-01-03T06:00:00.000Z" [])) None.
Definition envFullLog : Env :=
  env morning healthy noFile (inl (saved "2025-01-02T18:00:00.000Z" tenRuns)) None.
Definition envFailingCallback : Env :=
  env morning healthy noFile (inl (saved "2025-01-01T18:00:00.000Z" []))
      (Some (newError "Execution failed")).

(** A scheduler after [schedule("0 18 * * *", callback)]. *)
Definition daily (active : bool) : Scheduler.t :=
  {| Scheduler.task := Some {| Scheduler.expression := "0 18 * * *" |};
     Scheduler.callback := Some (Handler 0);
     Scheduler.cronExpression := "0 18 * * *";
     Scheduler.stateFilePath := "./config/scheduler-state.json";
     Scheduler.state := SchedulerState.mk None None active "0 18 * * *" [] |}.

(** An initialized service with the default configuration. *)
Definition service (lg : Logger) (running : bool) : AutoCommitService.t :=
  {| AutoCommitService.gitManager := repo;
     AutoCommitService.scheduler := daily running;
     AutoCommitService.configManager :=
       {| ConfigManager.configPath := "./config/auto-commit.json";
          ConfigManager.cachedConfig := Some Validation.DEFAULT_CONFIG |};
     AutoCommitService.logger := lg;
     AutoCommitService.config := Some Validation.DEFAULT_CONFIG;
     AutoCommitService.isInitialized := true;
     AutoCommitService.isServiceRunning := running;
     AutoCommitService.totalCommits := 0;
     AutoCommitService.lastCommitDate := None;
     AutoCommitService.lastError := None |}.

(** The logger of the integration tests: the class wrapped, with [warn]. *)
Definition testLogger : Logger := {| hasWarn := true; level := LevelDebug |}.

(** A change of the commit time and nothing else. *)
Definition atNine : PartialConfig :=
  {| p_enabled := None; p_commitTime := Some "0 9 * * *"; p_messageTemplate := None;
     p_excludePatterns := None; p_logLevel := None; p_repositoryPath := None;
     p_maxCommitMessageLength := None; p_retryAttempts := None;
     p_retryDelayMs := None |}.

End Sample.

(* ===================================================================== *)
(** * The rest of the sources *)
(* ===================================================================== *)

(** [process.env]: the value of a variable, when it is set.  A variable
    that is unset or empty is falsy. *)
Definition ProcessEnv := string -> option string.

Definition envVar (penv : ProcessEnv) (name : string) : option string :=
  match penv name with
  | Some v => if String.eqb v "" then None else Some v
  | None => None
  end.

(** ** types/validation.ts: the functions that prepare a configuration *)

Module ConfigValidation.

(** validateCronExpression *)
Definition validateCronExpression (cronExpression : string) : bool :=
  Validation.CRON_PATTERN_test cronExpression.

(** The member of ['debug', 'info', 'error'] a string is, if any. *)
Definition levelNamed (s : string) : option LogLevel :=
  if String.eqb s "debug" then Some LevelDebug
  else if String.eqb s "info" then Some LevelInfo
  else if String.eqb s "error" then Some LevelError
  else None.

(** validateLogLevel *)
Definition validateLogLevel (logLevel : string) : bool :=
  match levelNamed logLevel with Some _ => true | None => false end.

(** mergeWithDefaults: [{ ...DEFAULT_CONFIG, ...partialConfig }] *)
Definition mergeWithDefaults (partialConfig : PartialConfig) : AutoCommitConfig :=
  AutoCommitService.mergeConfig Validation.DEFAULT_CONFIG partialConfig.

(** [Math.max(lo, Math.min(hi, v))] *)
Definition clamp (lo hi v : Z) : Z := Z.max lo (Z.min hi v).

(** sanitizeConfig, for keys that hold values of their declared types:
    the guards [typeof ... === 'string'] and [typeof ... === 'number'] of
    the code are true for the keys that are present, and [excludePatterns]
    is an array.  A value of another type is left as it is by the code. *)
Definition sanitizeConfig (config : PartialConfig) : PartialConfig :=
  {| p_enabled := p_enabled config;
     p_commitTime := option_map Js.trim (p_commitTime config);
     p_messageTemplate := option_map Js.trim (p_messageTemplate config);
     p_excludePatterns := p_excludePatterns config;
     p_logLevel := p_logLevel config;
     p_repositoryPath := option_map Js.trim (p_repositoryPath config);
     p_maxCommitMessageLength := option_map (clamp 20 200) (p_maxCommitMessageLength config);
     p_retryAttempts := option_map (clamp 0 10) (p_retryAttempts config);
     p_retryDelayMs := option_map (Z.max 1000) (p_retryDelayMs config) |}.

End ConfigValidation.

(** ** services/config.manager.ts: loading *)

Module ConfigStore.
Import ConfigValidation.

Definition setCached (c : option AutoCommitConfig) (m : ConfigManager.t) : ConfigManager.t :=
  {| ConfigManager.configPath := ConfigManager.configPath m;
     ConfigManager.cachedConfig := c |}.

(** The constructor:
    [configPath || process.env[ENV_VARS.CONFIG_PATH] || DEFAULT_PATHS.CONFIG_FILE]. *)
Definition new (penv : ProcessEnv) (configPath : option string) : ConfigManager.t :=
  {| ConfigManager.configPath :=
       match Scheduler.orElse (if Scheduler.truthy configPath then configPath else None)
                              (envVar penv "AUTO_COMMIT_CONFIG_PATH") with
       | Some p => p
       | None => "./config/auto-commit.config.json"
       end;
     ConfigManager.cachedConfig := None |}.

Definition noKeys : PartialConfig :=
  {| p_enabled := None; p_commitTime := None; p_messageTemplate := None;
     p_excludePatterns := None; p_logLevel := None; p_repositoryPath := None;
     p_maxCommitMessageLength := None; p_retryAttempts := None;
     p_retryDelayMs := None |}.

(** The keys of a configuration written by [saveConfig]: all of them, the
    repository path when the configuration has one. *)
Definition allKeys (c : AutoCommitConfig) : PartialConfig :=
  {| p_enabled := Some (enabled c); p_commitTime := Some (commitTime c);
     p_messageTemplate := Some (messageTemplate c);
     p_excludePatterns := Some (excludePatterns c);
     p_logLevel := Some (logLevel c); p_repositoryPath := repositoryPath c;
     p_maxCommitMessageLength := Some (maxCommitMessageLength c);
     p_retryAttempts := Some (retryAttempts c);
     p_retryDelayMs := Some (retryDelayMs c) |}.

(** [JSON.parse(configData)], read as a partial configuration: a file
    written by [saveConfig] holds every key, the state file of the scheduler
    holds none of them, and a text that is not JSON makes the parser throw.
    The values of a written configuration are read back as they were:
    strings, booleans, arrays of strings and integers survive
    [JSON.stringify] and [JSON.parse] unchanged. *)
Definition parse {S} (d : FileData) : M S PartialConfig :=
  match d with
  | ConfigJson c => ret (allKeys c)
  | StateJson _ => ret noKeys
  | Text _ => throw (MkError SyntaxError "Unexpected token in JSON" None None)
  end.

(** [{ ...a, ...b }] on partial configurations. *)
Definition overlay (a b : PartialConfig) : PartialConfig :=
  {| p_enabled := Scheduler.orElse (p_enabled b) (p_enabled a);
     p_commitTime := Scheduler.orElse (p_commitTime b) (p_commitTime a);
     p_messageTemplate := Scheduler.orElse (p_messageTemplate b) (p_messageTemplate a);
     p_excludePatterns := Scheduler.orElse (p_excludePatterns b) (p_excludePatterns a);
     p_logLevel := Scheduler.orElse (p_logLevel b) (p_logLevel a);
     p_repositoryPath := Scheduler.orElse (p_repositoryPath b) (p_repositoryPath a);
     p_maxCommitMessageLength :=
       Scheduler.orElse (p_maxCommitMessageLength b) (p_maxCommitMessageLength a);
     p_retryAttempts := Scheduler.orElse (p_retryAttempts b) (p_retryAttempts a);
     p_retryDelayMs := Scheduler.orElse (p_retryDelayMs b) (p_retryDelayMs a) |}.

(** getEnvironmentOverrides *)
Definition getEnvironmentOverrides (penv : ProcessEnv) : PartialConfig :=
  {| p_enabled :=
       match envVar penv "AUTO_COMMIT_ENABLED" with
       | Some v =>
           let enabled := Js.toLowerCase v in
           Some (String.eqb enabled "true" || String.eqb enabled "1")
       | None => None
       end;
     p_commitTime := envVar penv "AUTO_COMMIT_TIME";
     p_messageTemplate := None;
     p_excludePatterns := None;
     p_logLevel :=
       match envVar penv "AUTO_COMMIT_LOG_LEVEL" with
       | Some v => levelNamed (Js.toLowerCase v)
       | None => None
       end;
     p_repositoryPath := envVar penv "AUTO_COMMIT_REPOSITORY_PATH";
     p_maxCommitMessageLength := None;
     p_retryAttempts := None;
     p_retryDelayMs := None |}.

(** The configuration [loadConfig] builds from what the file holds:
    overrides, then [sanitizeConfig], then [mergeWithDefaults]. *)
Definition fullConfigOf (penv : ProcessEnv) (fileConfig : PartialConfig) : AutoCommitConfig :=
  let envOverrides := getEnvironmentOverrides penv in
  let mergedConfig := overlay fileConfig envOverrides in
  let sanitizedConfig := sanitizeConfig mergedConfig in
  mergeWithDefaults sanitizedConfig.

(** loadConfig *)
Definition loadConfig (penv : ProcessEnv) : M ConfigManager.t AutoCommitConfig :=
  tryCatch
    (fileConfig <-
       tryCatch
         (m <- get ;;
          configData <- fsReadFile (ConfigManager.configPath m) ;;
          parse configData)
         (fun error =>
            if negb (hasCode "ENOENT" error)
            then throw (newConfigurationError
                          ("Failed to read configuration file: " ++ errMessage error)
                          (Some error))
            else ret noKeys) ;;
     let fullConfig := fullConfigOf penv fileConfig in
     (if negb (Validation.validateConfig fullConfig)
      then throw (newConfigurationError
                    ("Configuration validation failed: "
                     ++ Js.join ", " (Validation.validationErrors fullConfig)) None)
      else ret tt) ;;
     modify (setCached (Some fullConfig)) ;;
     ret fullConfig)
    (fun error =>
       if isConfigurationError error then throw error
       else throw (newConfigurationError
                     ("Failed to load configuration: " ++ errMessage error) (Some error))).

(** getDefaultConfig *)
Definition getDefaultConfig : AutoCommitConfig := Validation.DEFAULT_CONFIG.

(** getConfigPath *)
Definition getConfigPath (m : ConfigManager.t) : string := ConfigManager.configPath m.

(** reloadConfig *)
Definition reloadConfig (penv : ProcessEnv) : M ConfigManager.t AutoCommitConfig :=
  modify (setCached None) ;;
  loadConfig penv.

(** getCachedConfig *)
Definition getCachedConfig (penv : ProcessEnv) : M ConfigManager.t AutoCommitConfig :=
  m <- get ;;
  match ConfigManager.cachedConfig m with
  | Some c => ret c
  | None => loadConfig penv
  end.

End ConfigStore.

(** ** services/git.manager.ts: the queries *)

Module GitQueries.
Import GitManager.

(** The constructor; [cwd] is [process.cwd()]. *)
Definition new (cwd : string) (repositoryPath : option string) : GitManager.t :=
  {| GitManager.repositoryPath :=
       match repositoryPath with Some p => p | None => cwd end;
     GitManager.timeout := 30000 |}.

(** getRepositoryPath *)
Definition getRepositoryPath (g : GitManager.t) : string := GitManager.repositoryPath g.

(** isGitAvailable: [exec] without options runs in the directory of the
    process, which is the path [.]. *)
Definition isGitAvailable : M GitManager.t bool :=
  out <- execAsync "." "git --version" ;;
  ret (match out with ExecOk _ => true | ExecFail _ _ _ => false end).

(** validateCommitHash *)
Definition validateCommitHash (commitHash : string) : M GitManager.t bool :=
  tryCatch (executeGitCommand ("cat-file -e " ++ commitHash) ;; ret true)
           (fun _ => ret false).

Record Commit := {
  hash : string;
  subject : string;
  author : string;
  date : Date.t;
  filesChanged : list string
}.

(** [x.trim()] for an element of a destructured array, which is
    [undefined] past the end of the array. *)
Definition trimOf {S} (x : option string) : M S string :=
  match x with
  | Some v => ret (Js.trim v)
  | None => throw (newTypeError "Cannot read properties of undefined (reading 'trim')")
  end.

(** The fields of a commit from the elements that hold them, in the order
    of the object literal. *)
Definition commitOf {S} (parts : list string) (files : list string) : M S Commit :=
  h <- trimOf (nth_error parts 0) ;;
  m <- trimOf (nth_error parts 1) ;;
  a <- trimOf (nth_error parts 2) ;;
  d <- trimOf (nth_error parts 3) ;;
  E <- ask ;;
  ret {| hash := h; subject := m; author := a; date := dateParse E d;
         filesChanged := files |}.

(** [arr.map(f)] for a function that may throw. *)
Fixpoint mapM {S A B} (f : A -> M S B) (l : list A) : M S (list B) :=
  match l with
  | [] => ret []
  | x :: rest =>
      y <- f x ;;
      ys <- mapM f rest ;;
      ret (y :: ys)
  end.

(** getCommitInfo *)
Definition getCommitInfo (commitHash : string) : M GitManager.t (option Commit) :=
  tryCatch
    (r <- executeGitCommand
            ("show --format=" ++ Js.dquote ++ "%H%n%s%n%an <%ae>%n%ci" ++ Js.dquote
             ++ " --name-only " ++ commitHash) ;;
     let lines := Js.split Js.newline (Js.trim (stdout r)) in
     if (List.length lines <? 4)%nat then ret None
     else
       c <- commitOf lines
              (filter (fun file => (0 <? String.length (Js.trim file))%nat)
                      (skipn 4 lines)) ;;
       ret (Some c))
    (fun error =>
       logError "Failed to get commit info" ;;
       ret None).

(** getRecentCommits; the entries have no list of files. *)
Definition getRecentCommits (count : Z) : M GitManager.t (list Commit) :=
  tryCatch
    (r <- executeGitCommand
            ("log --format=" ++ Js.dquote ++ "%H|%s|%an <%ae>|%ci" ++ Js.dquote
             ++ " -n " ++ Js.numToString count) ;;
     mapM (fun line => commitOf (Js.split "|" line) []) (nonEmptyLines (stdout r)))
    (fun error =>
       logError "Failed to get recent commits" ;;
       ret []).

End GitQueries.

(** ** services/scheduler.service.ts: the task and the start-up *)

Module SchedulerLifecycle.
Import Scheduler.

(** The function [schedule] hands to [cron.schedule] for the callback
    [cb]: what runs at every scheduled time. *)
Definition tick (cb : Callback) : M Scheduler.t unit :=
  logInfo "Executing scheduled task" ;;
  tryCatch
    (updateLastRun ;;
     call cb ;;
     logInfo "Scheduled task completed successfully")
    (fun error => logError "Scheduled task execution failed").

(** initialize *)
Definition initialize : M Scheduler.t unit :=
  tryCatch
    (loadState ;;
     handleMissedExecutions ;;
     logInfo "Scheduler initialized")
    (fun error =>
       logError "Failed to initialize scheduler" ;;
       throw (newSchedulerError
                ("Scheduler initialization failed: " ++ errMessage error) (Some error))).

Record SchedulerJob := {
  id : string;
  jobExpression : string;
  jobNextRun : Date.t;
  jobLastRun : option Date.t;
  jobIsActive : bool
}.

(** getJobInfo *)
Definition getJobInfo : M Scheduler.t SchedulerJob :=
  s <- get ;;
  E <- ask ;;
  next <- (match SchedulerState.nextRun (state s) with
           | Some iso =>
               if truthy (Some iso) then ret (dateParse E iso)
               else (t0 <- now ;; ret (Some t0))
           | None => t0 <- now ;; ret (Some t0)
           end) ;;
  ret {| id := "auto-commit-daily";
         jobExpression := cronExpression s;
         jobNextRun := next;
         jobLastRun :=
           match SchedulerState.lastRun (state s) with
           | Some iso => if truthy (Some iso) then Some (dateParse E iso) else None
           | None => None
           end;
         jobIsActive := SchedulerState.isActive (state s) |}.

(** getMissedExecutions *)
Definition getMissedExecutions : M Scheduler.t (list Date.t) :=
  s <- get ;;
  E <- ask ;;
  ret (map (dateParse E) (SchedulerState.missedExecutions (state s))).

(** clearMissedExecutions; the promise of [saveState] is not awaited and
    cannot reject. *)
Definition clearMissedExecutions : M Scheduler.t unit :=
  modifyState (stMissedExecutions []) ;;
  saveState.

End SchedulerLifecycle.

(** ** services/auto-commit.service.ts: construction, start-up and queries *)

Module ServiceLifecycle.
Import AutoCommitService.

Definition setIsInitialized (x : bool) (s : t) : t :=
  {| gitManager := gitManager s; scheduler := scheduler s;
     configManager := configManager s;
     logger := logger s; config := config s; isInitialized := x;
     isServiceRunning := isServiceRunning s; totalCommits := totalCommits s;
     lastCommitDate := lastCommitDate s; lastError := lastError s |}.

(** The constructor. *)
Definition new (penv : ProcessEnv) (cwd : string)
           (configPath repositoryPath : option string) (lg : option Logger) : t :=
  {| gitManager := GitQueries.new cwd repositoryPath;
     scheduler := Scheduler.new "./config/scheduler-state.json";
     configManager := ConfigStore.new penv configPath;
     logger := match lg with Some l => l | None => defaultLogger end;
     config := None;
     isInitialized := false;
     isServiceRunning := false;
     totalCommits := 0;
     lastCommitDate := None;
     lastError := None |}.

(** initialize.  A service that holds the default logger replaces it by
    [createLogger('./test-logs', level, 30)], and the level of the logger is
    set to the one of the configuration: in both cases the logger is an
    instance of the same class as before, at that level. *)
Definition initialize (penv : ProcessEnv) : M t unit :=
  tryCatch
    (logInfo "Initializing auto-commit service" ;;
     cfg <- conf (ConfigStore.loadConfig penv) ;;
     modify (setConfig (Some cfg)) ;;
     logInfo "Configuration loaded successfully" ;;
     setLogLevel (logLevel cfg) ;;
     (if Scheduler.truthy (repositoryPath cfg)
      then git (GitManager.setRepositoryPath (Scheduler.orDefault (repositoryPath cfg) ""))
      else ret tt) ;;
     gitAvailable <- git GitQueries.isGitAvailable ;;
     (if negb gitAvailable
      then throw (newConfigurationError "Git is not available on this system" None)
      else ret tt) ;;
     logDebug "Git is available" ;;
     isRepository <- git GitManager.isGitRepository ;;
     s <- get ;;
     (if negb isRepository
      then throw (newConfigurationError
                    ("Not a Git repository: " ++ GitQueries.getRepositoryPath (gitManager s))
                    None)
      else ret tt) ;;
     logDebug "Git repository validated" ;;
     git GitManager.getRepositoryInfo ;;
     logInfo "Repository information" ;;
     sched SchedulerLifecycle.initialize ;;
     logDebug "Scheduler initialized" ;;
     hadMissedExecution <- sched Scheduler.handleMissedExecutions ;;
     (if hadMissedExecution : bool
      then logInfo "Handled missed execution on startup" else ret tt) ;;
     modify (setIsInitialized true) ;;
     logInfo "Auto-commit service initialized successfully")
    (recordAndRethrow "Failed to initialize auto-commit service").

Record ServiceStatus := {
  isRunning : bool;
  lastCommit : option Z;
  nextScheduledCommit : Date.t;
  statusTotalCommits : Z;
  statusLastError : option string
}.

(** getStatus *)
Definition getStatus : M t ServiceStatus :=
  jobInfo <- sched SchedulerLifecycle.getJobInfo ;;
  s <- get ;;
  ret {| isRunning := isServiceRunning s;
         lastCommit := lastCommitDate s;
         nextScheduledCommit := SchedulerLifecycle.jobNextRun jobInfo;
         statusTotalCommits := totalCommits s;
         statusLastError := lastError s |}.

(** getRecentCommits *)
Definition getRecentCommits (count : Z) : M t (list GitQueries.Commit) :=
  git (GitQueries.getRecentCommits count).

(** getMissedExecutions *)
Definition getMissedExecutions : M t (list Date.t) :=
  sched SchedulerLifecycle.getMissedExecutions.

(** triggerManualCommit *)
Definition triggerManualCommit : M t CommitResult :=
  logInfo "Manual commit triggered" ;;
  executeCommit.

End ServiceLifecycle.
(** ** utils/file-analyzer.ts: the breakdown and the statistics *)

Module FileStats.
Import FileAnalyzer.

(** A [Record<FileChangeType, T>] with all its seven keys. *)
Definition ByType (T : Type) := FileChangeType -> T.

Definition update {T} (k : FileChangeType) (f : T -> T) (r : ByType T) : ByType T :=
  fun k' => if sameCategory k' k then f (r k') else r k'.

(** getFileChangeBreakdown *)
Definition getFileChangeBreakdown (E : Env) (fs : list string) : ByType (list string) :=
  fold_left
    (fun breakdown file =>
       update (categorizeFile E file) (fun l => l ++ [file])%list breakdown)
    fs (fun _ => []).

(** [byExtension[extension] = (byExtension[extension] || 0) + 1] on an
    object whose keys are kept in the order of their insertion. *)
Fixpoint bump (extension : string) (m : list (string * Z)) : list (string * Z) :=
  match m with
  | [] => [(extension, 1)]
  | (k, n) :: rest =>
      if String.eqb k extension then (k, n + 1) :: rest
      else (k, n) :: bump extension rest
  end.

Record Stats := {
  total : Z;
  byType : ByType Z;
  byExtension : list (string * Z)
}.

(** getFileStats *)
Definition getFileStats (E : Env) (fs : list string) : Stats :=
  {| total := Z.of_nat (List.length fs);
     byType :=
       fold_left (fun byType file => update (categorizeFile E file) (fun n => n + 1) byType)
                 fs (fun _ => 0);
     byExtension :=
       fold_left
         (fun byExtension file =>
            let e := Js.toLowerCase (extname E file) in
            bump (if GitManager.nonEmpty e then e else "(no extension)") byExtension)
         fs [] |}.

End FileStats.

(** ** lib/service-manager.ts *)

Module ServiceManager.

(** The manager: the service it holds, the flag of a shutdown in progress
    and how often the handlers of the process signals were registered.
    What the manager writes to the console is not part of the trace. *)
Record t := {
  service : option AutoCommitService.t;
  isShuttingDown : bool;
  shutdownHandlers : nat
}.

Definition setService (x : option AutoCommitService.t) (m : t) : t :=
  {| service := x; isShuttingDown := isShuttingDown m;
     shutdownHandlers := shutdownHandlers m |}.
Definition setIsShuttingDown (x : bool) (m : t) : t :=
  {| service := service m; isShuttingDown := x;
     shutdownHandlers := shutdownHandlers m |}.

(** The instance [getInstance] creates. *)
Definition new : t := {| service := None; isShuttingDown := false; shutdownHandlers := 0 |}.

(** A method of [this.service]; on [null] the call is a [TypeError]. *)
Definition onService {A} (m : M AutoCommitService.t A) : M t A :=
  fun E s tr =>
    match service s with
    | Some sv => let '(r, sv', tr') := m E sv tr in (r, setService (Some sv') s, tr')
    | None =>
        (Throw (newTypeError "Cannot read properties of null"), s, tr)
    end.

(** [process.env[name] === v] *)
Definition envIs (penv : ProcessEnv) (name v : string) : bool :=
  match penv name with Some x => String.eqb x v | None => false end.

(** shouldEnableService *)
Definition shouldEnableService (penv : ProcessEnv) : bool :=
  if envIs penv "AUTO_COMMIT_DISABLED" "true" then false
  else if envIs penv "NODE_ENV" "development"
       then negb (envIs penv "AUTO_COMMIT_ENABLED" "false")
  else if envIs penv "NODE_ENV" "production"
       then envIs penv "AUTO_COMMIT_ENABLED" "true"
  else true.

(** setupShutdownHandlers *)
Definition setupShutdownHandlers : M t unit :=
  modify (fun m => {| service := service m; isShuttingDown := isShuttingDown m;
                      shutdownHandlers := S (shutdownHandlers m) |}).

(** The level [AUTO_COMMIT_LOG_LEVEL] names, [info] when the variable is
    not set.  The source casts the text of the variable without a check; the
    level of a text that names none is not modelled (here: [info]), and the
    statements about [initialize] are about the other environments. *)
Definition levelOfEnv (penv : ProcessEnv) : LogLevel :=
  match envVar penv "AUTO_COMMIT_LOG_LEVEL" with
  | Some v => Scheduler.orDefault (ConfigValidation.levelNamed v) LevelInfo
  | None => LevelInfo
  end.

(** initialize; [cwd] is [process.cwd()]. *)
Definition initialize (penv : ProcessEnv) (cwd : string) : M t unit :=
  m <- get ;;
  match service m with
  | Some _ => ret tt
  | None =>
    tryCatch
      (let isEnabled := shouldEnableService penv in
       if negb isEnabled then ret tt else
       let configPath := penv "AUTO_COMMIT_CONFIG_PATH" in
       let repositoryPath := Scheduler.orDefault (envVar penv "AUTO_COMMIT_REPO_PATH") cwd in
       let logger := createLogger (levelOfEnv penv) in
       modify (setService
                 (Some (ServiceLifecycle.new penv cwd configPath (Some repositoryPath)
                          (Some logger)))) ;;
       onService (ServiceLifecycle.initialize penv) ;;
       logInfo "Auto-commit service initialized" ;;
       onService AutoCommitService.start ;;
       logInfo "Auto-commit service started" ;;
       setupShutdownHandlers)
      (fun error => ret tt)
  end.

(** shutdown; the [finally] block runs on every path that entered the
    [try]. *)
Definition shutdown : M t unit :=
  m <- get ;;
  if isShuttingDown m then ret tt else
  modify (setIsShuttingDown true) ;;
  tryCatch
    (m <- get ;;
     match service m with
     | Some _ =>
         onService AutoCommitService.stop ;;
         modify (setService None)
     | None => ret tt
     end)
    (fun error => ret tt) ;;
  modify (setIsShuttingDown false).

(** getService *)
Definition getService (m : t) : option AutoCommitService.t := service m.

(** isRunning: [this.service?.isRunning() || false] *)
Definition isRunning (m : t) : bool :=
  match service m with
  | Some sv => AutoCommitService.isServiceRunning sv
  | None => false
  end.

End ServiceManager.

(** ** app/api/auto-commit: the routes that call the service *)

Module HistoryRoute.

(** The number of commits asked for, from the parameter [count] of the
    query ([None] when the query has none). *)
Definition requestedCount (countParam : option string) : Z :=
  if Scheduler.truthy countParam then
    match Js.parseInt (Scheduler.orDefault countParam "") with
    | Some parsedCount => if 0 <? parsedCount then Z.min parsedCount 50 else 10
    | None => 10
    end
  else 10.

Inductive Body :=
| Failure (error : string) (message : option string)
| History (commits : list GitQueries.Commit) (count requested : Z).

Record Response := { status : Z; body : Body }.

(** GET *)
Definition GET (countParam : option string) : M ServiceManager.t Response :=
  tryCatch
    (m <- get ;;
     match ServiceManager.getService m with
     | None => ret {| status := 503; body := Failure "Service not initialized" None |}
     | Some _ =>
         let count := requestedCount countParam in
         commits <- ServiceManager.onService (ServiceLifecycle.getRecentCommits count) ;;
         ret {| status := 200;
                body := History commits (Z.of_nat (List.length commits)) count |}
     end)
    (fun error =>
       ret {| status := 500;
              body := Failure "Failed to get commit history" (Some (errMessage error)) |}).

End HistoryRoute.

Module TriggerRoute.

Inductive Body :=
| Unavailable (error : string)
| Committed (commitHash : option string) (message : string) (filesChanged timestamp : Z)
| Rejected (error message : string) (filesChanged : Z)
| Failed (error message : string).

Record Response := { status : Z; body : Body }.

(** POST *)
Definition POST : M ServiceManager.t Response :=
  tryCatch
    (m <- get ;;
     match ServiceManager.getService m with
     | None => ret {| status := 503; body := Unavailable "Service not initialized" |}
     | Some service =>
         if negb (AutoCommitService.isServiceRunning service)
         then ret {| status := 503; body := Unavailable "Service is not running" |}
         else
           result <- ServiceManager.onService ServiceLifecycle.triggerManualCommit ;;
           if success result
           then ret {| status := 200;
                       body := Committed (commitHash result) (message result)
                                 (filesChanged result) (timestamp result) |}
           else ret {| status := 400;
                       body := Rejected
                                 (if Scheduler.truthy (error result)
                                  then Scheduler.orDefault (error result) ""
                                  else "Commit failed")
                                 (message result) (filesChanged result) |}
     end)
    (fun error =>
       ret {| status := 500;
              body := Failed "Failed to trigger manual commit" (errMessage error) |}).

End TriggerRoute.

(* ===================================================================== *)
(** * Vocabulary of the further statements *)
(* ===================================================================== *)

Module Props.

(** ** Escaping *)

Definition backslashChar : ascii := Ascii.ascii_of_nat 92.
Definition dquoteChar : ascii := Ascii.ascii_of_nat 34.

(** The characters [escapeCommitMessage] puts a backslash before. *)
Definition special (c : ascii) : bool :=
  Ascii.eqb c dquoteChar || Ascii.eqb c "`" || Ascii.eqb c "$".

(** What becomes of one character of the message. *)
Definition escapeChar (c : ascii) : string :=
  if special c then String backslashChar (String c "")
  else if Ascii.eqb c Js.newline then " "
  else String c "".

Fixpoint escapeChars (s : string) : string :=
  match s with
  | EmptyString => EmptyString
  | String c r => escapeChar c ++ escapeChars r
  end.

(** Every special character of [s] comes directly after a backslash;
    [prev] tells whether the character before [s] is one. *)
Fixpoint guarded (prev : bool) (s : string) : bool :=
  match s with
  | EmptyString => true
  | String c r =>
      (if special c then prev else true) && guarded (Ascii.eqb c backslashChar) r
  end.

Fixpoint hasChar (c : ascii) (s : string) : bool :=
  match s with
  | EmptyString => false
  | String d r => Ascii.eqb d c || hasChar c r
  end.

(** A string that does not start, or does not end, with white space. *)
Definition startsClean (s : string) : bool :=
  match s with
  | EmptyString => true
  | String c _ => negb (Js.isSpace c)
  end.

Fixpoint endsClean (s : string) : bool :=
  match s with
  | EmptyString => true
  | String c EmptyString => negb (Js.isSpace c)
  | String _ r => endsClean r
  end.

(** ** The output of [git status --porcelain] *)

(** An entry: the status of the index, the status of the work tree and the
    path. *)
Record StatusEntry := { indexStatus : ascii; treeStatus : ascii; path : string }.

Definition statusLine (e : StatusEntry) : string :=
  String (indexStatus e) (String (treeStatus e) (" " ++ path e)).

(** The lines, each ended by a newline. *)
Fixpoint porcelain (es : list StatusEntry) : string :=
  match es with
  | [] => ""
  | e :: rest => statusLine e ++ Js.nl ++ porcelain rest
  end.

(** A path as it is printed bare: not empty, no newline, no white space at
    either end. *)
Definition plainPath (p : string) : bool :=
  negb (String.eqb p "") && negb (hasChar Js.newline p)
  && startsClean p && endsClean p.

Definition plainEntry (e : StatusEntry) : bool :=
  negb (Js.isSpace (treeStatus e) && Js.isSpace (indexStatus e))
  && negb (Ascii.eqb (indexStatus e) Js.newline)
  && negb (Ascii.eqb (treeStatus e) Js.newline)
  && plainPath (path e).

(** ** Methods *)

(** A method that never throws. *)
Definition returns {S A} (m : M S A) : Prop :=
  forall E s tr, exists a s' tr', m E s tr = (Ok a, s', tr').

(** From a state where [P] holds, [m] leads to a state where [P] holds
    and adds only events that pass [q], whatever its outcome. *)
Definition keeps {S A} (P : S -> Prop) (q : Event -> bool) (m : M S A) : Prop :=
  forall E s tr r s' tr', P s -> m E s tr = (r, s', tr') -> P s' /\ Spec.extends q tr tr'.

(** The scheduler has no callback. *)
Definition idle (t : Scheduler.t) : Prop := Scheduler.callback t = None.
Definition idleService (s : AutoCommitService.t) : Prop := idle (AutoCommitService.scheduler s).

(** The accounts of a run: what its result says against the counter, the
    date and the error the service keeps. *)
Definition counted (s : AutoCommitService.t) (res : CommitResult)
           (s' : AutoCommitService.t) : Prop :=
  match commitHash res with
  | Some _ =>
      success res = true
      /\ AutoCommitService.totalCommits s' = AutoCommitService.totalCommits s + 1
      /\ AutoCommitService.lastCommitDate s' = Some (timestamp res)
      /\ AutoCommitService.lastError s' = None
  | None =>
      AutoCommitService.totalCommits s' = AutoCommitService.totalCommits s
      /\ AutoCommitService.lastCommitDate s' = AutoCommitService.lastCommitDate s
  end.

(** ** Replacing and deciding *)

(** A global replacement of one character by a text without [$]-forms
    works character by character. *)
Fixpoint eachChar (c : ascii) (repl : string) (s : string) : string :=
  match s with
  | EmptyString => EmptyString
  | String x r => (if Ascii.eqb c x then repl else String x "") ++ eachChar c repl r
  end.

(** The change type as a function of the six counts. *)
Definition decide (n : FileChangeType -> Z) : FileChangeType :=
  let cats := map (fun k => (k, n k)) FileAnalyzer.categoryKeys in
  let totalCategorized := fold_left (fun sum kc => sum + snd kc) cats 0 in
  let maxCategory :=
    fold_left (fun mx kc => if snd mx <? snd kc then kc else mx) cats (mixed, 0) in
  if (0 <? totalCategorized) && (7 * totalCategorized <? 10 * snd maxCategory)
  then fst maxCategory else mixed.

(** ** The history *)

(** A line of the log with its four fields, and the commit read from it. *)
Definition wellFormed (line : string) : bool :=
  (4 <=? List.length (Js.split "|" line))%nat.

Definition commitOfLine (E : Env) (line : string) : GitQueries.Commit :=
  let parts := Js.split "|" line in
  {| GitQueries.hash := Js.trim (nth 0 parts "");
     GitQueries.subject := Js.trim (nth 1 parts "");
     GitQueries.author := Js.trim (nth 2 parts "");
     GitQueries.date := dateParse E (Js.trim (nth 3 parts ""));
     GitQueries.filesChanged := [] |}.

(** The command [getRecentCommits] runs. *)
Definition logCommand (count : Z) : string :=
  "git log --format=" ++ Js.dquote ++ "%H|%s|%an <%ae>|%ci" ++ Js.dquote
  ++ " -n " ++ Js.numToString count.

(** The level of the logger the manager creates is one of the three. *)
Definition levelNamedOrUnset (penv : ProcessEnv) : Prop :=
  match envVar penv "AUTO_COMMIT_LOG_LEVEL" with
  | Some v => ConfigValidation.validateLogLevel v = true
  | None => True
  end.

(** ** Configurations *)

(** A configuration as [loadConfig] returns it after [saveConfig] wrote
    it: the template and the repository path without the white space at
    their ends. *)
Definition trimmedConfig (c : AutoCommitConfig) : AutoCommitConfig :=
  {| enabled := enabled c;
     commitTime := commitTime c;
     messageTemplate := Js.trim (messageTemplate c);
     excludePatterns := excludePatterns c;
     logLevel := logLevel c;
     repositoryPath := option_map Js.trim (repositoryPath c);
     maxCommitMessageLength := maxCommitMessageLength c;
     retryAttempts := retryAttempts c;
     retryDelayMs := retryDelayMs c |}.

(** None of the four variables that override the configuration is set. *)
Definition noOverrides (penv : ProcessEnv) : Prop :=
  envVar penv "AUTO_COMMIT_ENABLED" = None
  /\ envVar penv "AUTO_COMMIT_LOG_LEVEL" = None
  /\ envVar penv "AUTO_COMMIT_REPOSITORY_PATH" = None
  /\ envVar penv "AUTO_COMMIT_TIME" = None.

(** ** Counting files *)

(** The number of files of a category, and of files of any category but
    [mixed]. *)
Definition countOf (E : Env) (fs : list string) (k : FileChangeType) : Z :=
  Z.of_nat (List.length
              (filter (fun f => FileAnalyzer.sameCategory (FileAnalyzer.categorizeFile E f) k)
                      fs)).

Definition categorized (E : Env) (fs : list string) : Z :=
  fold_left Z.add (map (countOf E fs) FileAnalyzer.categoryKeys) 0.

Definition allCategories : list FileChangeType :=
  (FileAnalyzer.categoryKeys ++ [mixed])%list.

(** The files of a category, in the order of the list. *)
Definition filesOf (E : Env) (fs : list string) (k : FileChangeType) : list string :=
  filter (fun f => FileAnalyzer.sameCategory (FileAnalyzer.categorizeFile E f) k) fs.

(** The sum of the numbers of an object of counters. *)
Definition sumOf (m : list (string * Z)) : Z := fold_left Z.add (map snd m) 0.

(** ** The file system *)

(** What was last written to [path], as the trace shows it. *)
Fixpoint lastWritten (path : string) (tr : Trace) : option FileData :=
  match tr with
  | [] => None
  | ev :: rest =>
      match lastWritten path rest with
      | Some d => Some d
      | None =>
          match ev with
          | EvWriteFile p d => if String.eqb p path then Some d else None
          | _ => None
          end
      end
  end.

(** A file system that gives back what was written and accepts every
    write. *)
Record Coherent (E : Env) : Prop := {
  reads_last_write :
    forall tr path d, lastWritten path tr = Some d -> readFile E tr path = inl d;
  mkdir_succeeds : forall tr path, mkdir E tr path = None;
  write_succeeds : forall tr path d, writeFile E tr path d = None
}.

Definition isRead (ev : Event) : bool :=
  match ev with EvReadFile _ => true | _ => false end.

Definition isExec (ev : Event) : bool :=
  match ev with EvExec _ _ => true | _ => false end.

Definition isTask (ev : Event) : bool :=
  match ev with
  | EvTaskCreate _ | EvTaskStart | EvTaskStop | EvTaskDestroy => true
  | _ => false
  end.

(** Events that neither call a callback nor write a file. *)
Definition passive (ev : Event) : bool := negb (Spec.isCall ev) && negb (Spec.isWrite ev).

(** What the git manager does: it logs, runs commands, looks for marker
    files and waits. *)
Definition repositoryOnly (ev : Event) : bool :=
  match ev with
  | EvLog _ _ | EvExec _ _ | EvAccess _ | EvSleep _ => true
  | _ => false
  end.

End Props.

(* ===================================================================== *)
(** * Further sample environments *)
(* ===================================================================== *)

Module Disk.

(** The environment of [Sample.env] over a file system that keeps what is
    written: a file that was never written does not exist. *)
Definition env (clk : Z) (answers : list (string * ExecOutcome)) (cb : option JsError) : Env :=
  {| tza := 0;
     clock := fun _ => clk;
     exec := fun _ _ command => Sample.answer answers command;
     access := fun tr path =>
       match Props.lastWritten path tr with Some _ => true | None => false end;
     readFile := fun tr path =>
       match Props.lastWritten path tr with
       | Some d => inl d
       | None => inr Sample.ENOENT
       end;
     mkdir := fun _ _ => None;
     writeFile := fun _ _ _ => None;
     runCallback := fun _ _ => cb;
     cronValidate := Validation.CRON_PATTERN_test;
     dateParse := Sample.parseISO;
     basename := fun p => p;
     extname := fun _ => "";
     dirname := fun _ => ".";
     isAbsolute := Js.startsWith "/";
     pathResolve := fun a b => a ++ "/" ++ b;
     pathJoin := fun a b => a ++ "/" ++ b |}.

(** No variable is set. *)
Definition bare : ProcessEnv := fun _ => None.

End Disk.
Module Cases.

(** One file modified and not staged, one file not tracked. *)
Definition notes : Props.StatusEntry :=
  {| Props.indexStatus := " "; Props.treeStatus := "M"; Props.path := "notes.txt" |}.
Definition todo : Props.StatusEntry :=
  {| Props.indexStatus := "?"; Props.treeStatus := "?"; Props.path := "todo.md" |}.

Definition twoChanges : ExecResult :=
  {| stdout := Props.porcelain [notes; todo]; stderr := "" |}.

Definition envTwoChanges : Env :=
  Sample.env Sample.morning
    [ ("git rev-parse --git-dir", Sample.ok ".git");
      ("git diff --check", Sample.ok "");
      ("git symbolic-ref -q HEAD", Sample.ok "refs/heads/main");
      ("git status --porcelain", ExecOk twoChanges) ]
    Sample.noFile (inr Sample.ENOENT) None.

(** The default configuration with a template of ten characters, five
    of them blanks at its ends. *)
Definition padded : AutoCommitConfig :=
  {| enabled := true;
     commitTime := "0 18 * * *";
     messageTemplate := "  daily   ";
     excludePatterns := [];
     logLevel := LevelInfo;
     repositoryPath := None;
     maxCommitMessageLength := 72;
     retryAttempts := 3;
     retryDelayMs := 5000 |}.

(** The default configuration, disabled, with other exclude patterns,
    another maximal length and another commit time. *)
Definition otherKeys : AutoCommitConfig :=
  {| enabled := false;
     commitTime := "30 6 * * *";
     messageTemplate := messageTemplate Validation.DEFAULT_CONFIG;
     excludePatterns := ["*.secret"];
     logLevel := LevelError;
     repositoryPath := Some "/elsewhere";
     maxCommitMessageLength := 20;
     retryAttempts := retryAttempts Validation.DEFAULT_CONFIG;
     retryDelayMs := retryDelayMs Validation.DEFAULT_CONFIG |}.

(** No variable of the environment is set. *)
Definition noVariables : ProcessEnv := fun _ => None.

(** A message of three blanks. *)
Definition blank : string := "   ".

(** The repository of [Sample.healthy] on a machine where git answers,
    the state file showing a last run two days before [Sample.morning]. *)
Definition envRestart : Env :=
  Sample.env Sample.morning
    (("git --version", Sample.ok "git version 2.43.0") :: Sample.healthy)
    Sample.noFile (inl (Sample.saved "2025-01-01T18:00:00.000Z" [])) None.

(** A log of two lines, the second without bars. *)
Definition brokenLog : ExecResult :=
  {| stdout := "3f2a9c1|fix: typo|Ann <ann@example.org>|2025-01-02 10:00:00 +0000"
               ++ Js.nl ++ "warning: log is truncated" ++ Js.nl;
     stderr := "" |}.

Definition envBrokenLog : Env :=
  Sample.env Sample.morning [ (Props.logCommand 10, ExecOk brokenLog) ]
    Sample.noFile (inr Sample.ENOENT) None.

End Cases.

(* ===================================================================== *)
(** * Facts *)
(* ===================================================================== *)

Module DateFacts.
Import Date.

Lemma yoe_bounds doe :
  0 <= doe < 146097 ->
  let yoe := (doe - doe / 1460 + doe / 36524 - doe / 146096) / 365 in
  let doy := doe - (365 * yoe + yoe / 4 - yoe / 100) in
  0 <= yoe < 400 /\ 0 <= doy /\ (5 * doy + 2) / 153 < 12.
Proof.
  intros H yoe doy. subst yoe doy.
  repeat split; Z.div_mod_to_equations; lia.
Qed.

Lemma daysFromCivil_civilFromDays n k :
  let '(y, m, d) := civilFromDays n in
  1 <= m <= 12 /\ daysFromCivil y m 1 + (d + k) - 1 = n + k.
Proof.
  unfold civilFromDays, daysFromCivil.
  set (z := n + 719468).
  assert (Hdoe : 0 <= z mod 146097 < 146097) by (apply Z.mod_pos_bound; lia).
  pose proof (yoe_bounds _ Hdoe) as Hb. cbv zeta in Hb.
  set (doe := z mod 146097) in *.
  set (yoe := (doe - doe / 1460 + doe / 36524 - doe / 146096) / 365) in *.
  set (doy := doe - (365 * yoe + yoe / 4 - yoe / 100)) in *.
  set (mp := (5 * doy + 2) / 153) in *.
  assert (Hmp : 0 <= mp) by (subst mp; Z.div_mod_to_equations; lia).
  destruct Hb as (Hy & Hd & Hm).
  assert (Hz : z = 146097 * (z / 146097) + doe) by (subst doe; apply Z.div_mod; lia).
  set (era := z / 146097) in *.
  destruct (mp <? 10) eqn:E10.
  - apply Z.ltb_lt in E10.
    replace (mp + 3 <=? 2) with false by (symmetry; apply Z.leb_gt; lia).
    replace (2 <? mp + 3) with true by (symmetry; apply Z.ltb_lt; lia).
    split; [lia|].
    replace (yoe + era * 400 + 0 - 0) with (yoe + era * 400) by lia.
    replace ((yoe + era * 400) / 400) with era by (Z.div_mod_to_equations; lia).
    replace ((yoe + era * 400) mod 400) with yoe by (Z.div_mod_to_equations; lia).
    replace (mp + 3 - 3) with mp by lia.
    subst doy z. lia.
  - apply Z.ltb_ge in E10.
    replace (mp - 9 <=? 2) with true by (symmetry; apply Z.leb_le; lia).
    replace (2 <? mp - 9) with false by (symmetry; apply Z.ltb_ge; lia).
    split; [lia|].
    replace (yoe + era * 400 + 1 - 1) with (yoe + era * 400) by lia.
    replace ((yoe + era * 400) / 400) with era by (Z.div_mod_to_equations; lia).
    replace ((yoe + era * 400) mod 400) with yoe by (Z.div_mod_to_equations; lia).
    replace (mp - 9 + 9) with mp by lia.
    subst doy z. lia.
Qed.

(** Rebuilding a day from its own calendar fields, [k] days later. *)
Lemma MakeDay_fields l k :
  MakeDay (YearFromTime l) (MonthFromTime l) (DateFromTime l + k) = Day l + k.
Proof.
  unfold MakeDay, YearFromTime, MonthFromTime, DateFromTime.
  pose proof (daysFromCivil_civilFromDays (Day l) k) as H.
  destruct (civilFromDays (Day l)) as [[y m] d]. cbn [fst snd].
  destruct H as (Hm & H).
  replace ((m - 1) / 12) with 0 by (Z.div_mod_to_equations; lia).
  replace ((m - 1) mod 12 + 1) with m by (Z.div_mod_to_equations; lia).
  rewrite Z.add_0_r. exact H.
Qed.

Lemma YearFromTime_epoch l : 0 <= l -> 1970 <= YearFromTime l.
Proof.
  intros Hl. unfold YearFromTime, civilFromDays. cbn [fst].
  assert (Hd : 0 <= Day l) by (unfold Day, msPerDay; Z.div_mod_to_equations; lia).
  set (z := Day l + 719468).
  assert (Hdoe : 0 <= z mod 146097 < 146097) by (apply Z.mod_pos_bound; lia).
  pose proof (yoe_bounds _ Hdoe) as Hb. cbv zeta in Hb.
  set (doe := z mod 146097) in *.
  set (yoe := (doe - doe / 1460 + doe / 36524 - doe / 146096) / 365) in *.
  set (doy := doe - (365 * yoe + yoe / 4 - yoe / 100)) in *.
  set (mp := (5 * doy + 2) / 153) in *.
  assert (Hz : z = 146097 * (z / 146097) + doe) by (subst doe; apply Z.div_mod; lia).
  set (era := z / 146097) in *.
  destruct Hb as (Hy & Hdy & Hm).
  assert (4 <= era) by (subst z; lia).
  assert (Hcase : era = 4 \/ 5 <= era) by lia.
  destruct Hcase as [He|He]; [|destruct (_ <=? 2); lia].
  (* era 4: the day of the era is at least that of 1 January 1970 *)
  assert (Hdoe' : 135080 <= doe) by (subst z; lia).
  assert (369 <= yoe) by (subst yoe; Z.div_mod_to_equations; lia).
  assert (Hy370 : yoe = 369 \/ 370 <= yoe) by lia.
  destruct Hy370 as [Hy9|Hy9]; [|destruct (_ <=? 2); lia].
  assert (Hdoy : 306 <= doy) by (subst doy; rewrite Hy9; change (369 / 4) with 92; change (369 / 100) with 3; lia).
  assert (10 <= mp) by (subst mp; Z.div_mod_to_equations; lia).
  replace (mp <? 10) with false by (symmetry; apply Z.ltb_ge; lia).
  assert (mp < 12) by lia.
  replace (mp - 9 <=? 2) with true by (symmetry; apply Z.leb_le; lia).
  lia.
Qed.

Lemma LocalTime_UTC tza x : LocalTime tza (UTC tza x) = x.
Proof. unfold LocalTime, UTC. lia. Qed.

Lemma fields_range l :
  0 <= HourFromTime l < 24 /\ 0 <= MinFromTime l < 60 /\
  0 <= SecFromTime l < 60 /\ 0 <= msFromTime l < 1000.
Proof.
  unfold HourFromTime, MinFromTime, SecFromTime, msFromTime.
  repeat split; Z.div_mod_to_equations; lia.
Qed.

Lemma fields_of_MakeDate d h m s ms :
  0 <= h < 24 -> 0 <= m < 60 -> 0 <= s < 60 -> 0 <= ms < 1000 ->
  let l := MakeDate d (MakeTime h m s ms) in
  Day l = d /\ HourFromTime l = h /\ MinFromTime l = m /\ SecFromTime l = s /\
  msFromTime l = ms /\ TimeWithinDay l = MakeTime h m s ms.
Proof.
  intros Hh Hm Hs Hms l. subst l.
  unfold Day, HourFromTime, MinFromTime, SecFromTime, msFromTime, TimeWithinDay,
    MakeDate, MakeTime, msPerDay.
  repeat split; Z.div_mod_to_equations; lia.
Qed.

End DateFacts.

Module NextRunFacts.
Import Spec.

Lemma getNextCronDate_fixed tza cron minute hour f3 f4 f5 mi hi u :
  Js.split " " cron = [minute; hour; f3; f4; f5] ->
  minute <> "*" -> hour <> "*" ->
  Js.parseInt minute = Some mi -> Js.parseInt hour = Some hi ->
  0 <= mi < 60 -> 0 <= hi < 24 ->
  Scheduler.getNextCronDate tza cron (Some u)
  = Ok (Some (if todayAt tza u hi mi <=? u
              then todayAt tza u hi mi + Date.msPerDay
              else todayAt tza u hi mi)).
Proof.
  intros Hsplit Hm Hh Pm Ph Rm Rh.
  unfold Scheduler.getNextCronDate. rewrite Hsplit. cbn [List.length Nat.eqb negb nth].
  apply String.eqb_neq in Hm, Hh. rewrite Hm, Hh. cbn [negb].
  rewrite Pm, Ph.
  unfold Date.setSeconds, Date.setMilliseconds, Date.setMinutes, Date.setHours,
    Date.withLocal.
  rewrite !DateFacts.LocalTime_UTC.
  set (l := Date.LocalTime tza u).
  destruct (DateFacts.fields_range l) as (Hh0 & Hm0 & Hs0 & Hms0).
  destruct (DateFacts.fields_of_MakeDate (Date.Day l) _ _ 0 _ Hh0 Hm0 ltac:(lia) Hms0)
    as (D1 & H1 & M1 & S1 & MS1 & _).
  rewrite D1, H1, M1, S1.
  destruct (DateFacts.fields_of_MakeDate (Date.Day l) _ _ 0 0 Hh0 Hm0 ltac:(lia) ltac:(lia))
    as (D2 & H2 & M2 & S2 & MS2 & _).
  rewrite D2, H2, S2, MS2.
  destruct (DateFacts.fields_of_MakeDate (Date.Day l) _ _ 0 0 Hh0 Rm ltac:(lia) ltac:(lia))
    as (D3 & H3 & M3 & S3 & MS3 & _).
  rewrite D3, M3, S3, MS3.
  destruct (DateFacts.fields_of_MakeDate (Date.Day l) _ _ 0 0 Rh Rm ltac:(lia) ltac:(lia))
    as (D4 & H4 & M4 & S4 & MS4 & T4).
  unfold Date.leb.
  change (Date.UTC tza (Date.MakeDate (Date.Day l) (Date.MakeTime hi mi 0 0)))
    with (todayAt tza u hi mi).
  destruct (todayAt tza u hi mi <=? u); [|reflexivity].
  unfold Date.setDate, Date.getDate, Date.withLocal. cbn [option_map].
  unfold todayAt. rewrite DateFacts.LocalTime_UTC. fold l.
  rewrite DateFacts.MakeDay_fields, D4, T4.
  unfold Date.UTC, Date.MakeDate. do 2 f_equal. lia.
Qed.

Lemma getNextCronDate_examples tza :
  Scheduler.getNextCronDate tza "0 18 * * *" (Some (Date.ofLocal tza 2025 1 1 10 0 0))
  = Ok (Some (Date.ofLocal tza 2025 1 1 18 0 0)) /\
  Scheduler.getNextCronDate tza "0 18 * * *" (Some (Date.ofLocal tza 2025 1 1 19 0 0))
  = Ok (Some (Date.ofLocal tza 2025 1 2 18 0 0)).
Proof.
  split.
  - rewrite (getNextCronDate_fixed tza "0 18 * * *" "0" "18" "*" "*" "*" 0 18)
      by (reflexivity || discriminate || lia).
    unfold todayAt, Date.ofLocal. rewrite DateFacts.LocalTime_UTC. unfold Date.UTC.
    match goal with |- context [Date.Day ?x] => let v := eval vm_compute in (Date.Day x) in change (Date.Day x) with v end.
    repeat match goal with |- context [Date.MakeDate ?a ?b] => let v := eval vm_compute in (Date.MakeDate a b) in change (Date.MakeDate a b) with v end.
    replace (_ <=? _) with false by (symmetry; apply Z.leb_gt; lia).
    reflexivity.
  - rewrite (getNextCronDate_fixed tza "0 18 * * *" "0" "18" "*" "*" "*" 0 18)
      by (reflexivity || discriminate || lia).
    unfold todayAt, Date.ofLocal. rewrite DateFacts.LocalTime_UTC. unfold Date.UTC.
    match goal with |- context [Date.Day ?x] => let v := eval vm_compute in (Date.Day x) in change (Date.Day x) with v end.
    repeat match goal with |- context [Date.MakeDate ?a ?b] => let v := eval vm_compute in (Date.MakeDate a b) in change (Date.MakeDate a b) with v end.
    replace (_ <=? _) with true by (symmetry; apply Z.leb_le; lia).
    do 2 f_equal. unfold Date.msPerDay. lia.
Qed.

End NextRunFacts.

(* ===================================================================== *)
(** * What a method adds to the trace *)
(* ===================================================================== *)

Module TraceFacts.
Import Spec.

Lemma extends_refl q tr : extends q tr tr.
Proof. exists []. split; [now rewrite app_nil_r | reflexivity]. Qed.

Lemma extends_trans q a b c : extends q a b -> extends q b c -> extends q a c.
Proof.
  intros (d1 & -> & H1) (d2 & -> & H2). exists (d1 ++ d2)%list.
  split; [now rewrite app_assoc | rewrite forallb_app, H1, H2; reflexivity].
Qed.

Lemma extends_one q tr ev : q ev = true -> extends q tr (tr ++ [ev])%list.
Proof. intros H. exists [ev]. split; [reflexivity | cbn; now rewrite H]. Qed.

Section Combinators.
Context {S : Type} (q : Event -> bool).

Lemma emitsOnly_ret {A} (a : A) : emitsOnly (S:=S) q (ret a).
Proof. intros E s tr r s' tr' H. inversion H; subst. apply extends_refl. Qed.

Lemma emitsOnly_throw {A} e : emitsOnly (S:=S) (A:=A) q (throw e).
Proof. intros E s tr r s' tr' H. inversion H; subst. apply extends_refl. Qed.

Lemma emitsOnly_get : emitsOnly (S:=S) q get.
Proof. intros E s tr r s' tr' H. inversion H; subst. apply extends_refl. Qed.

Lemma emitsOnly_ask : emitsOnly (S:=S) q ask.
Proof. intros E s tr r s' tr' H. inversion H; subst. apply extends_refl. Qed.

Lemma emitsOnly_now : emitsOnly (S:=S) q now.
Proof. intros E s tr r s' tr' H. inversion H; subst. apply extends_refl. Qed.

Lemma emitsOnly_modify f : emitsOnly (S:=S) q (modify f).
Proof. intros E s tr r s' tr' H. inversion H; subst. apply extends_refl. Qed.

Lemma emitsOnly_emit ev : q ev = true -> emitsOnly (S:=S) q (emit ev).
Proof. intros Hq E s tr r s' tr' H. inversion H; subst. now apply extends_one. Qed.

Lemma emitsOnly_bind {A B} (m : M S A) (k : A -> M S B) :
  emitsOnly q m -> (forall a, emitsOnly q (k a)) -> emitsOnly q (bind m k).
Proof.
  intros Hm Hk E s tr r s' tr' H. unfold bind in H.
  destruct (m E s tr) as [[[a|e] s1] tr1] eqn:Em.
  - eapply extends_trans; [eapply Hm, Em | eapply Hk, H].
  - inversion H; subst. eapply Hm, Em.
Qed.

Lemma emitsOnly_tryCatch {A} (m : M S A) (h : JsError -> M S A) :
  emitsOnly q m -> (forall e, emitsOnly q (h e)) -> emitsOnly q (tryCatch m h).
Proof.
  intros Hm Hh E s tr r s' tr' H. unfold tryCatch in H.
  destruct (m E s tr) as [[[a|e] s1] tr1] eqn:Em.
  - inversion H; subst. eapply Hm, Em.
  - eapply extends_trans; [eapply Hm, Em | eapply Hh, H].
Qed.

Lemma emitsOnly_execAsync cwd c :
  q (EvExec cwd c) = true -> emitsOnly (S:=S) q (execAsync cwd c).
Proof. intros Hq E s tr r s' tr' H. inversion H; subst. now apply extends_one. Qed.

Lemma emitsOnly_fsAccess p :
  q (EvAccess p) = true -> emitsOnly (S:=S) q (fsAccess p).
Proof. intros Hq E s tr r s' tr' H. inversion H; subst. now apply extends_one. Qed.

End Combinators.

Lemma emitsOnly_zoom {S T A} q (proj : S -> T) inj (m : M T A) :
  emitsOnly q m -> emitsOnly q (zoom proj inj m).
Proof.
  intros Hm E s tr r s' tr' H. unfold zoom in H.
  destruct (m E (proj s) tr) as [[r1 t1] tr1] eqn:Em.
  inversion H; subst. eapply Hm, Em.
Qed.

Section ReadOnly.
Context {S : Type}.

Lemma readOnly_ret {A} (a : A) : readOnly (S:=S) (ret a).
Proof. intros E s tr r s' tr' H. now inversion H. Qed.
Lemma readOnly_throw {A} e : readOnly (S:=S) (A:=A) (throw e).
Proof. intros E s tr r s' tr' H. now inversion H. Qed.
Lemma readOnly_get : readOnly (S:=S) get.
Proof. intros E s tr r s' tr' H. now inversion H. Qed.
Lemma readOnly_ask : readOnly (S:=S) ask.
Proof. intros E s tr r s' tr' H. now inversion H. Qed.
Lemma readOnly_now : readOnly (S:=S) now.
Proof. intros E s tr r s' tr' H. now inversion H. Qed.
Lemma readOnly_emit ev : readOnly (S:=S) (emit ev).
Proof. intros E s tr r s' tr' H. now inversion H. Qed.
Lemma readOnly_execAsync cwd c : readOnly (S:=S) (execAsync cwd c).
Proof. intros E s tr r s' tr' H. now inversion H. Qed.
Lemma readOnly_fsAccess p : readOnly (S:=S) (fsAccess p).
Proof. intros E s tr r s' tr' H. now inversion H. Qed.

Lemma readOnly_bind {A B} (m : M S A) (k : A -> M S B) :
  readOnly m -> (forall a, readOnly (k a)) -> readOnly (bind m k).
Proof.
  intros Hm Hk E s tr r s' tr' H. unfold bind in H.
  destruct (m E s tr) as [[[a|e] s1] tr1] eqn:Em.
  - apply Hm in Em. apply Hk in H. congruence.
  - inversion H; subst. eapply Hm, Em.
Qed.

Lemma readOnly_tryCatch {A} (m : M S A) (h : JsError -> M S A) :
  readOnly m -> (forall e, readOnly (h e)) -> readOnly (tryCatch m h).
Proof.
  intros Hm Hh E s tr r s' tr' H. unfold tryCatch in H.
  destruct (m E s tr) as [[[a|e] s1] tr1] eqn:Em.
  - inversion H; subst. eapply Hm, Em.
  - apply Hm in Em. apply Hh in H. congruence.
Qed.

End ReadOnly.

Ltac reads_step :=
  first
    [ apply readOnly_ret | apply readOnly_throw | apply readOnly_get
    | apply readOnly_ask | apply readOnly_now | apply readOnly_emit
    | apply readOnly_execAsync | apply readOnly_fsAccess
    | apply readOnly_bind; [|intros ?]
    | apply readOnly_tryCatch; [|intros ?]
    | match goal with
      | |- readOnly (if ?b then _ else _) => destruct b
      | |- readOnly (match ?x with _ => _ end) => destruct x
      end
    | assumption ].

Ltac reads := repeat reads_step.

(** Decomposes a method into its statements. *)
Ltac emits_step :=
  first
    [ apply emitsOnly_ret | apply emitsOnly_throw | apply emitsOnly_get
    | apply emitsOnly_ask | apply emitsOnly_now | apply emitsOnly_modify
    | apply emitsOnly_emit; reflexivity
    | apply emitsOnly_execAsync; reflexivity
    | apply emitsOnly_fsAccess; reflexivity
    | apply emitsOnly_bind; [|intros ?]
    | apply emitsOnly_tryCatch; [|intros ?]
    | match goal with
      | |- emitsOnly _ (if ?b then _ else _) => destruct b
      | |- emitsOnly _ (match ?x with _ => _ end) => destruct x
      end
    | assumption ].

Ltac emits := repeat emits_step.

End TraceFacts.

(* ===================================================================== *)
(** * The retrying commit *)
(* ===================================================================== *)

Module RetryFacts.
Import Spec.
Import TraceFacts GitManager.
Local Open Scope list_scope.

Lemma attempts_app a b : attempts (a ++ b) = (attempts a + attempts b)%nat.
Proof. unfold attempts. now rewrite filter_app, length_app. Qed.

Lemma delays_app a b : delays (a ++ b) = (delays a ++ delays b)%list.
Proof. unfold delays. now rewrite flat_map_app. Qed.

Lemma quiet_extends tr tr' :
  extends quiet tr tr' -> attempts tr' = attempts tr /\ delays tr' = delays tr.
Proof.
  intros (d & -> & Hd). rewrite attempts_app, delays_app.
  assert (attempts d = 0%nat /\ delays d = []) as [-> ->].
  { induction d as [|ev d IH]; [now split|].
    cbn in Hd. apply andb_prop in Hd as [Hq Hd]. destruct (IH Hd) as [IA ID].
    unfold attempts, delays in *. cbn.
    unfold quiet in Hq. apply andb_prop in Hq as [Ha Hs].
    apply negb_true_iff in Ha, Hs. rewrite Ha.
    destruct ev; try discriminate; cbn; now rewrite ?ID. }
  now rewrite Nat.add_0_r, app_nil_r.
Qed.

#[local] Ltac quiet_of defs :=
  intros; unfold defs, logDebug, logInfo, logError, defaultLogger_warn; emits;
  eauto.

Lemma quiet_executeGitCommand c : emitsOnly quiet (executeGitCommand c).
Proof. quiet_of executeGitCommand. Qed.
#[local] Hint Resolve quiet_executeGitCommand : core.

Lemma quiet_hasChanges : emitsOnly quiet hasChanges.
Proof. quiet_of hasChanges. Qed.
#[local] Hint Resolve quiet_hasChanges : core.

Lemma quiet_getGitDirectory : emitsOnly quiet getGitDirectory.
Proof. quiet_of getGitDirectory. Qed.
#[local] Hint Resolve quiet_getGitDirectory : core.

Lemma quiet_getRepositoryState : emitsOnly quiet getRepositoryState.
Proof. quiet_of getRepositoryState. Qed.
#[local] Hint Resolve quiet_getRepositoryState : core.

Lemma quiet_isRepositoryClean : emitsOnly quiet isRepositoryClean.
Proof. quiet_of isRepositoryClean. Qed.
#[local] Hint Resolve quiet_isRepositoryClean : core.

Lemma quiet_getLatestCommitHash : emitsOnly quiet getLatestCommitHash.
Proof. quiet_of getLatestCommitHash. Qed.
#[local] Hint Resolve quiet_getLatestCommitHash : core.

Lemma quiet_getChangedFilesFromCommit h : emitsOnly quiet (getChangedFilesFromCommit h).
Proof. quiet_of getChangedFilesFromCommit. Qed.
#[local] Hint Resolve quiet_getChangedFilesFromCommit : core.

(** One attempt neither sleeps nor announces an attempt. *)
Lemma quiet_createCommit message : emitsOnly quiet (createCommit message).
Proof. quiet_of createCommit. Qed.

Lemma dontRetry_precondition e : preconditionError e -> dontRetry e = true.
Proof. intros [H | [H | H]]; subst e; reflexivity. Qed.

Lemma retry_first_attempt_not_retried E g tr message maxRetries retryDelayMs e g1 tr1 :
  1 <= maxRetries ->
  createCommit message E g (tr ++ [EvLog SDebug "Attempting to create commit"])
  = (Throw e, g1, tr1) ->
  dontRetry e = true ->
  createCommitWithRetry message maxRetries retryDelayMs E g tr = (Throw e, g1, tr1)
  /\ attempts tr1 = S (attempts tr) /\ delays tr1 = delays tr.
Proof.
  intros Hn Hc Hd. split.
  - unfold createCommitWithRetry.
    destruct (Z.to_nat maxRetries) as [|left] eqn:En; [lia|].
    cbn [retryLoop]. unfold bind at 1. unfold bind at 1. unfold tryCatch at 1.
    unfold bind at 1. unfold logDebug, emit at 1. unfold bind at 1.
    rewrite Hc. rewrite Hd. unfold bind at 1. unfold bind at 1. reflexivity.
  - destruct (quiet_extends _ _ (quiet_createCommit _ _ _ _ _ _ _ Hc)) as [Ha Hs].
    rewrite Ha, Hs, attempts_app, delays_app. cbn. split; [lia | now rewrite app_nil_r].
Qed.

(** With two attempts or more allowed, the first failure that would be
    retried reaches the call of [warn] on the default logger, and the
    exception of that call leaves the loop. *)
Lemma retry_stops_at_warn E g tr message maxRetries retryDelayMs e g1 tr1 :
  2 <= maxRetries ->
  createCommit message E g (tr ++ [EvLog SDebug "Attempting to create commit"])
  = (Throw e, g1, tr1) ->
  dontRetry e = false ->
  createCommitWithRetry message maxRetries retryDelayMs E g tr
  = (Throw (newTypeError "defaultLogger.warn is not a function"), g1, tr1)
  /\ attempts tr1 = S (attempts tr) /\ delays tr1 = delays tr.
Proof.
  intros Hn Hc Hd. split.
  - unfold createCommitWithRetry.
    destruct (Z.to_nat maxRetries) as [|left] eqn:En; [lia|].
    cbn [retryLoop]. unfold bind at 1. unfold bind at 1. unfold tryCatch at 1.
    unfold bind at 1. unfold logDebug, emit at 1. unfold bind at 1.
    rewrite Hc. rewrite Hd. unfold bind at 1. unfold ret at 1.
    replace (1 <? maxRetries) with true by (symmetry; apply Z.ltb_lt; lia).
    reflexivity.
  - destruct (quiet_extends _ _ (quiet_createCommit _ _ _ _ _ _ _ Hc)) as [Ha Hs].
    rewrite Ha, Hs, attempts_app, delays_app. cbn. split; [lia | now rewrite app_nil_r].
Qed.

(** With one attempt allowed, a failure that would be retried ends the
    loop and is wrapped. *)
Lemma retry_single_attempt E g tr message retryDelayMs e g1 tr1 :
  createCommit message E g (tr ++ [EvLog SDebug "Attempting to create commit"])
  = (Throw e, g1, tr1) ->
  dontRetry e = false ->
  createCommitWithRetry message 1 retryDelayMs E g tr
  = (Throw (newGitOperationError
              ("Failed to create commit after 1 attempts: " ++ errMessage e)%string
              (Some e)), g1, tr1).
Proof.
  intros Hc Hd. unfold createCommitWithRetry.
  change (Z.to_nat 1) with 1%nat.
  cbn [retryLoop]. unfold bind at 1. unfold bind at 1. unfold tryCatch at 1.
  unfold bind at 1. unfold logDebug, emit at 1. unfold bind at 1.
  rewrite Hc. rewrite Hd. reflexivity.
Qed.

End RetryFacts.



(* ===================================================================== *)
(** * The message template *)
(* ===================================================================== *)

Module StrFacts.

Lemma append_assoc (a b c : string) : (a ++ b) ++ c = a ++ (b ++ c).
Proof. induction a as [|x a IH]; [reflexivity | cbn; now rewrite IH]. Qed.

Lemma append_nil_r (a : string) : a ++ "" = a.
Proof. induction a as [|x a IH]; [reflexivity | cbn; now rewrite IH]. Qed.

Lemma length_append (a b : string) :
  String.length (a ++ b) = (String.length a + String.length b)%nat.
Proof. induction a as [|x a IH]; [reflexivity | cbn; now rewrite IH]. Qed.

Lemma length_take n s : (n <= String.length s)%nat -> String.length (Js.take n s) = n.
Proof.
  revert s. induction n as [|n IH]; intros s H; [reflexivity|].
  destruct s as [|c s]; cbn in *; [lia | rewrite IH; lia].
Qed.

Lemma endsWith_append a p : Js.endsWith p (a ++ p) = true.
Proof.
  unfold Js.endsWith. rewrite length_append.
  replace (String.length p <=? String.length a + String.length p)%nat with true
    by (symmetry; apply Nat.leb_le; lia).
  replace (String.length a + String.length p - String.length p)%nat
    with (String.length a) by lia.
  cbn [andb]. apply String.eqb_eq.
  induction a as [|x a IH]; cbn.
  - induction p as [|y p IHp]; [reflexivity | cbn; now rewrite IHp].
  - exact IH.
Qed.

End StrFacts.

Module TemplateFacts.
Import Spec.
Import GitManager.

Lemma placeholders_keys tza now analysis fs :
  map fst (placeholders tza now analysis fs) = knownPlaceholders.
Proof. reflexivity. Qed.

Lemma startsWith_brace pat c s :
  placeholderShape pat = true -> c <> "{"%char -> Js.startsWith pat (String c s) = false.
Proof.
  destruct pat as [|p pat]; [discriminate|]. cbn. intros H Hc.
  apply andb_prop in H as [H _]. apply Ascii.eqb_eq in H. subst p.
  destruct (Ascii.eqb "{" c) eqn:E; [apply Ascii.eqb_eq in E; congruence | reflexivity].
Qed.

(** Inside a placeholder nothing matches: its text is copied. *)
Lemma replaceAllFrom_inside pat repl r :
  placeholderShape pat = true -> closes r = true ->
  forall before b,
    Js.replaceAllFrom pat repl before (r ++ b) 0
    = r ++ Js.replaceAllFrom pat repl (before ++ r) b 0.
Proof.
  intros Hp. induction r as [|c r IH]; [discriminate|].
  cbn [closes]. intros Hr before b.
  change (String c r ++ b) with (String c (r ++ b)).
  cbn [Js.replaceAllFrom].
  destruct (Ascii.eqb c "}") eqn:E1.
  - apply String.eqb_eq in Hr. subst r. apply Ascii.eqb_eq in E1. subst c.
    rewrite startsWith_brace by (assumption || discriminate). reflexivity.
  - destruct (Ascii.eqb c "{") eqn:E2; [discriminate|].
    rewrite startsWith_brace by (assumption || (apply Ascii.eqb_neq; assumption)).
    rewrite IH by assumption. cbn.
    now rewrite StrFacts.append_assoc.
Qed.

(** A match that starts before a placeholder ends before it. *)
Lemma match_ends_before p y z :
  closes p = true -> Js.startsWith p (y ++ String "{" z) = true ->
  (String.length p <= String.length y)%nat.
Proof.
  revert y. induction p as [|d p IH]; [discriminate|].
  intros y Hc Hs. cbn [closes] in Hc.
  destruct y as [|e y].
  - cbn in Hs. apply andb_prop in Hs as [Hs _]. apply Ascii.eqb_eq in Hs. subst d.
    cbn in Hc. discriminate.
  - cbn in Hs. apply andb_prop in Hs as [_ Hs].
    destruct (Ascii.eqb d "}").
    + apply String.eqb_eq in Hc. subst p. cbn. lia.
    + destruct (Ascii.eqb d "{"); [discriminate|].
      cbn. specialize (IH y Hc Hs). lia.
Qed.

(** Another placeholder does not match where a placeholder starts. *)
Lemma no_match_at_other p r b :
  closes p = true -> closes r = true -> p <> r ->
  Js.startsWith p (r ++ b) = false.
Proof.
  revert r. induction p as [|d p IH]; [discriminate|].
  intros r Hp Hr Hne. destruct r as [|e r]; [discriminate|].
  cbn [closes] in Hp, Hr. cbn.
  destruct (Ascii.eqb d e) eqn:Ede; [|reflexivity]. cbn.
  apply Ascii.eqb_eq in Ede. subst e.
  destruct (Ascii.eqb d "}").
  - apply String.eqb_eq in Hp, Hr. subst. congruence.
  - destruct (Ascii.eqb d "{"); [discriminate|].
    apply IH; [assumption | assumption | congruence].
Qed.

Lemma replaceAllFrom_keeps pat repl u b :
  placeholderShape pat = true -> placeholderShape u = true -> pat <> u ->
  forall a before skip,
    (skip <= String.length a)%nat ->
    exists a' b', Js.replaceAllFrom pat repl before (a ++ u ++ b) skip = a' ++ u ++ b'.
Proof.
  intros Hp Hu Hne.
  destruct u as [|u0 r]; [discriminate|].
  pose proof Hu as Hu'. cbn in Hu'. apply andb_prop in Hu' as [Hu0 Hr].
  apply Ascii.eqb_eq in Hu0. subst u0.
  destruct pat as [|p0 p]; [discriminate|].
  pose proof Hp as Hp'. cbn in Hp'. apply andb_prop in Hp' as [Hp0 Hcp].
  apply Ascii.eqb_eq in Hp0. subst p0.
  induction a as [|c a IH]; intros before skip Hskip.
  - cbn in Hskip. assert (skip = 0%nat) by lia. subst skip.
    cbn [append]. change (String "{" r ++ b) with (String "{" (r ++ b)).
    cbn [Js.replaceAllFrom Js.startsWith]. rewrite Ascii.eqb_refl. cbn [andb].
    rewrite no_match_at_other by (assumption || congruence).
    rewrite (replaceAllFrom_inside _ _ _ Hp Hr).
    exists "", (Js.replaceAllFrom (String "{" p) repl ((before ++ "{") ++ r) b 0).
    reflexivity.
  - change (String c a ++ String "{" r ++ b) with (String c (a ++ String "{" r ++ b)).
    destruct skip as [|k].
    + cbn [Js.replaceAllFrom].
      destruct (Js.startsWith (String "{" p) (String c (a ++ String "{" r ++ b))) eqn:Es.
      * cbn [Js.startsWith] in Es. apply andb_prop in Es as [_ Es].
        change (String "{" r ++ b) with (String "{" (r ++ b)) in Es.
        pose proof (match_ends_before _ _ _ Hcp Es) as Hlen.
        destruct (IH (before ++ String c "") (String.length (String "{" p) - 1)%nat)
          as (a' & b' & E); [cbn; lia|].
        rewrite E. eexists (_ ++ a'), b'. now rewrite StrFacts.append_assoc.
      * destruct (IH (before ++ String c "") 0%nat) as (a' & b' & E); [lia|].
        rewrite E. exists (String c a'), b'. reflexivity.
    + cbn [Js.replaceAllFrom].
      destruct (IH (before ++ String c "") k) as (a' & b' & E); [cbn in Hskip; lia|].
      rewrite E. exists a', b'. reflexivity.
Qed.

(** A placeholder that is none of the keys survives every replacement. *)
Lemma replacePlaceholders_keeps u subst :
  placeholderShape u = true ->
  Forall (fun k => placeholderShape k = true /\ k <> u) (map fst subst) ->
  forall a b, exists a' b', replacePlaceholders subst (a ++ u ++ b) = a' ++ u ++ b'.
Proof.
  intros Hu. induction subst as [|[k v] subst IH]; intros Hall a b.
  - exists a, b. reflexivity.
  - cbn in Hall. inversion Hall as [|? ? [Hk Hne] Hrest]; subst.
    unfold replacePlaceholders. cbn [fold_left fst snd].
    unfold Js.replaceAll.
    destruct (replaceAllFrom_keeps k v u b Hk Hu Hne a "" 0%nat) as (a1 & b1 & E); [lia|].
    rewrite E. apply (IH Hrest).
Qed.

Lemma knownPlaceholders_shape u :
  ~ In u knownPlaceholders ->
  Forall (fun k => placeholderShape k = true /\ k <> u) knownPlaceholders.
Proof.
  intros Hn. unfold knownPlaceholders in *.
  repeat (apply Forall_cons;
          [split; [reflexivity | intros E; apply Hn; rewrite <- E; cbn; tauto]|]).
  apply Forall_nil.
Qed.

End TemplateFacts.

(* ===================================================================== *)
(** * The scheduler *)
(* ===================================================================== *)

Module SchedulerFacts.
Import Spec.
Import TraceFacts Scheduler.
Local Open Scope list_scope.

Lemma calls_app a b : calls (a ++ b) = (calls a + calls b)%nat.
Proof. unfold calls. now rewrite filter_app, length_app. Qed.

Lemma noCall_extends tr tr' : extends noCall tr tr' -> calls tr' = calls tr.
Proof.
  intros (d & -> & Hd). rewrite calls_app.
  assert (calls d = 0%nat) as ->; [|lia].
  induction d as [|ev d IH]; [reflexivity|].
  cbn in Hd. apply andb_prop in Hd as [Hq Hd]. unfold calls in *. cbn.
  unfold noCall in Hq. apply negb_true_iff in Hq. rewrite Hq. auto.
Qed.

(** [saveState] never throws and leaves the scheduler as it is. *)
Lemma saveState_ok E s tr :
  exists tr', saveState E s tr = (Ok tt, s, tr') /\ extends noCall tr tr'.
Proof.
  unfold saveState, tryCatch, bind, ask, get, fsMkdir, fsWriteFile, logError, emit.
  destruct (mkdir E tr _) as [e|].
  - eexists; split; [reflexivity|].
    exists [EvMkdir (pathJoin E (stateFilePath s) ".."); EvLog SError "Failed to save scheduler state"].
    now rewrite <- app_assoc.
  - destruct (writeFile E _ _ _) as [e|]; (eexists; split; [reflexivity|]).
    + eexists [_; _; _]. rewrite <- !app_assoc. split; reflexivity.
    + eexists [_; _]. rewrite <- !app_assoc. split; reflexivity.
Qed.

Lemma sameBook_refl s : sameBook s s.
Proof. repeat split. Qed.

Lemma calculateNextRun_ok E s tr :
  exists s' tr', calculateNextRun E s tr = (Ok tt, s', tr')
                 /\ sameBook s s' /\ extends noCall tr tr'
                 /\ SchedulerState.lastRun (state s') = SchedulerState.lastRun (state s).
Proof.
  unfold calculateNextRun, bind, get.
  destruct (String.eqb (cronExpression s) "").
  - exists s, tr. repeat split. apply extends_refl.
  - unfold tryCatch, bind, ask, now, liftRes.
    destruct (getNextCronDate _ _ _) as [[u|]|e]; cbn.
    + eexists _, tr. repeat split. apply extends_refl.
    + eexists s, _. repeat split. now apply extends_one.
    + eexists s, _. repeat split. now apply extends_one.
Qed.

Lemma updateLastRun_ok E s tr :
  exists s' tr', updateLastRun E s tr = (Ok tt, s', tr')
                 /\ sameBook s s' /\ extends noCall tr tr'.
Proof.
  unfold updateLastRun, bind, now, modifyState, modify.
  set (s1 := setState _ s).
  destruct (calculateNextRun_ok E s1 tr) as (s' & tr' & -> & Hb & Hx & _).
  exists s', tr'. repeat split; try apply Hb. exact Hx.
Qed.

Lemma calendarDate_day tza u :
  0 <= Date.LocalTime tza u ->
  calendarDate tza (Some u) = Some (Date.UTC tza (localDay tza u * Date.msPerDay)).
Proof.
  intros H. unfold calendarDate, Date.getFullYear, Date.getMonth, Date.getDate, Date.ofYMD.
  cbn [option_map].
  pose proof (DateFacts.YearFromTime_epoch _ H) as Hy.
  replace (0 <=? _) with true by (symmetry; apply Z.leb_le; lia).
  replace (_ <=? 99) with false by (symmetry; apply Z.leb_gt; lia).
  cbn [andb].
  replace (Date.DateFromTime (Date.LocalTime tza u))
    with (Date.DateFromTime (Date.LocalTime tza u) + 0) by lia.
  rewrite DateFacts.MakeDay_fields. unfold Date.MakeDate, localDay.
  do 2 f_equal. lia.
Qed.

(** Detection compares local calendar days. *)
Lemma shouldHaveRunSince_days tza s tL t0 :
  cronExpression s <> ""%string ->
  0 <= Date.LocalTime tza tL -> 0 <= Date.LocalTime tza t0 ->
  shouldHaveRunSince tza s (Some tL) (Some t0) = (localDay tza tL <? localDay tza t0).
Proof.
  intros Hc HL H0. unfold shouldHaveRunSince.
  apply String.eqb_neq in Hc. rewrite Hc.
  rewrite !calendarDate_day by assumption.
  unfold Date.gtb, Date.UTC, Date.msPerDay.
  destruct (Z.ltb_spec (localDay tza tL) (localDay tza t0));
    [apply Z.ltb_lt | apply Z.ltb_ge]; lia.
Qed.

Lemma loadState_file E s tr j :
  readFile E tr (stateFilePath s) = inl (StateJson j) ->
  loadState E s tr
  = (Ok tt, setState (merge (state s) j) s, tr ++ [EvReadFile (stateFilePath s)]).
Proof.
  intros H. unfold loadState, tryCatch, bind, get, fsReadFile. rewrite H. reflexivity.
Qed.

(** [loadState] never throws and touches the persisted state only. *)
Lemma loadState_ok E s tr :
  exists st tr', loadState E s tr = (Ok tt, setState st s, tr') /\ extends noCall tr tr'
                 /\ writes tr' = writes tr.
Proof.
  unfold loadState, tryCatch, bind, get, fsReadFile.
  destruct (readFile E tr _) as [[j|c|x]|e]; cbn.
  - eexists _, _. split; [reflexivity|]. split; [now apply extends_one|].
    unfold writes. now rewrite filter_app, app_nil_r.
  - eexists _, _. split; [reflexivity|]. split; [now apply extends_one|].
    unfold writes. now rewrite filter_app, app_nil_r.
  - exists (state s). destruct s; cbn. eexists. split; [reflexivity|].
    split; [|unfold writes; now rewrite !filter_app, !app_nil_r].
    eexists [_; _]. rewrite <- app_assoc. split; reflexivity.
  - exists (state s). destruct s; cbn.
    destruct (hasCode "ENOENT" e); (eexists; split; [reflexivity|]);
      (split; [|unfold writes; now rewrite !filter_app, !app_nil_r]);
      eexists [_; _]; rewrite <- app_assoc; split; reflexivity.
Qed.

(** The recovery block: what it does is decided by the callback. *)
Lemma recoverMissedRun_spec E s cb t0 tr :
  let tr2 := tr ++ [EvLog SInfo "Detected missed execution, executing now"] in
  let s2 := setState (stMissedExecutions
                        (recordMissed (Date.toISOString t0)
                           (SchedulerState.missedExecutions (state s))) (state s)) s in
  match runCallback E tr2 cb with
  | None =>
      exists s' tr', recoverMissedRun cb t0 E s tr = (Ok true, s', tr')
                     /\ sameBook s2 s' /\ calls tr' = S (calls tr)
  | Some e =>
      recoverMissedRun cb t0 E s tr
      = (Throw e, s2,
         tr2 ++ [EvCall cb; EvLog SError "Failed to execute missed callback"])
  end.
Proof.
  intros tr2 s2.
  unfold recoverMissedRun, bind, tryCatch, logInfo, logError, emit, modifyState,
    modify, call, ret, throw.
  fold tr2. fold s2.
  destruct (runCallback E tr2 cb) as [e|].
  - now rewrite <- app_assoc.
  - destruct (updateLastRun_ok E s2 (tr2 ++ [EvCall cb])) as (s3 & tr3 & -> & Hb & Hx).
    destruct (saveState_ok E s3 tr3) as (tr4 & -> & Hx4).
    exists s3, tr4. split; [reflexivity|]. split; [exact Hb|].
    rewrite (noCall_extends _ _ Hx4), (noCall_extends _ _ Hx).
    subst tr2. rewrite !calls_app. cbn. lia.
Qed.

(** The method once the state file has been read and holds a last run. *)
Lemma handleMissedExecutions_loaded E s cb tr j L :
  callback s = Some cb ->
  readFile E tr (stateFilePath s) = inl (StateJson j) ->
  l_lastRun j = Some L -> L <> ""%string ->
  let tr1 := tr ++ [EvReadFile (stateFilePath s)] in
  let s1 := setState (merge (state s) j) s in
  handleMissedExecutions E s tr
  = if shouldHaveRunSince (tza E) s1 (dateParse E L) (Some (clock E tr1))
    then match recoverMissedRun cb (clock E tr1) E s1 tr1 with
         | (Ok a, s', tr') => (Ok a, s', tr')
         | (Throw _, s', tr') =>
             (Ok false, s', tr' ++ [EvLog SError "Failed to handle missed executions"])
         end
    else (Ok false, s1, tr1).
Proof.
  intros Hcb Hfile HL HLne tr1 s1.
  unfold handleMissedExecutions.
  unfold tryCatch at 1. unfold bind at 1.
  rewrite (loadState_file _ _ _ _ Hfile). fold tr1. fold s1.
  unfold bind at 1. unfold get at 1.
  change (callback s1) with (callback s). rewrite Hcb.
  change (SchedulerState.lastRun (state s1))
    with (orElse (l_lastRun j) (SchedulerState.lastRun (state s))).
  rewrite HL. cbn [orElse orDefault truthy].
  apply String.eqb_neq in HLne. rewrite HLne. cbn [negb].
  unfold bind at 1. unfold ask at 1. unfold bind at 1. unfold now at 1.
  destruct (shouldHaveRunSince _ _ _ _); [|reflexivity].
  destruct (recoverMissedRun _ _ _ _ _) as [[[a|e] s'] tr']; reflexivity.
Qed.

Lemma length_lastTen l : (List.length (lastTen l) <= 10)%nat.
Proof. unfold lastTen. rewrite length_skipn. lia. Qed.

(** The log of missed runs after one more entry: the last ten of the
    entries so far and the new one. *)
Lemma recordMissed_lastTen iso l : recordMissed iso l = lastTen (l ++ [iso]).
Proof.
  unfold recordMissed, lastTen.
  destruct (Nat.ltb_spec 10 (List.length (l ++ [iso]))); [reflexivity|].
  replace (List.length (l ++ [iso]) - 10)%nat with 0%nat by lia. reflexivity.
Qed.

Lemma length_recordMissed iso l :
  (List.length (recordMissed iso l) <= 10)%nat
  /\ ((10 <= List.length l)%nat -> List.length (recordMissed iso l) = 10%nat)
  /\ ((List.length l < 10)%nat -> recordMissed iso l = l ++ [iso]).
Proof.
  rewrite recordMissed_lastTen. unfold lastTen.
  rewrite length_skipn, length_app. cbn [List.length].
  repeat split; try lia.
  intros H. replace (List.length l + 1 - 10)%nat with 0%nat by lia. reflexivity.
Qed.

Lemma lastTen_app a b : lastTen (lastTen a ++ b) = lastTen (a ++ b).
Proof.
  unfold lastTen.
  destruct (Nat.le_gt_cases (List.length a) 10) as [H|H].
  - replace (List.length a - 10)%nat with 0%nat by lia. reflexivity.
  - rewrite !length_app, length_skipn.
    replace (List.length a - (List.length a - 10) + List.length b - 10)%nat
      with (List.length b) by lia.
    replace (List.length a + List.length b - 10)%nat
      with (List.length b + (List.length a - 10))%nat by lia.
    rewrite <- skipn_skipn. f_equal.
    rewrite skipn_app.
    replace (List.length a - 10 - List.length a)%nat with 0%nat by lia.
    reflexivity.
Qed.

(** Any number of recoveries: the log is the last ten of all entries. *)
Lemma recordMissed_fold isos l :
  (List.length l <= 10)%nat ->
  fold_left (fun l iso => recordMissed iso l) isos l = lastTen (l ++ isos).
Proof.
  revert l. induction isos as [|iso isos IH]; intros l Hl.
  - rewrite app_nil_r. unfold lastTen.
    replace (List.length l - 10)%nat with 0%nat by lia. reflexivity.
  - cbn [fold_left]. rewrite IH by apply length_recordMissed.
    rewrite recordMissed_lastTen, lastTen_app, <- app_assoc. reflexivity.
Qed.

(** The method when the callback of a detected run throws: the outer
    handler logs and answers [false]; nothing is written. *)
Lemma handleMissedExecutions_callback_throws E s cb tr j L e :
  callback s = Some cb ->
  readFile E tr (stateFilePath s) = inl (StateJson j) ->
  l_lastRun j = Some L -> L <> ""%string ->
  let tr1 := tr ++ [EvReadFile (stateFilePath s)] in
  let s1 := setState (merge (state s) j) s in
  let t0 := clock E tr1 in
  shouldHaveRunSince (tza E) s1 (dateParse E L) (Some t0) = true ->
  runCallback E (tr1 ++ [EvLog SInfo "Detected missed execution, executing now"]) cb
  = Some e ->
  handleMissedExecutions E s tr
  = (Ok false,
     setState (stMissedExecutions
                 (recordMissed (Date.toISOString t0)
                    (SchedulerState.missedExecutions (state s1))) (state s1)) s1,
     tr1 ++ [EvLog SInfo "Detected missed execution, executing now"; EvCall cb;
             EvLog SError "Failed to execute missed callback";
             EvLog SError "Failed to handle missed executions"]).
Proof.
  intros Hcb Hfile HL HLne tr1 s1 t0 Hdet Hrun.
  rewrite (handleMissedExecutions_loaded E s cb tr j L Hcb Hfile HL HLne).
  fold tr1 s1 t0. rewrite Hdet.
  pose proof (recoverMissedRun_spec E s1 cb t0 tr1) as H. cbv zeta in H.
  rewrite Hrun in H. rewrite H. rewrite <- !app_assoc. reflexivity.
Qed.

(** A run of the method that reports a recovery leaves a bounded log. *)
Lemma handleMissedExecutions_true_bounded E s tr s' tr' :
  handleMissedExecutions E s tr = (Ok true, s', tr') ->
  exists iso l, SchedulerState.missedExecutions (state s') = recordMissed iso l.
Proof.
  unfold handleMissedExecutions.
  unfold tryCatch at 1. unfold bind at 1.
  destruct (loadState_ok E s tr) as (st & tr1 & -> & _ & _).
  set (s1 := setState st s).
  unfold bind at 1. unfold get at 1.
  destruct (callback s1) as [cb|]; [|discriminate].
  destruct (negb (truthy _)); [discriminate|].
  unfold bind at 1. unfold ask at 1. unfold bind at 1. unfold now at 1.
  destruct (shouldHaveRunSince _ _ _ _); [|discriminate].
  pose proof (recoverMissedRun_spec E s1 cb (clock E tr1) tr1) as H. cbv zeta in H.
  destruct (runCallback E _ cb) as [e|].
  - rewrite H. unfold bind, logError, emit, ret. discriminate.
  - destruct H as (s3 & tr3 & -> & Hb & _). intros Heq. inversion Heq; subst.
    destruct Hb as (_ & _ & _ & _ & -> & _). cbn. eauto.
Qed.

(** Unfolds the statements of a method and splits on every answer of the
    environment and of a called method, innermost first. *)
Ltac run_method :=
  cbv beta iota zeta delta
    [bind tryCatch now logInfo logDebug logError emit get modify modifyState ret throw
     ask zoom];
  repeat match goal with
         | |- context [match ?x with _ => _ end] =>
             lazymatch x with
             | context [match _ with _ => _ end] => fail
             | _ => destruct x
             end
         end.

(** [stop] never throws and keeps the expression and the callback. *)
Lemma stop_ok E s tr :
  exists s' tr', stop E s tr = (Ok tt, s', tr')
                 /\ cronExpression s' = cronExpression s /\ callback s' = callback s.
Proof.
  unfold stop. cbv beta iota zeta delta [bind get].
  destruct (task s) as [tk|]; [|exists s, tr; repeat split].
  cbv beta iota zeta delta [bind tryCatch emit modify modifyState logInfo].
  match goal with |- context [saveState E ?x ?y] =>
    destruct (saveState_ok E x y) as (tr4 & -> & _) end.
  eexists _, _. repeat split.
Qed.

(** A [schedule] that returns has installed its arguments. *)
Lemma schedule_installs E s tr expr cb s' tr' :
  schedule expr cb E s tr = (Ok tt, s', tr') ->
  cronExpression s' = expr /\ callback s' = Some cb.
Proof.
  unfold schedule. cbv beta iota zeta delta [bind tryCatch ask throw ret].
  destruct (negb (cronValidate E expr)).
  - cbv beta iota zeta delta [bind logError emit throw]. discriminate.
  - destruct (stop_ok E s tr) as (s1 & tr1 & -> & Hc & Hb).
    cbv beta iota zeta delta [bind modify emit modifyState].
    match goal with |- context [calculateNextRun E ?x ?y] =>
      destruct (calculateNextRun_ok E x y) as (s2 & tr2 & -> & Hbook & _) end.
    cbv beta iota zeta delta [logInfo emit].
    intros H. inversion H; subst.
    destruct Hbook as (_ & Hcb & Hcron & _). rewrite Hcb, Hcron. split; reflexivity.
Qed.

(** [start] keeps the expression, whatever its outcome. *)
Lemma start_keeps E s tr r s' tr' :
  start E s tr = (r, s', tr') -> cronExpression s' = cronExpression s.
Proof.
  unfold start. cbv beta iota zeta delta [bind get throw].
  destruct (task s) as [tk|]; [|intros H; inversion H; reflexivity].
  destruct (isRunning s).
  - cbv beta iota zeta delta [logDebug emit]. intros H; inversion H; reflexivity.
  - cbv beta iota zeta delta [bind tryCatch emit modify modifyState].
    match goal with |- context [calculateNextRun E ?x ?y] =>
      destruct (calculateNextRun_ok E x y) as (s2 & tr2 & -> & Hbook & _) end.
    cbv beta iota zeta delta [logInfo emit].
    match goal with |- context [saveState E ?x ?y] =>
      destruct (saveState_ok E x y) as (tr4 & -> & _) end.
    intros H; inversion H; subst.
    destruct Hbook as (_ & _ & Hcron & _). rewrite Hcron. reflexivity.
Qed.

End SchedulerFacts.

(* ===================================================================== *)
(** * The service *)
(* ===================================================================== *)

Module ServiceFacts.
Import Spec.
Import TraceFacts AutoCommitService.
Local Open Scope list_scope.

Ltac run_service :=
  cbv beta iota zeta delta
    [bind tryCatch now logInfo logDebug logError emit get modify ret throw
     git sched conf zoom warn logger_warn recordAndRethrow setLogLevel];
  repeat match goal with
         | |- context [match ?x with _ => _ end] =>
             lazymatch x with
             | context [match _ with _ => _ end] => fail
             | _ => destruct x
             end
         end.

(** After the merge the new commit time is the held commit time. *)
Lemma commitTimeChanged_merged cfg n :
  commitTimeChanged n (Some (mergeConfig cfg n)) = false.
Proof.
  unfold commitTimeChanged, mergeConfig. cbn [commitTime].
  destruct (p_commitTime n) as [time|]; [|reflexivity].
  cbn [Scheduler.orDefault]. rewrite String.eqb_refl. apply andb_false_r.
Qed.

(** The service's [stop] never throws. *)
Lemma service_stop_ok E s tr :
  exists sc tr', stop E s tr
                 = (Ok tt, setIsServiceRunning false (setScheduler sc s), tr')
                 /\ Scheduler.cronExpression sc = Scheduler.cronExpression (scheduler s)
  \/ stop E s tr = (Ok tt, s, tr') /\ isServiceRunning s = false.
Proof.
  unfold stop.
  cbv beta iota zeta delta [bind tryCatch logInfo logDebug emit get modify sched zoom].
  destruct (isServiceRunning s) eqn:Er; cbn [negb].
  - destruct (SchedulerFacts.stop_ok E (scheduler s) (tr ++ [EvLog SInfo "Stopping auto-commit service"]))
      as (sc & tr1 & -> & Hc & _).
    exists sc. eexists. left. split; [reflexivity | exact Hc].
  - exists (scheduler s). eexists. right. split; reflexivity.
Qed.

(** A [start] that returns on an enabled, stopped service has installed
    the commit time of the configuration held. *)
Lemma start_installs E s tr cfg s' tr' :
  start E s tr = (Ok tt, s', tr') ->
  isServiceRunning s = false -> config s = Some cfg -> enabled cfg = true ->
  Scheduler.cronExpression (scheduler s') = commitTime cfg.
Proof.
  intros H Hrun Hcfg Hen. revert H. unfold start.
  cbv beta iota zeta delta
    [bind tryCatch logInfo logDebug emit get modify ret throw sched zoom recordAndRethrow].
  rewrite Hcfg, Hen, Hrun. cbn [negb].
  destruct (isInitialized s); cbn [negb]; [|discriminate].
  destruct (Scheduler.schedule _ _ E _ _) as [[[[]|e] sc1] tr1] eqn:Es; [|discriminate].
  apply SchedulerFacts.schedule_installs in Es as [Hc _].
  cbn [scheduler setScheduler].
  destruct (Scheduler.start E sc1 tr1) as [[[[]|e] sc2] tr2] eqn:Et; [|discriminate].
  apply SchedulerFacts.start_keeps in Et.
  intros H. inversion H; subst. cbn. congruence.
Qed.

(** [updateConfig] on a service that is not running leaves the scheduler
    as it is, whatever the outcome. *)
Lemma updateConfig_idle E s tr n r s' tr' :
  isServiceRunning s = false ->
  updateConfig n E s tr = (r, s', tr') ->
  scheduler s' = scheduler s.
Proof.
  intros Hrun. unfold updateConfig.
  cbv beta iota zeta delta
    [bind tryCatch logInfo logDebug logError emit get modify ret throw git sched conf
     zoom recordAndRethrow setLogLevel].
  destruct (config s) as [cfg|]; [|intros H; inversion H; reflexivity].
  destruct (negb (ConfigManager.validateConfig _)); [intros H; inversion H; reflexivity|].
  destruct (ConfigManager.saveConfig _ E _ _) as [[[[]|e] cm] tr1];
    [|intros H; inversion H; reflexivity].
  cbn [isServiceRunning setConfigManager config setGitManager setLogger setConfig
       gitManager logger scheduler configManager].
  rewrite Hrun. cbn [andb].
  destruct (Scheduler.truthy (p_repositoryPath n)).
  - cbv beta iota zeta delta [GitManager.setRepositoryPath modify].
    cbn [isServiceRunning setConfigManager config setGitManager setLogger setConfig
         gitManager logger scheduler configManager].
    rewrite commitTimeChanged_merged. intros H; inversion H; reflexivity.
  - cbn [isServiceRunning setConfigManager config setGitManager setLogger setConfig
         gitManager logger scheduler configManager].
    rewrite commitTimeChanged_merged. intros H; inversion H; reflexivity.
Qed.

(** [updateConfig] on a running service that stays enabled: when it
    returns, the scheduler holds the commit time of the merged
    configuration. *)
Lemma updateConfig_restart E s tr n cfg s' tr' :
  isServiceRunning s = true -> config s = Some cfg ->
  enabled (mergeConfig cfg n) = true ->
  updateConfig n E s tr = (Ok tt, s', tr') ->
  Scheduler.cronExpression (scheduler s') = commitTime (mergeConfig cfg n).
Proof.
  intros Hrun Hcfg Hen. unfold updateConfig.
  cbv beta iota zeta delta
    [bind tryCatch logInfo logDebug logError emit get modify ret throw git sched conf
     zoom recordAndRethrow setLogLevel].
  rewrite Hcfg.
  destruct (negb (ConfigManager.validateConfig _)); [discriminate|].
  destruct (ConfigManager.saveConfig _ E _ _) as [[[[]|e] cm] tr1]; [|discriminate].
  cbn [isServiceRunning setConfigManager]. rewrite Hrun, Hen. cbn [andb].
  match goal with |- context [stop E ?x ?y] =>
    destruct (service_stop_ok E x y) as (sc & tr2 & [[-> _]|[_ Hf]]);
      [|cbn in Hf; congruence] end.
  set (s2 := setIsServiceRunning false _).
  destruct (Scheduler.truthy (p_repositoryPath n)).
  - cbv beta iota zeta delta [GitManager.setRepositoryPath modify].
    cbn [config setGitManager setLogger setConfig gitManager logger].
    rewrite commitTimeChanged_merged.
    match goal with |- context [start E ?x ?y] =>
      destruct (start E x y) as [[[[]|e] s3] tr3] eqn:Est end; [|discriminate].
    intros H. inversion H; subst.
    eapply start_installs; [exact Est | reflexivity | reflexivity | exact Hen].
  - cbn [config setGitManager setLogger setConfig gitManager logger].
    rewrite commitTimeChanged_merged.
    match goal with |- context [start E ?x ?y] =>
      destruct (start E x y) as [[[[]|e] s3] tr3] eqn:Est end; [|discriminate].
    intros H. inversion H; subst.
    eapply start_installs; [exact Est | reflexivity | reflexivity | exact Hen].
Qed.

End ServiceFacts.

(* ===================================================================== *)
(** * The classifier *)
(* ===================================================================== *)

Module ClassifierFacts.
Import Spec.
Import TraceFacts GitManager.
Local Open Scope list_scope.

#[local] Ltac ro defs :=
  intros; unfold defs, logDebug, logInfo, logError, defaultLogger_warn; reads; eauto.

Lemma readOnly_executeGitCommand c : readOnly (executeGitCommand c).
Proof. ro executeGitCommand. Qed.
#[local] Hint Resolve readOnly_executeGitCommand : core.
Lemma readOnly_hasChanges : readOnly hasChanges.
Proof. ro hasChanges. Qed.
#[local] Hint Resolve readOnly_hasChanges : core.
Lemma readOnly_getGitDirectory : readOnly getGitDirectory.
Proof. ro getGitDirectory. Qed.
#[local] Hint Resolve readOnly_getGitDirectory : core.
Lemma readOnly_getRepositoryState : readOnly getRepositoryState.
Proof. ro getRepositoryState. Qed.
#[local] Hint Resolve readOnly_getRepositoryState : core.
Lemma readOnly_getLatestCommitHash : readOnly getLatestCommitHash.
Proof. ro getLatestCommitHash. Qed.
#[local] Hint Resolve readOnly_getLatestCommitHash : core.
Lemma readOnly_getCurrentBranch : readOnly getCurrentBranch.
Proof. ro getCurrentBranch. Qed.
#[local] Hint Resolve readOnly_getCurrentBranch : core.

Lemma noStaging_executeGitCommand c :
  (Js.startsWith "git add" ("git " ++ c) || Js.startsWith "git commit" ("git " ++ c)) = false ->
  emitsOnly noStaging (executeGitCommand c).
Proof.
  intros H. unfold executeGitCommand, logDebug, logError.
  apply emitsOnly_bind; [apply emitsOnly_get | intros g].
  apply emitsOnly_bind; [apply emitsOnly_emit; reflexivity | intros _].
  apply emitsOnly_bind.
  - apply emitsOnly_execAsync. unfold noStaging, isStagingOrCommit. now rewrite H.
  - intros o. emits.
Qed.

#[local] Ltac ns defs :=
  intros; unfold defs, logDebug, logInfo, logError, defaultLogger_warn;
  repeat first [apply noStaging_executeGitCommand; reflexivity | emits_step];
  eauto.

Lemma noStaging_hasChanges : emitsOnly noStaging hasChanges.
Proof. ns hasChanges. Qed.
#[local] Hint Resolve noStaging_hasChanges : core.
Lemma noStaging_getGitDirectory : emitsOnly noStaging getGitDirectory.
Proof. ns getGitDirectory. Qed.
#[local] Hint Resolve noStaging_getGitDirectory : core.
Lemma noStaging_getRepositoryState : emitsOnly noStaging getRepositoryState.
Proof. ns getRepositoryState. Qed.
#[local] Hint Resolve noStaging_getRepositoryState : core.
Lemma noStaging_isRepositoryClean : emitsOnly noStaging isRepositoryClean.
Proof. ns isRepositoryClean. Qed.
#[local] Hint Resolve noStaging_isRepositoryClean : core.
Lemma noStaging_getLatestCommitHash : emitsOnly noStaging getLatestCommitHash.
Proof. ns getLatestCommitHash. Qed.
#[local] Hint Resolve noStaging_getLatestCommitHash : core.
Lemma noStaging_getCurrentBranch : emitsOnly noStaging getCurrentBranch.
Proof. ns getCurrentBranch. Qed.
#[local] Hint Resolve noStaging_getCurrentBranch : core.
Lemma noStaging_isGitRepository : emitsOnly noStaging isGitRepository.
Proof. ns isGitRepository. Qed.
#[local] Hint Resolve noStaging_isGitRepository : core.
Lemma noStaging_getRepositoryInfo : emitsOnly noStaging getRepositoryInfo.
Proof. ns getRepositoryInfo. Qed.

(** One run of a git command, by the answer of the child process. *)
Lemma executeGitCommand_run c E g tr :
  let tr1 := tr ++ [EvLog SDebug "Executing Git command"] in
  let call := EvExec (repositoryPath g) ("git " ++ c) in
  executeGitCommand c E g tr
  = match exec E tr1 (repositoryPath g) ("git " ++ c) with
    | ExecOk r => (Ok r, g, tr1 ++ [call; EvLog SDebug "Git command completed"])
    | ExecFail m se so =>
        (Throw (newError (failureMessage m se so)), g,
         tr1 ++ [call; EvLog SError "Git command failed"])
    end.
Proof.
  intros tr1 call.
  unfold executeGitCommand, bind, get, logDebug, logError, emit, execAsync, ret, throw.
  fold tr1. destruct (exec E tr1 _ _); now rewrite <- app_assoc.
Qed.

Lemma getRepositoryState_merging E g rdir tr :
  MidMerge E g rdir ->
  exists tr', getRepositoryState E g tr = (Ok merging, g, tr').
Proof.
  intros [Hrepo Hconf Hmark].
  unfold getRepositoryState.
  unfold tryCatch at 1. unfold bind at 1.
  rewrite executeGitCommand_run. cbv zeta. change ("git " ++ "rev-parse --git-dir")%string
    with "git rev-parse --git-dir"%string. rewrite Hrepo.
  unfold bind at 1. unfold tryCatch at 1. unfold bind at 1.
  rewrite executeGitCommand_run. cbv zeta.
  change ("git " ++ "diff --check")%string with "git diff --check"%string.
  match goal with |- context [exec E ?t _ "git diff --check"] =>
    specialize (Hconf t); destruct (exec E t _ "git diff --check") as [r|m se so] end.
  - unfold ret at 1. cbv beta iota.
    unfold bind at 1. unfold getGitDirectory, tryCatch at 1. unfold bind at 1.
    rewrite executeGitCommand_run. cbv zeta.
    change ("git " ++ "rev-parse --git-dir")%string with "git rev-parse --git-dir"%string.
    rewrite Hrepo.
    unfold bind, ask, get, ret, fsAccess.
    fold (gitDirOf E g rdir).
    destruct (negb (isAbsolute E (Js.trim (stdout rdir)))) eqn:Eabs.
    + unfold gitDirOf in Hmark. apply negb_true_iff in Eabs. rewrite Eabs in Hmark.
      rewrite Hmark. eexists. reflexivity.
    + unfold gitDirOf in Hmark. apply negb_false_iff in Eabs. rewrite Eabs in Hmark.
      rewrite Hmark. eexists. reflexivity.
  - cbn [reportsConflict] in Hconf.
    unfold ret at 1. unfold errMessage, newError. rewrite Hconf. cbv beta iota.
    unfold bind at 1. unfold getGitDirectory, tryCatch at 1. unfold bind at 1.
    rewrite executeGitCommand_run. cbv zeta.
    change ("git " ++ "rev-parse --git-dir")%string with "git rev-parse --git-dir"%string.
    rewrite Hrepo.
    unfold bind, ask, get, ret, fsAccess.
    destruct (negb (isAbsolute E (Js.trim (stdout rdir)))) eqn:Eabs.
    + unfold gitDirOf in Hmark. apply negb_true_iff in Eabs. rewrite Eabs in Hmark.
      rewrite Hmark. eexists. reflexivity.
    + unfold gitDirOf in Hmark. apply negb_false_iff in Eabs. rewrite Eabs in Hmark.
      rewrite Hmark. eexists. reflexivity.
Qed.

Lemma isRepositoryClean_merging E g rdir tr :
  MidMerge E g rdir ->
  exists tr', isRepositoryClean E g tr = (Ok false, g, tr').
Proof.
  intros H. unfold isRepositoryClean, tryCatch, bind.
  destruct (getRepositoryState_merging E g rdir tr H) as (tr' & ->).
  eexists. reflexivity.
Qed.

Lemma hasChanges_modified E g rstat tr :
  Modified E g rstat ->
  exists tr', hasChanges E g tr = (Ok true, g, tr').
Proof.
  intros [Hs Hn]. unfold hasChanges, tryCatch, bind.
  rewrite executeGitCommand_run. cbv zeta.
  change ("git " ++ "status --porcelain")%string with "git status --porcelain"%string.
  rewrite Hs. unfold ret. rewrite Hn. eexists. reflexivity.
Qed.

Lemma isGitRepository_true E g rdir tr :
  (forall tr, exec E tr (repositoryPath g) "git rev-parse --git-dir" = ExecOk rdir) ->
  exists tr', isGitRepository E g tr = (Ok true, g, tr').
Proof.
  intros H. unfold isGitRepository, tryCatch, bind.
  rewrite executeGitCommand_run. cbv zeta.
  change ("git " ++ "rev-parse --git-dir")%string with "git rev-parse --git-dir"%string.
  rewrite H. eexists. reflexivity.
Qed.

Lemma getRepositoryInfo_merging E g rdir tr :
  MidMerge E g rdir ->
  exists info tr', getRepositoryInfo E g tr = (Ok info, g, tr') /\ state info = merging.
Proof.
  intros H. unfold getRepositoryInfo.
  unfold tryCatch at 1. unfold bind at 1.
  destruct (isGitRepository_true E g rdir tr (mm_repository _ _ _ H)) as (tr1 & ->).
  cbn [negb].
  unfold bind at 1. unfold tryCatch at 1. unfold bind at 1.
  destruct (getCurrentBranch E g tr1) as [[[b|e] g2] tr2] eqn:Eb;
    pose proof (readOnly_getCurrentBranch _ _ _ _ _ _ Eb); subst g2;
    unfold ret at 1; cbv beta iota;
    unfold bind at 1; unfold tryCatch at 1; unfold bind at 1;
    (destruct (getLatestCommitHash E g tr2) as [[[h|e'] g3] tr3] eqn:Eh;
     pose proof (readOnly_getLatestCommitHash _ _ _ _ _ _ Eh); subst g3;
     unfold ret at 1; cbv beta iota;
     unfold bind at 1; unfold tryCatch at 1;
     (destruct (hasChanges E g tr3) as [[[c|e''] g4] tr4] eqn:Ec;
      pose proof (readOnly_hasChanges _ _ _ _ _ _ Ec); subst g4;
      try (unfold ret at 1; cbv beta iota);
      unfold bind at 1;
      match goal with |- context [getRepositoryState E g ?t] =>
        destruct (getRepositoryState_merging E g rdir t H) as (tr5 & ->) end;
      eexists _, _; split; reflexivity)).
Qed.

End ClassifierFacts.

Module MergeFacts.
Import Spec.
Import TraceFacts AutoCommitService ClassifierFacts.
Local Open Scope list_scope.

(** The run of the service in the middle of a merge, with a logger that
    has [warn]. *)
Lemma executeCommit_merging E s tr cfg rdir rstat :
  config s = Some cfg -> hasWarn (logger s) = true ->
  MidMerge E (gitManager s) rdir -> Modified E (gitManager s) rstat ->
  exists s' tr',
    executeCommit E s tr = (Ok (skippedForMerge (clock E tr)), s', tr')
    /\ lastError s' = Some (message (skippedForMerge (clock E tr)))
    /\ extends noStaging tr tr'.
Proof.
  intros Hcfg Hwarn Hmm Hmod. unfold executeCommit.
  cbv beta iota zeta delta
    [bind tryCatch now logInfo logDebug logError emit get modify ret throw git zoom warn
     logger_warn].
  rewrite Hcfg.
  match goal with |- context [GitManager.hasChanges E ?g ?t] =>
    destruct (hasChanges_modified E g rstat t Hmod) as (tr1 & E1);
    pose proof (noStaging_hasChanges _ _ _ _ _ _ E1) as X1; rewrite E1 end.
  cbn [negb gitManager setGitManager].
  match goal with |- context [GitManager.isRepositoryClean E ?g ?t] =>
    destruct (isRepositoryClean_merging E g rdir t Hmm) as (tr2 & E2);
    pose proof (noStaging_isRepositoryClean _ _ _ _ _ _ E2) as X2; rewrite E2 end.
  cbn [negb gitManager setGitManager].
  match goal with |- context [GitManager.getRepositoryInfo E ?g ?t] =>
    destruct (getRepositoryInfo_merging E g rdir t Hmm) as (info & tr3 & E3 & Hst);
    pose proof (noStaging_getRepositoryInfo _ _ _ _ _ _ E3) as X3; rewrite E3 end.
  cbn [logger setGitManager]. rewrite Hwarn, Hst.
  eexists _, _. split; [reflexivity|]. split; [reflexivity|].
  assert (Htwo : forall t a b, noStaging a = true -> noStaging b = true ->
                         extends noStaging t ((t ++ [a]) ++ [b])).
  { intros t a b Ha Hb. exists [a; b]. rewrite <- app_assoc. cbn. now rewrite Ha, Hb. }
  eapply extends_trans; [|apply extends_one; reflexivity].
  eapply extends_trans; [|exact X3].
  eapply extends_trans; [|exact X2].
  eapply extends_trans; [|apply Htwo; reflexivity].
  eapply extends_trans; [|exact X1].
  apply Htwo; reflexivity.
Qed.

(** The run of the service in the middle of a merge, whatever logger and
    configuration the service holds. *)
Lemma executeCommit_merging_fails E s tr rdir rstat :
  MidMerge E (gitManager s) rdir -> Modified E (gitManager s) rstat ->
  exists res s' tr',
    executeCommit E s tr = (Ok res, s', tr')
    /\ success res = false
    /\ commitHash res = None
    /\ failureRecorded res s'
    /\ extends noStaging tr tr'.
Proof.
  intros Hmm Hmod. unfold executeCommit, failureRecorded.
  assert (Htwo : forall t a b, noStaging a = true -> noStaging b = true ->
                         extends noStaging t ((t ++ [a]) ++ [b])).
  { intros t a b Ha Hb. exists [a; b]. rewrite <- app_assoc. cbn. now rewrite Ha, Hb. }
  cbv beta iota zeta delta
    [bind tryCatch now logInfo logDebug logError emit get modify ret throw git zoom warn
     logger_warn].
  destruct (config s) as [cfg|].
  2:{ eexists _, _, _. split; [reflexivity|]. cbn.
      repeat split.
      - intros _. eexists. split; [reflexivity|]. left; reflexivity.
      - apply Htwo; reflexivity. }
  match goal with |- context [GitManager.hasChanges E ?g ?t] =>
    destruct (hasChanges_modified E g rstat t Hmod) as (tr1 & E1);
    pose proof (noStaging_hasChanges _ _ _ _ _ _ E1) as X1; rewrite E1 end.
  cbn [negb gitManager setGitManager].
  match goal with |- context [GitManager.isRepositoryClean E ?g ?t] =>
    destruct (isRepositoryClean_merging E g rdir t Hmm) as (tr2 & E2);
    pose proof (noStaging_isRepositoryClean _ _ _ _ _ _ E2) as X2; rewrite E2 end.
  cbn [negb gitManager setGitManager].
  match goal with |- context [GitManager.getRepositoryInfo E ?g ?t] =>
    destruct (getRepositoryInfo_merging E g rdir t Hmm) as (info & tr3 & E3 & Hst);
    pose proof (noStaging_getRepositoryInfo _ _ _ _ _ _ E3) as X3; rewrite E3 end.
  cbn [logger setGitManager]. rewrite Hst.
  assert (Hreach : extends noStaging tr tr3).
  { eapply extends_trans; [|exact X3].
    eapply extends_trans; [|exact X2].
    eapply extends_trans; [|apply Htwo; reflexivity].
    eapply extends_trans; [|exact X1].
    apply Htwo; reflexivity. }
  destruct (hasWarn (logger s)).
  - eexists _, _, _. split; [reflexivity|]. cbn. repeat split.
    + intros _. eexists. split; [reflexivity|]. right. exists merging. repeat split.
    + eapply extends_trans; [exact Hreach | apply extends_one; reflexivity].
  - eexists _, _, _. split; [reflexivity|]. cbn. repeat split.
    + intros _. eexists. split; [reflexivity|]. left; reflexivity.
    + eapply extends_trans; [exact Hreach | apply extends_one; reflexivity].
Qed.

(** The same run with a logger of the class [Logger], which has no
    [warn]: the call of [this.logger.warn] throws, and the result is the one
    of the outer catch block. *)
Lemma executeCommit_merging_missing_warn :
  exists s' tr',
    executeCommit Sample.envMerging (Sample.service defaultLogger false) []
    = (Ok (resultOf Sample.morning
             (InternalError (newTypeError "this.logger.warn is not a function"))),
       s', tr')
    /\ lastError s' = Some "this.logger.warn is not a function"
    /\ ending Sample.envMerging (Sample.service defaultLogger false) []
       = InternalError (newTypeError "this.logger.warn is not a function")
    /\ ending Sample.envMerging (Sample.service Sample.testLogger false) []
       = UnsafeState merging.
Proof. eexists _, _. vm_compute. repeat split. Qed.

End MergeFacts.

(* ===================================================================== *)
(** * Checks of the builtins on concrete values *)
(* ===================================================================== *)

Module BuiltinExamples.

Example replaceAll_global :
  Js.replaceAll "{type}" "code" "a {type} b {type}{typ}" = "a code b code{typ}".
Proof. reflexivity. Qed.

Example replaceAll_dollar : Js.replaceAll "{x}" "[$&|$$|$1]" "p{x}q" = "p[{x}|$|$1]q".
Proof. reflexivity. Qed.

Example split_cron : Js.split " " "0 18 * * *" = ["0"; "18"; "*"; "*"; "*"].
Proof. reflexivity. Qed.

Example parseInt_values :
  Js.parseInt "18" = Some 18 /\ Js.parseInt "*/5" = None /\ Js.parseInt " 07x" = Some 7
  /\ Js.parseInt "-3" = Some (-3).
Proof. repeat split; reflexivity. Qed.

Example trim_and_number : Js.trim "  a b  " = "a b" /\ Js.numToString 42 = "42".
Proof. split; reflexivity. Qed.

Example toISOString_values :
  Date.toISOString 1735725600123 = "2025-01-01T10:00:00.123Z" /\
  Date.toISOString (-1) = "1969-12-31T23:59:59.999Z" /\
  Date.weekdayName (Date.WeekDay 1735725600123) = "Wednesday".
Proof. repeat split; vm_compute; reflexivity. Qed.

Example calendar_values :
  Date.ofLocal 0 2025 1 1 10 0 0 = 1735725600000 /\
  Date.ofLocal 0 2024 2 29 0 0 0 = 1709164800000 /\
  Date.setDate 0 (Some 1709164800000) (Some 30) = Some 1709251200000 /\
  Date.ofYMD 0 (Some 99) (Some 0) (Some 1) = Some (Date.ofLocal 0 1999 1 1 0 0 0).
Proof. repeat split; vm_compute; reflexivity. Qed.

Example parseISO_values :
  Sample.parseISO "2025-01-01T10:00:00.123Z" = Some 1735725600123 /\
  Sample.parseISO "yesterday" = None /\
  Sample.parseISO (Date.toISOString Sample.morning) = Some Sample.morning.
Proof. repeat split; vm_compute; reflexivity. Qed.

Example cron_pattern_values :
  Validation.CRON_PATTERN_test "0 18 * * *" = true /\
  Validation.CRON_PATTERN_test "60 18 * * *" = false /\
  Validation.CRON_PATTERN_test "0 18 * *" = false /\
  Validation.validateConfig Validation.DEFAULT_CONFIG = true.
Proof. repeat split; vm_compute; reflexivity. Qed.

End BuiltinExamples.

(* ===================================================================== *)
(** * The properties of the specification *)
(* ===================================================================== *)

Import Spec.

(** C1. [executeCommit] never throws: whatever the repository, the file
    system and the logger do, it returns a result, and the result is the one
    of the ending of the run.  Each of the three failure modes (a repository
    state that is not safe, an error of the commit after the retries, any
    other error inside the method) is returned as a failure result, and
    only they are; the result of a thrown error carries the message of that
    error, and after every failure [lastError] holds the underlying text:
    the message of the error or, for a state that is not safe, the message
    naming the state, which is the message of the result. *)
Theorem executeCommit_never_throws :
  forall (E : Env) (s : AutoCommitService.t) (tr : Trace),
  exists res s' tr',
    AutoCommitService.executeCommit E s tr = (Ok res, s', tr')
    /\ res = resultOf (clock E tr) (ending E s tr)
    /\ success res = negb (failureMode (ending E s tr))
    /\ (forall text,
          underlyingText (ending E s tr) = Some text ->
          AutoCommitService.lastError s' = Some text)
    /\ failureRecorded res s'.
Proof.
  intros E s tr.
  unfold AutoCommitService.executeCommit, ending, logged.
  cbn [fold_left fst snd].
  cbv beta iota zeta delta
    [bind tryCatch now logInfo logDebug logError emit get modify ret throw
     AutoCommitService.git zoom AutoCommitService.warn logger_warn].
  (* the calls of the method and of [ending] are the same terms once the
     projections of the service are computed; each is split once *)
  repeat (cbn [AutoCommitService.gitManager AutoCommitService.logger
               AutoCommitService.config AutoCommitService.setGitManager negb];
          match goal with
          | |- context [negb ?b] => is_var b; destruct b
          | |- context [match ?x with _ => _ end] =>
              lazymatch x with
              | context [match _ with _ => _ end] => fail
              | _ => destruct x
              end
          end).
  all: eexists _, _, _; (split; [reflexivity|]).
  all: (split; [reflexivity|]); (split; [reflexivity|]).
  all: unfold failureRecorded; cbn.
  all: split;
    [ intros text Ht; first [discriminate Ht | injection Ht as <-; reflexivity]
    | intros Hs; try discriminate Hs ].
  all: eexists; (split; [reflexivity|]).
  all: first [left; reflexivity | right; eexists; repeat split].
Qed.

(** C2. For every message and every [maxRetries >= 1]: when the first
    attempt fails with one of the three precondition errors (no changes to
    commit, empty message, repository not in a clean state), the retry
    wrapper throws that very error, having made exactly one attempt and
    slept no delay. *)
Theorem createCommitWithRetry_precondition_not_retried :
  forall E g tr message maxRetries retryDelayMs e g1 tr1,
    1 <= maxRetries ->
    GitManager.createCommit message E g
      (tr ++ [EvLog SDebug "Attempting to create commit"])%list
    = (Throw e, g1, tr1) ->
    preconditionError e ->
    GitManager.createCommitWithRetry message maxRetries retryDelayMs E g tr
    = (Throw e, g1, tr1)
    /\ attempts tr1 = S (attempts tr)
    /\ delays tr1 = delays tr.
Proof.
  intros E g tr message maxRetries retryDelayMs e g1 tr1 Hn Hc He.
  apply RetryFacts.retry_first_attempt_not_retried; [exact Hn | exact Hc |].
  now apply RetryFacts.dontRetry_precondition.
Qed.

Lemma createCommitWithRetry_no_changes_once :
  exists tr1,
    GitManager.createCommitWithRetry "chore: daily auto-commit" 5 5000
      Sample.envUnchanged Sample.repo []
    = (Throw NoChangesError, Sample.repo, tr1)
    /\ attempts tr1 = 1%nat /\ delays tr1 = [].
Proof.
  eexists.
  apply (createCommitWithRetry_precondition_not_retried
           Sample.envUnchanged Sample.repo [] "chore: daily auto-commit" 5 5000
           NoChangesError Sample.repo).
  - lia.
  - vm_compute. reflexivity.
  - left. reflexivity.
Defined.

(** C3 (the code at a failing input). Three attempts allowed, a delay of
    5000 ms, and staging fails every time with an error that is retried:
    the first failure reaches [defaultLogger.warn], which the logger class
    does not define, and the [TypeError] of that call leaves the wrapper
    after one attempt, without delay and without the error that reports
    exhausted attempts. *)
Theorem createCommitWithRetry_stops_at_first_transient_failure :
  (exists e tr0,
     GitManager.createCommit "chore: daily auto-commit" Sample.envLocked Sample.repo []
     = (Throw e, Sample.repo, tr0)
     /\ GitManager.dontRetry e = false)
  /\ let '(r, _, tr1) :=
       GitManager.createCommitWithRetry "chore: daily auto-commit" 3 5000
         Sample.envLocked Sample.repo [] in
     r = Throw (newTypeError "defaultLogger.warn is not a function")
     /\ attempts tr1 = 1%nat /\ delays tr1 = [].
Proof.
  split.
  - eexists. eexists. vm_compute. split; reflexivity.
  - vm_compute. repeat split.
Qed.

(** C5 (the code at a failing input). A run was missed two days ago and
    the callback throws "Execution failed": the method logs the failure
    twice and returns [false]; the exception does not reach the caller.
    Nothing is written to the state file; the entry appended in memory stays
    and [lastRun] is the loaded one. *)
Theorem handleMissedExecutions_swallows_callback_error :
  Scheduler.handleMissedExecutions Sample.envFailingCallback (Sample.daily false) []
  = (Ok false,
     Scheduler.setState
       (SchedulerState.mk (Some "2025-01-01T18:00:00.000Z") None false "0 18 * * *"
          ["2025-01-03T09:00:00.000Z"])
       (Sample.daily false),
     [EvReadFile "./config/scheduler-state.json";
      EvLog SInfo "Detected missed execution, executing now";
      EvCall (Handler 0);
      EvLog SError "Failed to execute missed callback";
      EvLog SError "Failed to handle missed executions"]).
Proof. vm_compute. reflexivity. Qed.

(** C6. The next run: only the minute and hour fields are read; for
    numeric fields [mi] (0..59) and [hi] (0..23) the candidate is the local
    day of "now" at hi:mi:00.000, and the result is the candidate when it is
    after "now" and the candidate one calendar day later otherwise, whatever
    the three other fields.  For "0 18 * * *": from 2025-01-01T10:00:00 the
    result is 2025-01-01T18:00:00, from 2025-01-01T19:00:00 it is
    2025-01-02T18:00:00 (local times, in every time zone). *)
Theorem getNextCronDate_today_or_tomorrow :
  forall tza,
    (forall cron minute hour f3 f4 f5 mi hi u,
       Js.split " " cron = [minute; hour; f3; f4; f5] ->
       minute <> "*" -> hour <> "*" ->
       Js.parseInt minute = Some mi -> Js.parseInt hour = Some hi ->
       0 <= mi < 60 -> 0 <= hi < 24 ->
       Scheduler.getNextCronDate tza cron (Some u)
       = Ok (Some (if todayAt tza u hi mi <=? u
                   then todayAt tza u hi mi + Date.msPerDay
                   else todayAt tza u hi mi)))
    /\ Scheduler.getNextCronDate tza "0 18 * * *"
         (Some (Date.ofLocal tza 2025 1 1 10 0 0))
       = Ok (Some (Date.ofLocal tza 2025 1 1 18 0 0))
    /\ Scheduler.getNextCronDate tza "0 18 * * *"
         (Some (Date.ofLocal tza 2025 1 1 19 0 0))
       = Ok (Some (Date.ofLocal tza 2025 1 2 18 0 0)).
Proof.
  intros tza. split.
  - intros. now apply (NextRunFacts.getNextCronDate_fixed tza cron minute hour f3 f4 f5).
  - apply NextRunFacts.getNextCronDate_examples.
Qed.

Lemma getNextCronDate_half_past_nine :
  Scheduler.getNextCronDate 0 "30 9 15 6 1" (Some Sample.morning)
  = Ok (Some (Date.ofLocal 0 2025 1 3 9 30 0))
  /\ Scheduler.getNextCronDate 0 "30 8 * * *" (Some Sample.morning)
     = Ok (Some (Date.ofLocal 0 2025 1 4 8 30 0)).
Proof.
  split.
  - rewrite (proj1 (getNextCronDate_today_or_tomorrow 0)
               "30 9 15 6 1" "30" "9" "15" "6" "1" 30 9 Sample.morning);
      [vm_compute; reflexivity | reflexivity | discriminate | discriminate
      | reflexivity | reflexivity | lia | lia].
  - rewrite (proj1 (getNextCronDate_today_or_tomorrow 0)
               "30 8 * * *" "30" "8" "*" "*" "*" 30 8 Sample.morning);
      [vm_compute; reflexivity | reflexivity | discriminate | discriminate
      | reflexivity | reflexivity | lia | lia].
Defined.

(** C4. With a callback installed (and the expression [schedule] stored
    with it) and a last run read from the state file, a run counts as
    missed exactly when the local calendar day of "now" is after the local
    calendar day of the last run.  When it is (two days later, say) and the
    callback returns, the method returns [true], has called the callback
    exactly once and has appended "now" to the missed runs (keeping the last
    ten); when it is not (the last run was earlier the same day), the method
    returns [false] and has not called the callback.  Timestamps are those
    of a running clock (1970 or later in local time). *)
Theorem handleMissedExecutions_detects_by_calendar_day :
  forall E s cb tr j L tL,
    Scheduler.callback s = Some cb ->
    Scheduler.cronExpression s <> "" ->
    readFile E tr (Scheduler.stateFilePath s) = inl (StateJson j) ->
    l_lastRun j = Some L -> L <> "" ->
    dateParse E L = Some tL ->
    let tr1 := (tr ++ [EvReadFile (Scheduler.stateFilePath s)])%list in
    let t0 := clock E tr1 in
    let s1 := Scheduler.setState (Scheduler.merge (Scheduler.state s) j) s in
    0 <= Date.LocalTime (tza E) tL -> 0 <= Date.LocalTime (tza E) t0 ->
    (Scheduler.shouldHaveRunSince (tza E) s1 (Some tL) (Some t0) = true
     <-> localDay (tza E) tL < localDay (tza E) t0)
    /\ (localDay (tza E) tL < localDay (tza E) t0 ->
        runCallback E
          (tr1 ++ [EvLog SInfo "Detected missed execution, executing now"])%list cb
        = None ->
        exists s' tr',
          Scheduler.handleMissedExecutions E s tr = (Ok true, s', tr')
          /\ calls tr' = S (calls tr)
          /\ SchedulerState.missedExecutions (Scheduler.state s')
             = Scheduler.recordMissed (Date.toISOString t0)
                 (Scheduler.orDefault (l_missedExecutions j) []))
    /\ (localDay (tza E) t0 <= localDay (tza E) tL ->
        Scheduler.handleMissedExecutions E s tr = (Ok false, s1, tr1)
        /\ calls tr1 = calls tr).
Proof.
  intros E s cb tr j L tL Hcb Hcron Hfile HL HLne Hparse tr1 t0 s1 HtL Ht0.
  assert (Hdet : Scheduler.shouldHaveRunSince (tza E) s1 (Some tL) (Some t0)
                 = (localDay (tza E) tL <? localDay (tza E) t0))
    by (apply SchedulerFacts.shouldHaveRunSince_days; assumption).
  pose proof (SchedulerFacts.handleMissedExecutions_loaded E s cb tr j L Hcb Hfile HL HLne)
    as Hrun.
  cbv zeta in Hrun. fold tr1 s1 t0 in Hrun. rewrite Hparse, Hdet in Hrun.
  split; [rewrite Hdet; apply Z.ltb_lt|]. split.
  - intros Hlt Hcall. apply Z.ltb_lt in Hlt. rewrite Hlt in Hrun.
    pose proof (SchedulerFacts.recoverMissedRun_spec E s1 cb t0 tr1) as Hrec.
    cbv zeta in Hrec. rewrite Hcall in Hrec.
    destruct Hrec as (s' & tr' & Heq & Hbook & Hcalls).
    rewrite Heq in Hrun. exists s', tr'. split; [exact Hrun|]. split.
    + rewrite Hcalls. unfold tr1. rewrite SchedulerFacts.calls_app. cbn. lia.
    + destruct Hbook as (_ & _ & _ & _ & Hm & _). rewrite Hm. reflexivity.
  - intros Hle. apply Z.ltb_ge in Hle. rewrite Hle in Hrun. split; [exact Hrun|].
    unfold tr1. rewrite SchedulerFacts.calls_app. cbn. lia.
Qed.

Lemma handleMissedExecutions_two_days_and_same_day :
  (exists s' tr',
     Scheduler.handleMissedExecutions Sample.envTwoDaysLater (Sample.daily false) []
     = (Ok true, s', tr')
     /\ calls tr' = 1%nat
     /\ SchedulerState.missedExecutions (Scheduler.state s')
        = ["2025-01-03T09:00:00.000Z"])
  /\ (exists s',
        Scheduler.handleMissedExecutions Sample.envSameDay (Sample.daily false) []
        = (Ok false, s', [EvReadFile "./config/scheduler-state.json"])).
Proof.
  split.
  - refine (proj1 (proj2
      (handleMissedExecutions_detects_by_calendar_day
         Sample.envTwoDaysLater (Sample.daily false) (Handler 0) []
         _ "2025-01-01T18:00:00.000Z" 1735754400000
         eq_refl _ eq_refl eq_refl _ eq_refl _ _)) _ eq_refl).
    + discriminate.
    + discriminate.
    + vm_compute. discriminate.
    + vm_compute. discriminate.
    + vm_compute. reflexivity.
  - eexists.
    refine (proj1 (proj2 (proj2
      (handleMissedExecutions_detects_by_calendar_day
         Sample.envSameDay (Sample.daily false) (Handler 0) []
         _ "2025-01-03T06:00:00.000Z" 1735884000000
         eq_refl _ eq_refl eq_refl _ eq_refl _ _)) _)).
    + discriminate.
    + discriminate.
    + vm_compute. discriminate.
    + vm_compute. discriminate.
    + vm_compute. discriminate.
Defined.

(** C7. The log of missed runs never holds more than ten entries: one
    more entry gives the last ten of the old entries and the new one (at
    most ten, and exactly ten once ten were there); after any number of
    recoveries from a log of at most ten the log is the last ten of
    everything recorded; and after every call of the method that reports a
    recovery the log of the scheduler has at most ten entries. *)
Theorem missedExecutions_at_most_ten :
  (forall iso l,
     Scheduler.recordMissed iso l = Scheduler.lastTen (l ++ [iso])%list
     /\ (List.length (Scheduler.recordMissed iso l) <= 10)%nat
     /\ ((10 <= List.length l)%nat ->
         List.length (Scheduler.recordMissed iso l) = 10%nat))
  /\ (forall isos l,
        (List.length l <= 10)%nat ->
        fold_left (fun l iso => Scheduler.recordMissed iso l) isos l
        = Scheduler.lastTen (l ++ isos)%list
        /\ (List.length
              (fold_left (fun l iso => Scheduler.recordMissed iso l) isos l) <= 10)%nat)
  /\ (forall E s tr s' tr',
        Scheduler.handleMissedExecutions E s tr = (Ok true, s', tr') ->
        (List.length (SchedulerState.missedExecutions (Scheduler.state s')) <= 10)%nat).
Proof.
  split; [|split].
  - intros iso l. split; [apply SchedulerFacts.recordMissed_lastTen|].
    split; apply SchedulerFacts.length_recordMissed.
  - intros isos l Hl. rewrite SchedulerFacts.recordMissed_fold by exact Hl.
    split; [reflexivity | apply SchedulerFacts.length_lastTen].
  - intros E s tr s' tr' H.
    destruct (SchedulerFacts.handleMissedExecutions_true_bounded _ _ _ _ _ H)
      as (iso & l & ->).
    apply SchedulerFacts.length_recordMissed.
Qed.

Lemma missedExecutions_full_log_stays_ten :
  exists s' tr',
    Scheduler.handleMissedExecutions Sample.envFullLog (Sample.daily false) []
    = (Ok true, s', tr')
    /\ SchedulerState.missedExecutions (Scheduler.state s')
       = (tl Sample.tenRuns ++ ["2025-01-03T09:00:00.000Z"])%list
    /\ (List.length (SchedulerState.missedExecutions (Scheduler.state s')) <= 10)%nat.
Proof.
  eexists. eexists.
  assert (H : forall x y,
            Scheduler.handleMissedExecutions Sample.envFullLog (Sample.daily false) []
            = (Ok true, x, y) ->
            Scheduler.handleMissedExecutions Sample.envFullLog (Sample.daily false) []
            = (Ok true, x, y)
            /\ (List.length (SchedulerState.missedExecutions (Scheduler.state x)) <= 10)%nat).
  { intros x y Hxy. split; [exact Hxy|].
    exact (proj2 (proj2 missedExecutions_at_most_ten) _ _ _ _ _ Hxy). }
  match goal with |- ?A /\ ?B /\ ?C => cut (A /\ C); [intros [Ha Hc]; split; [exact Ha|split; [|exact Hc]]|] end.
  2:{ apply H. vm_compute. reflexivity. }
  vm_compute. reflexivity.
Defined.




(** C9. For every template and every set of files: a placeholder that is
    none of the ten known ones is still there after the replacements (the
    text before and after it may have changed); the message comes out as it
    is when it has at most 72 characters, and as its first 69 characters
    followed by "..." (72 characters in all) when it is longer; and
    generating the message never throws. *)
Theorem applyMessageTemplate_unknown_kept_and_truncated :
  forall tza instant template analysis fs,
    let replaced :=
      GitManager.replacePlaceholders
        (GitManager.placeholders tza instant analysis fs) template in
    let out := GitManager.applyMessageTemplate tza instant template analysis fs in
    (forall a u b,
       template = a ++ u ++ b ->
       placeholderShape u = true -> ~ In u knownPlaceholders ->
       exists a' b', replaced = a' ++ u ++ b')
    /\ ((String.length replaced <= 72)%nat -> out = replaced)
    /\ ((72 < String.length replaced)%nat ->
        out = Js.take 69 replaced ++ "..."
        /\ String.length out = 72%nat
        /\ Js.endsWith "..." out = true)
    /\ (forall E g tr,
          exists m,
            GitManager.generateCommitMessage fs (Some template) E g tr = (Ok m, g, tr)).
Proof.
  intros tza instant template analysis fs replaced out. split; [|split; [|split]].
  - intros a u b -> Hu Hn. subst replaced.
    apply TemplateFacts.replacePlaceholders_keeps; [exact Hu|].
    rewrite TemplateFacts.placeholders_keys.
    now apply TemplateFacts.knownPlaceholders_shape.
  - intros H. subst out replaced. unfold GitManager.applyMessageTemplate.
    replace (72 <? _)%nat with false by (symmetry; apply Nat.ltb_ge; exact H).
    reflexivity.
  - intros H. subst out. unfold GitManager.applyMessageTemplate. fold replaced.
    replace (72 <? _)%nat with true by (symmetry; apply Nat.ltb_lt; exact H).
    change (72 - 3)%nat with 69%nat.
    split; [reflexivity|]. split.
    + rewrite StrFacts.length_append, StrFacts.length_take by lia. reflexivity.
    + apply StrFacts.endsWith_append.
  - intros E g tr. unfold GitManager.generateCommitMessage.
    destruct fs as [|f fs']; [eexists; reflexivity|].
    unfold bind, ask, now, ret.
    destruct (GitManager.nonEmpty template); eexists; reflexivity.
Qed.

Lemma applyMessageTemplate_scope_kept :
  (exists a' b',
     GitManager.replacePlaceholders
       (GitManager.placeholders 0 Sample.morning
          {| changeType := code; files := ["src/app.ts"]; summary := "1 code" |}
          ["src/app.ts"])
       "{type}({scope}): {count} files on {day}"
     = a' ++ "{scope}" ++ b')
  /\ GitManager.applyMessageTemplate 0 Sample.morning
       "{type}({scope}): {count} files on {day}"
       {| changeType := code; files := ["src/app.ts"]; summary := "1 code" |}
       ["src/app.ts"]
     = "code({scope}): 1 files on Friday".
Proof.
  split.
  - apply (proj1 (applyMessageTemplate_unknown_kept_and_truncated 0 Sample.morning
                    "{type}({scope}): {count} files on {day}"
                    {| changeType := code; files := ["src/app.ts"]; summary := "1 code" |}
                    ["src/app.ts"])
                 "{type}(" "{scope}" "): {count} files on {day}").
    + reflexivity.
    + reflexivity.
    + cbn. intuition discriminate.
  - rewrite (proj1 (proj2 (applyMessageTemplate_unknown_kept_and_truncated 0 Sample.morning
                    "{type}({scope}): {count} files on {day}"
                    {| changeType := code; files := ["src/app.ts"]; summary := "1 code" |}
                    ["src/app.ts"]))).
    + vm_compute. reflexivity.
    + vm_compute. lia.
Defined.

(** C10. [updateConfig] compares the new commit time with the
    configuration it has just replaced, so the comparison never finds a
    change and the scheduler is never asked to update its schedule.  On a
    service that is not running the scheduler is left exactly as it was,
    whatever the call does otherwise; on a running service that stays
    enabled, a call that returns has stopped and started the service, and
    the scheduler then holds the commit time of the merged configuration. *)
Theorem updateConfig_commit_time_needs_restart :
  (forall cfg n,
     AutoCommitService.commitTimeChanged n (Some (AutoCommitService.mergeConfig cfg n))
     = false)
  /\ (forall E s tr n r s' tr',
        AutoCommitService.isServiceRunning s = false ->
        AutoCommitService.updateConfig n E s tr = (r, s', tr') ->
        AutoCommitService.scheduler s' = AutoCommitService.scheduler s)
  /\ (forall E s tr n cfg s' tr',
        AutoCommitService.isServiceRunning s = true ->
        AutoCommitService.config s = Some cfg ->
        enabled (AutoCommitService.mergeConfig cfg n) = true ->
        AutoCommitService.updateConfig n E s tr = (Ok tt, s', tr') ->
        Scheduler.cronExpression (AutoCommitService.scheduler s')
        = commitTime (AutoCommitService.mergeConfig cfg n)).
Proof.
  split; [exact ServiceFacts.commitTimeChanged_merged|]. split.
  - intros E s tr n r s' tr' Hrun H. exact (ServiceFacts.updateConfig_idle _ _ _ _ _ _ _ Hrun H).
  - intros E s tr n cfg s' tr' Hrun Hcfg Hen H.
    exact (ServiceFacts.updateConfig_restart _ _ _ _ _ _ _ Hrun Hcfg Hen H).
Qed.

Lemma updateConfig_at_nine :
  (exists s' tr',
     AutoCommitService.updateConfig Sample.atNine Sample.envUnchanged
       (Sample.service defaultLogger false) []
     = (Ok tt, s', tr')
     /\ commitTime (Scheduler.orDefault (AutoCommitService.config s')
                      Validation.DEFAULT_CONFIG) = "0 9 * * *"
     /\ Scheduler.cronExpression (AutoCommitService.scheduler s') = "0 18 * * *")
  /\ (exists s' tr',
        AutoCommitService.updateConfig Sample.atNine Sample.envUnchanged
          (Sample.service defaultLogger true) []
        = (Ok tt, s', tr')
        /\ Scheduler.cronExpression (AutoCommitService.scheduler s') = "0 9 * * *").
Proof.
  split.
  - destruct (AutoCommitService.updateConfig Sample.atNine Sample.envUnchanged
                (Sample.service defaultLogger false) []) as [[r s'] tr'] eqn:Hrun.
    pose proof (proj1 (proj2 updateConfig_commit_time_needs_restart)
                  Sample.envUnchanged (Sample.service defaultLogger false) []
                  Sample.atNine r s' tr' eq_refl Hrun) as Hsame.
    exists s', tr'. rewrite Hsame.
    revert Hrun. vm_compute. intros Hrun. inversion Hrun; subst. repeat split.
  - destruct (AutoCommitService.updateConfig Sample.atNine Sample.envUnchanged
                (Sample.service defaultLogger true) []) as [[r s'] tr'] eqn:Hrun.
    assert (Hr : r = Ok tt) by (revert Hrun; vm_compute; intros Hrun; now inversion Hrun).
    subst r.
    pose proof (proj2 (proj2 updateConfig_commit_time_needs_restart)
                  Sample.envUnchanged (Sample.service defaultLogger true) []
                  Sample.atNine Validation.DEFAULT_CONFIG s' tr'
                  eq_refl eq_refl eq_refl Hrun) as Hnew.
    exists s', tr'. split; [reflexivity | exact Hnew].
Defined.

(* ===================================================================== *)
(** * Further properties of the code *)
(* ===================================================================== *)

(** ** Preparing a configuration *)

Module SanitizeFacts.
Import ConfigValidation.

Lemma trimStart_fixed c s : Js.isSpace c = false -> Js.trimStart (String c s) = String c s.
Proof. intros H. cbn. now rewrite H. Qed.

Lemma trimStart_shape s :
  Js.trimStart s = "" \/ exists c r, Js.trimStart s = String c r /\ Js.isSpace c = false.
Proof.
  induction s as [|c s IH]; [now left|].
  cbn. destruct (Js.isSpace c) eqn:Ec; [exact IH|].
  right. now exists c, s.
Qed.

Lemma trimEnd_head c s :
  Js.isSpace c = false -> exists r, Js.trimEnd (String c s) = String c r.
Proof.
  intros H. cbn. destruct (Js.trimEnd s); [rewrite H|]; eauto.
Qed.

Lemma trimEnd_idempotent s : Js.trimEnd (Js.trimEnd s) = Js.trimEnd s.
Proof.
  induction s as [|c s IH]; [reflexivity|].
  cbn. destruct (Js.trimEnd s) as [|d t] eqn:Et.
  - destruct (Js.isSpace c) eqn:Ec; [reflexivity|]. cbn. now rewrite Ec.
  - cbn [Js.trimEnd]. cbn [Js.trimEnd] in IH. rewrite IH. reflexivity.
Qed.

(** Trimming what is trimmed changes nothing. *)
Lemma trim_idempotent s : Js.trim (Js.trim s) = Js.trim s.
Proof.
  unfold Js.trim.
  destruct (trimStart_shape s) as [->|(c & r & -> & Hc)]; [reflexivity|].
  destruct (trimEnd_head c r Hc) as (r' & Hr). rewrite Hr.
  rewrite (trimStart_fixed _ _ Hc), <- Hr. apply trimEnd_idempotent.
Qed.

Lemma clamp_range lo hi v : lo <= hi -> lo <= clamp lo hi v <= hi.
Proof. unfold clamp. lia. Qed.

Lemma clamp_idempotent lo hi v : lo <= hi -> clamp lo hi (clamp lo hi v) = clamp lo hi v.
Proof. unfold clamp. lia. Qed.

End SanitizeFacts.

(** ** The next run of a validated expression *)

Module CronFacts.
Import Validation.

Lemma inRange_spec lo hi c :
  inRange lo hi c = true <-> (lo <= nat_of_ascii c <= hi)%nat.
Proof.
  unfold inRange. rewrite andb_true_iff, !Nat.leb_le. reflexivity.
Qed.

(** A string that starts with a digit has no white space or sign for
    [parseInt] to skip. *)
Lemma parseInt_digit c r :
  Js.isDigit c = true -> Js.parseInt (String c r) = Js.digitsPrefix 0 false (String c r).
Proof.
  destruct c as [[] [] [] [] [] [] [] []]; intros H; try discriminate H; reflexivity.
Qed.

Lemma isDigit_spec c : Js.isDigit c = true <-> (48 <= nat_of_ascii c <= 57)%nat.
Proof. apply (inRange_spec 48 57). Qed.

Lemma digitVal_range c :
  (48 <= nat_of_ascii c <= 57)%nat -> Js.digitVal c = Z.of_nat (nat_of_ascii c) - 48.
Proof. reflexivity. Qed.

(** The value [parseInt] reads from one or two digits. *)
Lemma parseInt_one c :
  Js.isDigit c = true -> Js.parseInt (String c "") = Some (Js.digitVal c).
Proof.
  intros H. rewrite (parseInt_digit _ _ H). cbn. rewrite H. reflexivity.
Qed.

Lemma parseInt_two c d :
  Js.isDigit c = true -> Js.isDigit d = true ->
  Js.parseInt (String c (String d "")) = Some (10 * Js.digitVal c + Js.digitVal d).
Proof.
  intros Hc Hd. rewrite (parseInt_digit _ _ Hc). cbn. rewrite Hc, Hd.
  first [reflexivity | f_equal; lia].
Qed.

Lemma d09_isDigit c : d09 c = Js.isDigit c.
Proof. reflexivity. Qed.

(** A minute field the pattern accepts is the star or a number below 60. *)
Lemma minuteField_value s :
  minuteField s = true ->
  s = "*" \/ exists v, Js.parseInt s = Some v /\ 0 <= v < 60.
Proof.
  unfold minuteField, isStar. destruct (String.eqb_spec s "*") as [->|_]; [now left|].
  cbn [orb]. intros H. right.
  destruct s as [|a [|b [|x r]]]; try discriminate H.
  - rewrite d09_isDigit in H. exists (Js.digitVal a). split; [now apply parseInt_one|].
    apply isDigit_spec in H. unfold Js.digitVal. lia.
  - apply andb_prop in H as [Ha Hb]. rewrite d09_isDigit in Hb.
    apply inRange_spec in Ha.
    assert (Ha' : Js.isDigit a = true) by (apply isDigit_spec; lia).
    exists (10 * Js.digitVal a + Js.digitVal b). split; [now apply parseInt_two|].
    apply isDigit_spec in Hb. unfold Js.digitVal. lia.
Qed.

(** An hour field the pattern accepts is the star or a number below 24. *)
Lemma hourField_value s :
  hourField s = true ->
  s = "*" \/ exists v, Js.parseInt s = Some v /\ 0 <= v < 24.
Proof.
  unfold hourField, isStar. destruct (String.eqb_spec s "*") as [->|_]; [now left|].
  cbn [orb]. intros H. right.
  destruct s as [|a [|b [|x r]]]; try discriminate H.
  - rewrite d09_isDigit in H. exists (Js.digitVal a). split; [now apply parseInt_one|].
    apply isDigit_spec in H. unfold Js.digitVal. lia.
  - apply orb_prop in H as [H|H]; apply andb_prop in H as [Ha Hb].
    + rewrite d09_isDigit in Hb. apply inRange_spec in Ha.
      assert (Ha' : Js.isDigit a = true) by (apply isDigit_spec; lia).
      exists (10 * Js.digitVal a + Js.digitVal b). split; [now apply parseInt_two|].
      apply isDigit_spec in Hb. unfold Js.digitVal. lia.
    + apply Ascii.eqb_eq in Ha. subst a. apply inRange_spec in Hb.
      assert (Hb' : Js.isDigit b = true) by (apply isDigit_spec; lia).
      exists (10 * Js.digitVal "2" + Js.digitVal b). split; [now apply parseInt_two|].
      unfold Js.digitVal. change (nat_of_ascii "2") with 50%nat. lia.
Qed.

(** The parts of an expression the pattern accepts. *)
Lemma CRON_PATTERN_parts cron :
  CRON_PATTERN_test cron = true ->
  exists minute hour f3 f4 f5,
    Js.split " " cron = [minute; hour; f3; f4; f5]
    /\ minuteField minute = true /\ hourField hour = true.
Proof.
  unfold CRON_PATTERN_test.
  destruct (Js.split " " cron) as [|a [|b [|c [|d [|e [|x r]]]]]]; try discriminate.
  intros H. repeat (apply andb_prop in H as [H ?]).
  exists a, b, c, d, e. repeat split; assumption.
Qed.

(** The next run for fields that are the star or a number in range: the
    local day of [u] at the hour and the minute the fields name, the star
    standing for the hour or the minute of [u]; one day later when that is
    not after [u]. *)
Lemma getNextCronDate_fields tza cron minute hour f3 f4 f5 u :
  Js.split " " cron = [minute; hour; f3; f4; f5] ->
  (minute = "*" \/ exists v, Js.parseInt minute = Some v /\ 0 <= v < 60) ->
  (hour = "*" \/ exists v, Js.parseInt hour = Some v /\ 0 <= v < 24) ->
  exists h m,
    0 <= h < 24 /\ 0 <= m < 60 /\
    Scheduler.getNextCronDate tza cron (Some u)
    = Ok (Some (if todayAt tza u h m <=? u
                then todayAt tza u h m + Date.msPerDay
                else todayAt tza u h m)).
Proof.
  intros Hsplit Hm Hh.
  set (l := Date.LocalTime tza u).
  destruct (DateFacts.fields_range l) as (Hh0 & Hm0 & Hs0 & Hms0).
  assert (Hm' : exists m, 0 <= m < 60 /\
            (if negb (String.eqb minute "*") then Js.parseInt minute else Some (Date.MinFromTime l))
            = Some m).
  { destruct (String.eqb_spec minute "*") as [->|Hn]; cbn [negb].
    - exists (Date.MinFromTime l). now split.
    - destruct Hm as [->|(v & Hv & Rv)]; [contradiction|]. now exists v. }
  assert (Hh' : exists h, 0 <= h < 24 /\
            (if negb (String.eqb hour "*") then Js.parseInt hour else Some (Date.HourFromTime l))
            = Some h).
  { destruct (String.eqb_spec hour "*") as [->|Hn]; cbn [negb].
    - exists (Date.HourFromTime l). now split.
    - destruct Hh as [->|(v & Hv & Rv)]; [contradiction|]. now exists v. }
  destruct Hm' as (m & Rm & Em). destruct Hh' as (h & Rh & Eh).
  exists h, m. split; [exact Rh|]. split; [exact Rm|].
  unfold Scheduler.getNextCronDate. rewrite Hsplit. cbn [List.length Nat.eqb negb nth].
  unfold Date.setSeconds, Date.setMilliseconds, Date.withLocal.
  rewrite !DateFacts.LocalTime_UTC. fold l.
  destruct (DateFacts.fields_of_MakeDate (Date.Day l) _ _ 0 _ Hh0 Hm0 ltac:(lia) Hms0)
    as (D1 & H1 & M1 & S1 & MS1 & _).
  rewrite D1, H1, M1, S1.
  destruct (DateFacts.fields_of_MakeDate (Date.Day l) _ _ 0 0 Hh0 Hm0 ltac:(lia) ltac:(lia))
    as (D2 & H2 & M2 & S2 & MS2 & _).
  set (l2 := Date.MakeDate (Date.Day l)
               (Date.MakeTime (Date.HourFromTime l) (Date.MinFromTime l) 0 0)) in *.
  (* the minute *)
  assert (E3 : (if negb (String.eqb minute "*")
                then Date.setMinutes tza (Some (Date.UTC tza l2)) (Js.parseInt minute)
                else Some (Date.UTC tza l2))
               = Some (Date.UTC tza (Date.MakeDate (Date.Day l)
                                       (Date.MakeTime (Date.HourFromTime l) m 0 0)))).
  { destruct (negb (String.eqb minute "*")).
    - rewrite Em. unfold Date.setMinutes, Date.withLocal.
      rewrite DateFacts.LocalTime_UTC, D2, H2, S2, MS2. reflexivity.
    - inversion Em; subst m. reflexivity. }
  rewrite E3. clear E3.
  destruct (DateFacts.fields_of_MakeDate (Date.Day l) _ _ 0 0 Hh0 Rm ltac:(lia) ltac:(lia))
    as (D3 & H3 & M3 & S3 & MS3 & _).
  set (l3 := Date.MakeDate (Date.Day l) (Date.MakeTime (Date.HourFromTime l) m 0 0)) in *.
  assert (E4 : (if negb (String.eqb hour "*")
                then Date.setHours tza (Some (Date.UTC tza l3)) (Js.parseInt hour)
                else Some (Date.UTC tza l3))
               = Some (todayAt tza u h m)).
  { unfold todayAt. fold l. destruct (negb (String.eqb hour "*")).
    - rewrite Eh. unfold Date.setHours, Date.withLocal.
      rewrite DateFacts.LocalTime_UTC, D3, M3, S3, MS3. reflexivity.
    - inversion Eh; subst h. reflexivity. }
  rewrite E4. clear E4.
  destruct (DateFacts.fields_of_MakeDate (Date.Day l) _ _ 0 0 Rh Rm ltac:(lia) ltac:(lia))
    as (D4 & H4 & M4 & S4 & MS4 & T4).
  unfold Date.leb.
  destruct (todayAt tza u h m <=? u); [|reflexivity].
  unfold Date.setDate, Date.getDate, Date.withLocal. cbn [option_map].
  unfold todayAt. rewrite DateFacts.LocalTime_UTC. fold l.
  rewrite DateFacts.MakeDay_fields, D4, T4.
  unfold Date.UTC, Date.MakeDate. do 2 f_equal. lia.
Qed.

(** The candidate lies on the local day of [u]. *)
Lemma todayAt_same_day tza u h m :
  0 <= h < 24 -> 0 <= m < 60 ->
  u - Date.msPerDay < todayAt tza u h m < u + Date.msPerDay.
Proof.
  intros Hh Hm. unfold todayAt, Date.UTC, Date.MakeDate, Date.MakeTime, Date.Day,
    Date.LocalTime, Date.msPerDay.
  Z.div_mod_to_equations. lia.
Qed.

End CronFacts.

(** X1. For every partial configuration whose keys hold values of their
    declared types, the numbers being integers, [sanitizeConfig] followed by
    [mergeWithDefaults] gives a configuration whose three numbers are in
    range, so that [validateConfig] can only complain about the commit time
    or about the length of the message template.  (A value of another type,
    and the number NaN, the code leaves as it finds them; they are no values
    of the record [PartialConfig].) *)
Theorem sanitized_configuration_numbers_in_range :
  forall p : PartialConfig,
    let c := ConfigValidation.mergeWithDefaults (ConfigValidation.sanitizeConfig p) in
    20 <= maxCommitMessageLength c <= 200
    /\ 0 <= retryAttempts c <= 10
    /\ 1000 <= retryDelayMs c
    /\ forall e, In e (Validation.validationErrors c) ->
         e = "commitTime must be a valid cron expression"
         \/ e = "messageTemplate must be at least 10 characters long"
         \/ e = "messageTemplate must be no more than 200 characters long".
Proof.
  intros p c.
  assert (H1 : 20 <= maxCommitMessageLength c <= 200).
  { subst c. cbn. destruct (p_maxCommitMessageLength p); cbn;
      [apply SanitizeFacts.clamp_range|]; lia. }
  assert (H2 : 0 <= retryAttempts c <= 10).
  { subst c. cbn. destruct (p_retryAttempts p); cbn;
      [apply SanitizeFacts.clamp_range|]; lia. }
  assert (H3 : 1000 <= retryDelayMs c).
  { subst c. cbn. destruct (p_retryDelayMs p); cbn; lia. }
  repeat split; try lia.
  intros e. unfold Validation.validationErrors.
  replace (maxCommitMessageLength c <? 20) with false by (symmetry; apply Z.ltb_ge; lia).
  replace (200 <? maxCommitMessageLength c) with false by (symmetry; apply Z.ltb_ge; lia).
  replace (retryAttempts c <? 0) with false by (symmetry; apply Z.ltb_ge; lia).
  replace (10 <? retryAttempts c) with false by (symmetry; apply Z.ltb_ge; lia).
  replace (retryDelayMs c <? 1000) with false by (symmetry; apply Z.ltb_ge; lia).
  rewrite !app_nil_r.
  destruct (negb _), (_ <? 10), (200 <? _); cbn; intuition (subst; auto).
Qed.

(** X2. [sanitizeConfig] is idempotent: a sanitized configuration is
    left as it is. *)
Theorem sanitizeConfig_idempotent :
  forall p : PartialConfig,
    ConfigValidation.sanitizeConfig (ConfigValidation.sanitizeConfig p)
    = ConfigValidation.sanitizeConfig p.
Proof.
  intros p. unfold ConfigValidation.sanitizeConfig. cbn.
  f_equal.
  - destruct (p_commitTime p); cbn; [rewrite SanitizeFacts.trim_idempotent|]; reflexivity.
  - destruct (p_messageTemplate p); cbn; [rewrite SanitizeFacts.trim_idempotent|]; reflexivity.
  - destruct (p_repositoryPath p); cbn; [rewrite SanitizeFacts.trim_idempotent|]; reflexivity.
  - destruct (p_maxCommitMessageLength p); cbn;
      [rewrite SanitizeFacts.clamp_idempotent by lia|]; reflexivity.
  - destruct (p_retryAttempts p); cbn;
      [rewrite SanitizeFacts.clamp_idempotent by lia|]; reflexivity.
  - destruct (p_retryDelayMs p); cbn; [f_equal; lia|reflexivity].
Qed.



(** ** Escaping a commit message *)

Module EscapeFacts.
Import Props.
Local Open Scope string_scope.


Lemma replaceAllFrom_char c repl before s :
  (forall m b a, Js.getSubstitution m b a repl = repl) ->
  Js.replaceAllFrom (String c "") repl before s 0 = eachChar c repl s.
Proof.
  intros Hr. revert before. induction s as [|x r IH]; intros before; [reflexivity|].
  cbn [Js.replaceAllFrom Js.startsWith eachChar String.length Nat.sub].
  rewrite andb_true_r. destruct (Ascii.eqb c x).
  - rewrite Hr, IH. reflexivity.
  - rewrite IH. reflexivity.
Qed.

Lemma replaceAll_char c repl s :
  (forall m b a, Js.getSubstitution m b a repl = repl) ->
  Js.replaceAll (String c "") repl s = eachChar c repl s.
Proof. intros H. apply replaceAllFrom_char, H. Qed.

Lemma eachChar_app c repl a b :
  eachChar c repl (a ++ b) = eachChar c repl a ++ eachChar c repl b.
Proof.
  induction a as [|x a IH]; [reflexivity|].
  cbn. rewrite IH, StrFacts.append_assoc. reflexivity.
Qed.

(** The four replacements, one after the other, on one character. *)
Lemma passes_char x :
  eachChar Js.newline " "
    (eachChar "$" (Js.backslash ++ "$")
      (eachChar "`" (Js.backslash ++ "`")
        (if Ascii.eqb dquoteChar x then Js.backslash ++ Js.dquote else String x "")))
  = escapeChar x.
Proof.
  destruct x as [[] [] [] [] [] [] [] []]; reflexivity.
Qed.

Lemma passes s :
  eachChar Js.newline " "
    (eachChar "$" (Js.backslash ++ "$")
      (eachChar "`" (Js.backslash ++ "`")
        (eachChar dquoteChar (Js.backslash ++ Js.dquote) s)))
  = escapeChars s.
Proof.
  induction s as [|x r IH]; [reflexivity|].
  cbn [eachChar escapeChars]. rewrite !eachChar_app, IH, passes_char. reflexivity.
Qed.

Lemma escapeCommitMessage_eq message :
  GitManager.escapeCommitMessage message = Js.trim (escapeChars message).
Proof.
  unfold GitManager.escapeCommitMessage.
  change Js.dquote with (String dquoteChar "") at 1.
  change Js.nl with (String Js.newline "").
  rewrite !replaceAll_char by reflexivity.
  now rewrite passes.
Qed.

Lemma space_not_backslash c : Js.isSpace c = true -> Ascii.eqb c backslashChar = false.
Proof. destruct c as [[] [] [] [] [] [] [] []]; intros H; try discriminate H; reflexivity. Qed.

Lemma space_not_special c : Js.isSpace c = true -> special c = false.
Proof. destruct c as [[] [] [] [] [] [] [] []]; intros H; try discriminate H; reflexivity. Qed.

Lemma guarded_weaken p s : guarded false s = true -> guarded p s = true.
Proof.
  destruct s as [|c r]; [reflexivity|]. cbn.
  destruct (special c); [discriminate|]. auto.
Qed.

Lemma guarded_escapeChars p s : guarded p (escapeChars s) = true.
Proof.
  revert p. induction s as [|x r IH]; intros p; [reflexivity|].
  cbn [escapeChars]. unfold escapeChar.
  destruct (special x) eqn:Ex.
  - cbn. rewrite Ex. cbn. rewrite IH. reflexivity.
  - destruct (Ascii.eqb x Js.newline); cbn; [apply IH|].
    rewrite Ex. cbn. apply IH.
Qed.

Lemma guarded_trimStart s : guarded false s = true -> guarded false (Js.trimStart s) = true.
Proof.
  induction s as [|c r IH]; [reflexivity|].
  cbn [Js.trimStart]. destruct (Js.isSpace c) eqn:Ec; [|auto].
  cbn [guarded]. rewrite (space_not_backslash _ Ec), (space_not_special _ Ec). exact IH.
Qed.

Lemma guarded_trimEnd p s : guarded p s = true -> guarded p (Js.trimEnd s) = true.
Proof.
  revert p. induction s as [|c r IH]; intros p; [reflexivity|].
  cbn [guarded Js.trimEnd]. intros H. apply andb_prop in H as [H1 H2].
  specialize (IH _ H2).
  destruct (Js.trimEnd r) as [|d t].
  - destruct (Js.isSpace c); [reflexivity|]. cbn. now rewrite H1.
  - cbn [guarded]. cbn [guarded] in IH. now rewrite H1, IH.
Qed.

Lemma hasChar_escapeChars s : hasChar Js.newline (escapeChars s) = false.
Proof.
  induction s as [|x r IH]; [reflexivity|].
  cbn [escapeChars]. unfold escapeChar.
  destruct (special x) eqn:Ex.
  - cbn [append hasChar]. rewrite IH.
    destruct x as [[] [] [] [] [] [] [] []]; try discriminate Ex; reflexivity.
  - destruct (Ascii.eqb x Js.newline) eqn:En; cbn [append hasChar]; rewrite IH;
      [reflexivity|]. now rewrite En.
Qed.

Lemma hasChar_trimStart c s : hasChar c s = false -> hasChar c (Js.trimStart s) = false.
Proof.
  induction s as [|x r IH]; [reflexivity|].
  cbn [Js.trimStart]. destruct (Js.isSpace x); [|auto].
  cbn. intros H. apply orb_false_iff in H as [_ H]. auto.
Qed.

Lemma hasChar_trimEnd c s : hasChar c s = false -> hasChar c (Js.trimEnd s) = false.
Proof.
  induction s as [|x r IH]; [reflexivity|].
  cbn [hasChar Js.trimEnd]. intros H. apply orb_false_iff in H as [H1 H2].
  specialize (IH H2).
  destruct (Js.trimEnd r) as [|d t].
  - destruct (Js.isSpace x); [reflexivity|]. cbn. now rewrite H1.
  - cbn [hasChar]. cbn [hasChar] in IH. now rewrite H1, IH.
Qed.

Lemma trimEnd_clean s : endsClean s = true -> Js.trimEnd s = s.
Proof.
  induction s as [|c r IH]; [reflexivity|].
  cbn [Js.trimEnd endsClean]. destruct r as [|d r'].
  - intros H. cbn. apply negb_true_iff in H. now rewrite H.
  - intros H. rewrite (IH H). reflexivity.
Qed.

Lemma trimStart_clean s : startsClean s = true -> Js.trimStart s = s.
Proof.
  destruct s as [|c r]; [reflexivity|]. cbn. intros H.
  apply negb_true_iff in H. now rewrite H.
Qed.

Lemma trim_clean s : startsClean s = true -> endsClean s = true -> Js.trim s = s.
Proof.
  intros H1 H2. unfold Js.trim. rewrite (trimStart_clean _ H1). now apply trimEnd_clean.
Qed.

(** A message without the four characters is escaped to itself. *)
Lemma escapeChars_plain s :
  hasChar dquoteChar s = false -> hasChar "`" s = false -> hasChar "$" s = false ->
  hasChar Js.newline s = false ->
  escapeChars s = s.
Proof.
  induction s as [|x r IH]; [reflexivity|].
  cbn [hasChar escapeChars]. intros H1 H2 H3 H4.
  apply orb_false_iff in H1 as [A1 B1]. apply orb_false_iff in H2 as [A2 B2].
  apply orb_false_iff in H3 as [A3 B3]. apply orb_false_iff in H4 as [A4 B4].
  rewrite (IH B1 B2 B3 B4). unfold escapeChar, special.
  rewrite A1, A2, A3, A4. reflexivity.
Qed.

End EscapeFacts.

(** X4. [escapeCommitMessage] works character by character: its four
    global replacements do not interfere, and the result is the message in
    which every double quote, backquote and dollar has a backslash put
    before it and every newline is a space, with the white space at both
    ends removed. *)
Theorem escapeCommitMessage_character_by_character :
  forall message,
    GitManager.escapeCommitMessage message = Js.trim (Props.escapeChars message).
Proof. exact EscapeFacts.escapeCommitMessage_eq. Qed.

(** X5. In an escaped message every double quote, backquote and dollar
    comes directly after a backslash, and there is no newline. *)
Theorem escapeCommitMessage_guards_specials :
  forall message,
    Props.guarded false (GitManager.escapeCommitMessage message) = true
    /\ Props.hasChar Js.newline (GitManager.escapeCommitMessage message) = false.
Proof.
  intros message. rewrite EscapeFacts.escapeCommitMessage_eq. unfold Js.trim. split.
  - apply EscapeFacts.guarded_trimEnd, EscapeFacts.guarded_trimStart,
      EscapeFacts.guarded_escapeChars.
  - apply EscapeFacts.hasChar_trimEnd, EscapeFacts.hasChar_trimStart,
      EscapeFacts.hasChar_escapeChars.
Qed.

(** X6. A message that holds none of the four characters and neither
    starts nor ends with white space is escaped to itself, whatever else it
    holds (backslashes included). *)
Theorem escapeCommitMessage_plain_message_unchanged :
  forall message,
    Props.hasChar Props.dquoteChar message = false ->
    Props.hasChar "`" message = false ->
    Props.hasChar "$" message = false ->
    Props.hasChar Js.newline message = false ->
    Props.startsClean message = true -> Props.endsClean message = true ->
    GitManager.escapeCommitMessage message = message.
Proof.
  intros message H1 H2 H3 H4 Hs He.
  rewrite EscapeFacts.escapeCommitMessage_eq, EscapeFacts.escapeChars_plain by assumption.
  now apply EscapeFacts.trim_clean.
Qed.

Lemma escapeCommitMessage_windows_path_unchanged :
  GitManager.escapeCommitMessage ("docs: move C:" ++ Js.backslash ++ "notes")
  = "docs: move C:" ++ Js.backslash ++ "notes".
Proof.
  apply (escapeCommitMessage_plain_message_unchanged
           ("docs: move C:" ++ Js.backslash ++ "notes")); reflexivity.
Defined.

(** ** Reading the list of changed files *)

Module StatusFacts.
Import Props.
Local Open Scope string_scope.

Lemma trimEnd_space_suffix s c : Js.isSpace c = true -> Js.trimEnd (s ++ String c "") = Js.trimEnd s.
Proof.
  intros Hc. induction s as [|x r IH]; cbn [append Js.trimEnd].
  - now rewrite Hc.
  - now rewrite IH.
Qed.

Lemma trimEnd_app a x : Js.trimEnd x <> "" -> Js.trimEnd (a ++ x) = a ++ Js.trimEnd x.
Proof.
  intros Hx. induction a as [|c a IH]; [reflexivity|].
  cbn [append Js.trimEnd]. rewrite IH.
  destruct (a ++ Js.trimEnd x) eqn:E; [|reflexivity].
  destruct a; cbn in E; [contradiction|discriminate].
Qed.

Lemma split_plain sep s : hasChar sep s = false -> Js.split sep s = [s].
Proof.
  induction s as [|c r IH]; [reflexivity|].
  cbn [hasChar Js.split]. intros H. apply orb_false_iff in H as [H1 H2].
  rewrite H1, (IH H2). reflexivity.
Qed.

Lemma split_app sep a r :
  hasChar sep a = false -> Js.split sep (a ++ String sep r) = a :: Js.split sep r.
Proof.
  induction a as [|c a IH]; cbn [append hasChar Js.split].
  - intros _. now rewrite Ascii.eqb_refl.
  - intros H. apply orb_false_iff in H as [H1 H2]. rewrite H1, (IH H2). reflexivity.
Qed.

Lemma split_join ls :
  ls <> [] -> forallb (fun l => negb (hasChar Js.newline l)) ls = true ->
  Js.split Js.newline (Js.join Js.nl ls) = ls.
Proof.
  induction ls as [|x [|y rest] IH]; [contradiction| |].
  - intros _ H. cbn in H. rewrite andb_true_r in H. apply negb_true_iff in H.
    cbn [Js.join]. now apply split_plain.
  - intros _ H. cbn [forallb] in H. apply andb_prop in H as [Hx H].
    apply negb_true_iff in Hx.
    change (Js.join Js.nl (x :: y :: rest))
      with (x ++ String Js.newline (Js.join Js.nl (y :: rest))).
    rewrite (split_app _ _ _ Hx), IH; [reflexivity | discriminate | exact H].
Qed.

Lemma join_cons x y rest :
  Js.join Js.nl (x :: y :: rest) = x ++ Js.nl ++ Js.join Js.nl (y :: rest).
Proof. reflexivity. Qed.

Lemma join_nonempty x rest : x <> "" -> Js.join Js.nl (x :: rest) <> "".
Proof.
  intros Hx. destruct rest; cbn [Js.join]; [exact Hx|].
  destruct x; [contradiction|discriminate].
Qed.

Lemma endsClean_cons c r : r <> "" -> endsClean (String c r) = endsClean r.
Proof. destruct r; [contradiction|reflexivity]. Qed.

Lemma statusLine_nonempty e : statusLine e <> "".
Proof. discriminate. Qed.

Lemma hasChar_app c a b : hasChar c (a ++ b) = hasChar c a || hasChar c b.
Proof. induction a as [|x a IH]; [reflexivity|]. cbn. now rewrite IH, orb_assoc. Qed.

Lemma plainEntry_line e :
  plainEntry e = true ->
  hasChar Js.newline (statusLine e) = false
  /\ hasChar Js.newline (String (treeStatus e) (" " ++ path e)) = false
  /\ path e <> "" /\ Js.trim (path e) = path e /\ endsClean (path e) = true.
Proof.
  unfold plainEntry, plainPath. intros H.
  apply andb_prop in H as [H Hp]. apply andb_prop in H as [H Hy].
  apply andb_prop in H as [_ Hx].
  apply andb_prop in Hp as [Hp He]. apply andb_prop in Hp as [Hp Hs].
  apply andb_prop in Hp as [Hn Hnl].
  apply negb_true_iff in Hx, Hy, Hn, Hnl.
  assert (path e <> "") by (now apply String.eqb_neq).
  repeat split; try assumption.
  - unfold statusLine. cbn [hasChar append]. rewrite Hx, Hy, Hnl. reflexivity.
  - cbn [hasChar append]. rewrite Hy, Hnl. reflexivity.
  - now apply EscapeFacts.trim_clean.
Qed.

(** The output without the white space at its end: the lines, joined. *)
Lemma trimEnd_lines first es :
  first <> "" -> endsClean first = true ->
  forallb plainEntry es = true ->
  Js.trimEnd (first ++ Js.nl ++ porcelain es)
  = Js.join Js.nl (first :: map statusLine es).
Proof.
  revert first. induction es as [|e es IH]; intros first Hne Hc Hes.
  - cbn [porcelain map]. unfold Js.nl. cbn [append].
    rewrite trimEnd_space_suffix by reflexivity.
    now apply EscapeFacts.trimEnd_clean.
  - cbn [forallb] in Hes. apply andb_prop in Hes as [He Hes].
    cbn [map]. rewrite join_cons.
    cbn [porcelain].
    assert (Hline : endsClean (statusLine e) = true).
    { destruct (plainEntry_line e He) as (_ & _ & L3 & _ & L5).
      unfold statusLine. cbn [append].
      rewrite !endsClean_cons; try assumption; discriminate. }
    specialize (IH (statusLine e) (statusLine_nonempty e) Hline Hes).
    rewrite <- IH.
    rewrite <- StrFacts.append_assoc.
    rewrite trimEnd_app; [now rewrite StrFacts.append_assoc|].
    rewrite IH. apply join_nonempty, statusLine_nonempty.
Qed.

Lemma porcelain_cons e es : porcelain (e :: es) = statusLine e ++ Js.nl ++ porcelain es.
Proof. reflexivity. Qed.

Lemma lines_plain es :
  forallb plainEntry es = true ->
  forallb (fun l => negb (hasChar Js.newline l)) (map statusLine es) = true
  /\ filter (fun line => (0 <? String.length line)%nat) (map statusLine es)
     = map statusLine es
  /\ map (fun line => Js.trim (Js.drop 3 line)) (map statusLine es) = map path es.
Proof.
  induction es as [|e es IH]; [repeat split|].
  cbn [forallb]. intros H. apply andb_prop in H as [He Hes].
  destruct (IH Hes) as (I1 & I2 & I3).
  destruct (plainEntry_line e He) as (L1 & _ & _ & L4 & _).
  cbn [map forallb filter]. rewrite L1, I1, I2, I3.
  change (Js.drop 3 (statusLine e)) with (path e). rewrite L4. repeat split.
Qed.

(** The list [getChangedFiles] computes from the output of the status
    command. *)
Lemma parse_porcelain e es :
  forallb plainEntry (e :: es) = true ->
  map (fun line => Js.trim (Js.drop 3 line)) (GitManager.nonEmptyLines (porcelain (e :: es)))
  = (if Js.isSpace (indexStatus e) then Js.trim (Js.drop 1 (path e)) else path e)
    :: map path es.
Proof.
  intros H. cbn [forallb] in H. apply andb_prop in H as [He Hes].
  destruct (lines_plain es Hes) as (I1 & I2 & I3).
  destruct (plainEntry_line e He) as (L1 & L2 & L3 & L4 & L5).
  unfold GitManager.nonEmptyLines. rewrite porcelain_cons.
  destruct (Js.isSpace (indexStatus e)) eqn:Ex.
  - (* the blank that starts the output is trimmed away *)
    assert (Ey : Js.isSpace (treeStatus e) = false).
    { unfold plainEntry in He. repeat (apply andb_prop in He as [He ?]).
      apply negb_true_iff in He. rewrite Ex, andb_true_r in He. exact He. }
    set (cut := String (treeStatus e) (" " ++ path e)).
    assert (Ht : Js.trim (statusLine e ++ Js.nl ++ porcelain es)
                 = Js.join Js.nl (cut :: map statusLine es)).
    { unfold Js.trim.
      replace (Js.trimStart (statusLine e ++ Js.nl ++ porcelain es))
        with (cut ++ Js.nl ++ porcelain es)
        by (unfold statusLine; cbn [append Js.trimStart]; now rewrite Ex, Ey).
      apply trimEnd_lines; [discriminate | | exact Hes].
      subst cut. cbn [append]. rewrite !endsClean_cons; try assumption; discriminate. }
    rewrite Ht, split_join; [| discriminate |].
    + cbn [filter]. change (0 <? String.length cut)%nat with true. cbn iota.
      rewrite I2. cbn [map]. rewrite I3. subst cut. cbn [append Js.drop]. reflexivity.
    + subst cut. cbn [forallb]. rewrite L2, I1. reflexivity.
  - assert (Ht : Js.trim (statusLine e ++ Js.nl ++ porcelain es)
                 = Js.join Js.nl (statusLine e :: map statusLine es)).
    { unfold Js.trim.
      replace (Js.trimStart (statusLine e ++ Js.nl ++ porcelain es))
        with (statusLine e ++ Js.nl ++ porcelain es)
        by (unfold statusLine; cbn [append Js.trimStart]; now rewrite Ex).
      apply trimEnd_lines; [discriminate | | exact Hes].
      unfold statusLine. cbn [append].
      rewrite !endsClean_cons; try assumption; discriminate. }
    rewrite Ht, split_join; [| discriminate |].
    + cbn [filter]. change (0 <? String.length (statusLine e))%nat with true.
      cbn iota. rewrite I2. cbn [map]. rewrite I3.
      change (Js.drop 3 (statusLine e)) with (path e). rewrite L4. reflexivity.
    + cbn [forallb]. rewrite L1, I1. reflexivity.
Qed.

End StatusFacts.

(** X7. The names [getChangedFiles] reports, for an output of
    [git status --porcelain] with one line per entry (two status characters,
    a blank, the path; paths printed bare): the paths, in order, except that
    the first character of the first path is lost when the first entry has a
    blank index status (a file modified and not staged), because the blank
    that starts the output is trimmed away before the lines are cut. *)
Theorem getChangedFiles_cuts_first_unstaged_path :
  forall E g tr r e es,
    exec E (tr ++ [EvLog SDebug "Executing Git command"])%list
         (GitManager.repositoryPath g) "git status --porcelain" = ExecOk r ->
    stdout r = Props.porcelain (e :: es) ->
    forallb Props.plainEntry (e :: es) = true ->
    exists tr',
      GitManager.getChangedFiles E g tr
      = (Ok ((if Js.isSpace (Props.indexStatus e)
              then Js.trim (Js.drop 1 (Props.path e)) else Props.path e)
             :: map Props.path es), g, tr').
Proof.
  intros E g tr r e es Hx Hout Hplain.
  unfold GitManager.getChangedFiles, tryCatch, bind.
  rewrite ClassifierFacts.executeGitCommand_run. cbv zeta.
  change ("git " ++ "status --porcelain") with "git status --porcelain".
  rewrite Hx. unfold ret. rewrite Hout, (StatusFacts.parse_porcelain e es Hplain).
  eexists. reflexivity.
Qed.

Lemma getChangedFiles_modified_notes :
  exists tr',
    GitManager.getChangedFiles Cases.envTwoChanges Sample.repo []
    = (Ok ["otes.txt"; "todo.md"], Sample.repo, tr').
Proof.
  apply (getChangedFiles_cuts_first_unstaged_path Cases.envTwoChanges Sample.repo []
           Cases.twoChanges Cases.notes [Cases.todo]); reflexivity.
Defined.

(** ** The analysis of the changed files *)

Module AnalyzerFacts.
Import Props FileAnalyzer.
Local Open Scope list_scope.


Lemma changeType_decide E fs : changeType (analyzeFiles E fs) = decide (countOf E fs).
Proof.
  destruct fs as [|f fs]; [reflexivity|]. reflexivity.
Qed.

Lemma countOf_nonneg E fs k : 0 <= countOf E fs k.
Proof. unfold countOf. lia. Qed.

Lemma decide_dominant (n : FileChangeType -> Z) k :
  (forall c, 0 <= n c) -> k <> mixed ->
  decide n = k
  <-> 7 * (n code + n config + n documentation + n test + n asset + n dependency)
      < 10 * n k.
Proof.
  intros Hn Hk. unfold decide. cbn [map categoryKeys fold_left fst snd].
  pose proof (Hn code). pose proof (Hn config). pose proof (Hn documentation).
  pose proof (Hn test). pose proof (Hn asset). pose proof (Hn dependency).
  destruct k; try contradiction;
  (generalize dependent (n code); intros n1 ?;
   generalize dependent (n config); intros n2 ?;
   generalize dependent (n documentation); intros n3 ?;
   generalize dependent (n test); intros n4 ?;
   generalize dependent (n asset); intros n5 ?;
   generalize dependent (n dependency); intros n6 ?;
   repeat match goal with
          | |- context [?a <? ?b] =>
              lazymatch constr:((a, b)) with
              | context [if _ then _ else _] => fail
              | _ => destruct (Z.ltb_spec a b); cbn [fst snd]
              end
          end;
   cbn [andb fst snd];
   split; intros; first [reflexivity | discriminate | lia | exfalso; lia]).
Qed.

Lemma countOf_app E a b k : countOf E (a ++ b) k = countOf E a k + countOf E b k.
Proof. unfold countOf. rewrite filter_app, length_app. lia. Qed.

Lemma countOf_unknown E us k :
  k <> mixed -> Forall (fun u => categorizeFile E u = mixed) us -> countOf E us k = 0.
Proof.
  intros Hk H. induction H as [|u us Hu _ IH]; [reflexivity|].
  unfold countOf in *. cbn [filter]. rewrite Hu.
  destruct k; try contradiction; exact IH.
Qed.

Lemma decide_ext n m :
  (forall k, k <> mixed -> n k = m k) -> decide n = decide m.
Proof.
  intros H. unfold decide. cbn [map categoryKeys].
  rewrite !H by discriminate. reflexivity.
Qed.

Lemma categorized_sum E fs :
  categorized E fs
  = countOf E fs code + countOf E fs config + countOf E fs documentation
    + countOf E fs test + countOf E fs asset + countOf E fs dependency.
Proof. unfold categorized. cbn. lia. Qed.

End AnalyzerFacts.

(** X8. The change type [analyzeFiles] reports is a category other than
    [mixed] exactly when strictly more than 70 % of the files that have a
    category are of that category; the files without a category do not
    count. *)
Theorem analyzeFiles_dominant_category :
  forall E fs k,
    k <> mixed ->
    changeType (FileAnalyzer.analyzeFiles E fs) = k
    <-> 7 * Props.categorized E fs < 10 * Props.countOf E fs k.
Proof.
  intros E fs k Hk.
  rewrite AnalyzerFacts.changeType_decide, AnalyzerFacts.categorized_sum.
  apply AnalyzerFacts.decide_dominant; [|exact Hk].
  intros c. apply AnalyzerFacts.countOf_nonneg.
Qed.

Lemma analyzeFiles_three_documents_of_four :
  changeType (FileAnalyzer.analyzeFiles Cases.envTwoChanges
                ["readme"; "changelog"; "license"; "package.json"])
  = documentation.
Proof.
  apply (proj2 (analyzeFiles_dominant_category Cases.envTwoChanges
                  ["readme"; "changelog"; "license"; "package.json"] documentation
                  ltac:(discriminate))).
  vm_compute. reflexivity.
Defined.

(** X9. Files that have no category change nothing in the change type:
    adding them to a list leaves the change type as it is. *)
Theorem analyzeFiles_ignores_uncategorized_files :
  forall E fs us,
    Forall (fun u => FileAnalyzer.categorizeFile E u = mixed) us ->
    changeType (FileAnalyzer.analyzeFiles E (fs ++ us)%list)
    = changeType (FileAnalyzer.analyzeFiles E fs).
Proof.
  intros E fs us H. rewrite !AnalyzerFacts.changeType_decide.
  apply AnalyzerFacts.decide_ext. intros k Hk.
  rewrite AnalyzerFacts.countOf_app, (AnalyzerFacts.countOf_unknown E us k Hk H). lia.
Qed.

Lemma analyzeFiles_ignores_a_makefile :
  changeType (FileAnalyzer.analyzeFiles Cases.envTwoChanges
                (["readme"; "changelog"; "license"] ++ ["Makefile"; "Procfile"])%list)
  = changeType (FileAnalyzer.analyzeFiles Cases.envTwoChanges
                  ["readme"; "changelog"; "license"]).
Proof.
  apply (analyzeFiles_ignores_uncategorized_files Cases.envTwoChanges
           ["readme"; "changelog"; "license"] ["Makefile"; "Procfile"]).
  repeat constructor.
Defined.

(** ** Methods that return, and what they add to the trace *)

Module EffectFacts.
Import Props TraceFacts.
Local Open Scope list_scope.


Section Returns.
Context {S : Type}.

Lemma returns_ret {A} (a : A) : returns (S:=S) (ret a).
Proof. intros E s tr. now eexists _, _, _. Qed.
Lemma returns_get : returns (S:=S) get.
Proof. intros E s tr. now eexists _, _, _. Qed.
Lemma returns_ask : returns (S:=S) ask.
Proof. intros E s tr. now eexists _, _, _. Qed.
Lemma returns_now : returns (S:=S) now.
Proof. intros E s tr. now eexists _, _, _. Qed.
Lemma returns_modify f : returns (S:=S) (modify f).
Proof. intros E s tr. now eexists _, _, _. Qed.
Lemma returns_emit ev : returns (S:=S) (emit ev).
Proof. intros E s tr. now eexists _, _, _. Qed.
Lemma returns_execAsync cwd c : returns (S:=S) (execAsync cwd c).
Proof. intros E s tr. now eexists _, _, _. Qed.
Lemma returns_fsAccess p : returns (S:=S) (fsAccess p).
Proof. intros E s tr. now eexists _, _, _. Qed.

Lemma returns_bind {A B} (m : M S A) (k : A -> M S B) :
  returns m -> (forall a, returns (k a)) -> returns (bind m k).
Proof.
  intros Hm Hk E s tr. unfold bind.
  destruct (Hm E s tr) as (a & s1 & tr1 & ->). apply Hk.
Qed.

(** A handler that returns makes the block return, whatever it guards. *)
Lemma returns_tryCatch {A} (m : M S A) (h : JsError -> M S A) :
  (forall e, returns (h e)) -> returns (tryCatch m h).
Proof.
  intros Hh E s tr. unfold tryCatch.
  destruct (m E s tr) as [[[a|e] s1] tr1]; [now eexists _, _, _ | apply Hh].
Qed.

End Returns.

Lemma returns_zoom {S T A} (proj : S -> T) inj (m : M T A) :
  returns m -> returns (zoom proj inj m).
Proof.
  intros Hm E s tr. unfold zoom.
  destruct (Hm E (proj s) tr) as (a & t1 & tr1 & ->). now eexists _, _, _.
Qed.

Ltac returns_step :=
  first
    [ apply returns_ret | apply returns_get | apply returns_ask | apply returns_now
    | apply returns_modify | apply returns_emit | apply returns_execAsync
    | apply returns_fsAccess
    | apply returns_tryCatch; intros ?
    | apply returns_bind; [|intros ?]
    | apply returns_zoom
    | match goal with
      | |- returns (if ?b then _ else _) => destruct b
      | |- returns (match ?x with _ => _ end) => destruct x
      end
    | assumption ].

Ltac returning := repeat returns_step.

Section Emits.
Context {S : Type} (q : Event -> bool).

Lemma emitsOnly_fsReadFile p :
  q (EvReadFile p) = true -> emitsOnly (S:=S) q (fsReadFile p).
Proof. intros Hq E s tr r s' tr' H. inversion H; subst. now apply extends_one. Qed.

Lemma emitsOnly_fsMkdir p :
  q (EvMkdir p) = true -> emitsOnly (S:=S) q (fsMkdir p).
Proof. intros Hq E s tr r s' tr' H. inversion H; subst. now apply extends_one. Qed.

Lemma emitsOnly_fsWriteFile p d :
  q (EvWriteFile p d) = true -> emitsOnly (S:=S) q (fsWriteFile p d).
Proof. intros Hq E s tr r s' tr' H. inversion H; subst. now apply extends_one. Qed.

Lemma emitsOnly_call cb :
  q (EvCall cb) = true -> emitsOnly (S:=S) q (call cb).
Proof. intros Hq E s tr r s' tr' H. inversion H; subst. now apply extends_one. Qed.

End Emits.

(** [emits_step] with the file system and the callbacks. *)
Ltac effects_step :=
  first
    [ assumption
    | emits_step
    | apply emitsOnly_fsReadFile; reflexivity
    | apply emitsOnly_fsMkdir; reflexivity
    | apply emitsOnly_fsWriteFile; reflexivity
    | apply emitsOnly_call; reflexivity
    | apply emitsOnly_zoom ].

Ltac effects := repeat effects_step.

Lemma extends_weaken (p q : Event -> bool) tr tr' :
  (forall ev, p ev = true -> q ev = true) -> extends p tr tr' -> extends q tr tr'.
Proof.
  intros Hpq (d & -> & Hd). exists d. split; [reflexivity|].
  rewrite forallb_forall in *. auto.
Qed.

Lemma writes_app a b : writes (a ++ b) = writes a ++ writes b.
Proof. unfold writes. apply filter_app. Qed.

(** Passive events leave the count of the calls and the list of the
    writes as they are. *)
Lemma passive_extends tr tr' :
  extends passive tr tr' -> calls tr' = calls tr /\ writes tr' = writes tr.
Proof.
  intros (d & -> & Hd). rewrite SchedulerFacts.calls_app, writes_app.
  assert (calls d = 0%nat /\ writes d = []) as [-> ->]; [|now rewrite Nat.add_0_r, app_nil_r].
  induction d as [|ev d IH]; [now split|].
  cbn [forallb] in Hd. apply andb_prop in Hd as [Hq Hd]. destruct (IH Hd) as [Hc Hw].
  unfold passive in Hq. apply andb_prop in Hq as [Hq1 Hq2].
  apply negb_true_iff in Hq1, Hq2.
  unfold calls, writes in *. cbn [filter]. rewrite Hq1, Hq2. now split.
Qed.

End EffectFacts.

(** ** The scheduler: start-up, scheduled runs, persistence *)

Module LifecycleFacts.
Import Props TraceFacts EffectFacts Scheduler SchedulerLifecycle.
Local Open Scope list_scope.

Lemma passive_loadState : emitsOnly passive loadState.
Proof.
  unfold loadState, parse, modifyState, logDebug, logError. effects.
Qed.

Lemma returns_loadState : returns loadState.
Proof. unfold loadState, logDebug, logError. returning. Qed.

Lemma returns_saveState : returns saveState.
Proof. unfold saveState, logError. returning. Qed.

Lemma returns_handleMissedExecutions : returns handleMissedExecutions.
Proof. unfold handleMissedExecutions, logError. returning. Qed.

Lemma returns_initialize : returns initialize.
Proof.
  unfold initialize. intros E s tr. unfold tryCatch, bind.
  destruct (returns_loadState E s tr) as ([] & s1 & tr1 & ->).
  destruct (returns_handleMissedExecutions E s1 tr1) as (b & s2 & tr2 & ->).
  now eexists _, _, _.
Qed.

(** Without a callback the check for a missed run stops after the state
    file was read. *)
Lemma handleMissedExecutions_no_callback E s tr :
  callback s = None ->
  exists st tr',
    handleMissedExecutions E s tr = (Ok false, setState st s, tr')
    /\ extends passive tr tr'.
Proof.
  intros Hcb. unfold handleMissedExecutions, tryCatch. unfold bind at 1.
  destruct (loadState E s tr) as [[r s1] tr1] eqn:El.
  pose proof (passive_loadState _ _ _ _ _ _ El) as Hp.
  destruct (SchedulerFacts.loadState_ok E s tr) as (st & tr1' & El' & _).
  rewrite El in El'. inversion El'; subst.
  unfold bind, get. cbn [callback setState]. rewrite Hcb.
  exists st, tr1'. split; [reflexivity | exact Hp].
Qed.

Lemma passive_calculateNextRun : emitsOnly passive calculateNextRun.
Proof.
  unfold calculateNextRun, liftRes, Scheduler.toISOString, modifyState, logError.
  effects.
Qed.

Lemma passive_updateLastRun : emitsOnly passive updateLastRun.
Proof.
  pose proof passive_calculateNextRun. unfold updateLastRun, modifyState. effects.
Qed.

Lemma lastRun_updateLastRun E s tr r s' tr' :
  updateLastRun E s tr = (r, s', tr') ->
  r = Ok tt /\ sameBook s s'
  /\ SchedulerState.lastRun (state s') = Some (Date.toISOString (clock E tr)).
Proof.
  unfold updateLastRun, bind, now, modifyState, modify.
  set (s1 := setState _ s).
  destruct (SchedulerFacts.calculateNextRun_ok E s1 tr) as (s2 & tr2 & -> & Hb & _ & Hl).
  intros H. inversion H; subst. split; [reflexivity|].
  split; [|rewrite Hl; reflexivity].
  destruct Hb as (B1 & B2 & B3 & B4 & B5 & B6 & B7). repeat split; assumption.
Qed.

Lemma lastWritten_write path tr d :
  lastWritten path (tr ++ [EvWriteFile path d]) = Some d.
Proof.
  induction tr as [|ev tr IH]; cbn [app lastWritten].
  - now rewrite String.eqb_refl.
  - now rewrite IH.
Qed.

Lemma merge_stringify p st :
  match stringify st with
  | StateJson j => merge (state (Scheduler.new p)) j = st
  | _ => False
  end.
Proof. destruct st as [l n a c m]. cbn. destruct l, n; reflexivity. Qed.

End LifecycleFacts.

(** X10. [Scheduler.initialize] never throws: the state file may be
    missing or unreadable and the callback of a missed run may throw, the
    method returns and the error it declares ("Scheduler initialization
    failed") is never raised. *)
Theorem scheduler_initialize_never_throws :
  forall E s tr, exists s' tr',
    SchedulerLifecycle.initialize E s tr = (Ok tt, s', tr').
Proof.
  intros E s tr.
  destruct (LifecycleFacts.returns_initialize E s tr) as ([] & s' & tr' & H). eauto.
Qed.

(** X11. A scheduler that has no callback (none was scheduled yet) never
    recovers a missed run: whatever the state file holds,
    [handleMissedExecutions] answers [false], calls nothing, writes nothing
    and leaves the scheduler without callback. *)
Theorem handleMissedExecutions_needs_a_callback :
  forall E s tr,
    Scheduler.callback s = None ->
    exists s' tr',
      Scheduler.handleMissedExecutions E s tr = (Ok false, s', tr')
      /\ Scheduler.callback s' = None
      /\ calls tr' = calls tr /\ writes tr' = writes tr.
Proof.
  intros E s tr H.
  destruct (LifecycleFacts.handleMissedExecutions_no_callback E s tr H)
    as (st & tr' & -> & Hp).
  apply EffectFacts.passive_extends in Hp as [Hc Hw].
  eexists _, _. split; [reflexivity|]. repeat split; assumption.
Qed.

Lemma handleMissedExecutions_before_schedule :
  exists s' tr',
    Scheduler.handleMissedExecutions Sample.envTwoDaysLater
      (Scheduler.new "./config/scheduler-state.json") []
    = (Ok false, s', tr')
    /\ Scheduler.callback s' = None
    /\ calls tr' = calls [] /\ writes tr' = writes [].
Proof.
  apply (handleMissedExecutions_needs_a_callback Sample.envTwoDaysLater
           (Scheduler.new "./config/scheduler-state.json") []).
  reflexivity.
Defined.

(** X12. A scheduled run records its time before it calls the callback:
    the task function never throws, sets [lastRun] to the time of the run
    even when the callback throws, calls the callback exactly once and does
    not write the state file. *)
Theorem scheduled_run_records_time_first :
  forall E s tr cb, exists s' tr',
    SchedulerLifecycle.tick cb E s tr = (Ok tt, s', tr')
    /\ SchedulerState.lastRun (Scheduler.state s')
       = Some (Date.toISOString
                 (clock E (tr ++ [EvLog SInfo "Executing scheduled task"])%list))
    /\ sameBook s s'
    /\ calls tr' = S (calls tr) /\ writes tr' = writes tr.
Proof.
  intros E s tr cb. unfold SchedulerLifecycle.tick.
  unfold bind at 1. unfold logInfo at 1, emit at 1.
  set (tr0 := (tr ++ [EvLog SInfo "Executing scheduled task"])%list).
  unfold tryCatch. unfold bind at 1.
  destruct (Scheduler.updateLastRun E s tr0) as [[r s1] tr1] eqn:Eu.
  pose proof (LifecycleFacts.passive_updateLastRun _ _ _ _ _ _ Eu) as Hp.
  apply LifecycleFacts.lastRun_updateLastRun in Eu as (-> & Hb & Hl).
  apply EffectFacts.passive_extends in Hp as [Hc Hw].
  assert (Hc0 : calls tr0 = calls tr)
    by (subst tr0; rewrite SchedulerFacts.calls_app; cbn; lia).
  assert (Hw0 : writes tr0 = writes tr)
    by (subst tr0; rewrite EffectFacts.writes_app; cbn; now rewrite app_nil_r).
  unfold bind, call, logInfo, logError, emit.
  destruct (runCallback E tr1 cb) as [e|];
    (eexists _, _; split; [reflexivity|]; split; [exact Hl|]; split; [exact Hb|]);
    rewrite !SchedulerFacts.calls_app, !EffectFacts.writes_app; cbn;
    rewrite Hc, Hc0, Hw, Hw0, ?app_nil_r; split; (lia || reflexivity).
Qed.

(** X13. What [saveState] writes, [loadState] reads back: over a file
    system that keeps what is written, a scheduler constructed anew on the
    same state file holds after [loadState] the state that was saved. *)
Theorem saveState_loadState_round_trip :
  forall E s tr,
    Props.Coherent E ->
    exists tr1 tr2,
      Scheduler.saveState E s tr = (Ok tt, s, tr1)
      /\ Scheduler.loadState E (Scheduler.new (Scheduler.stateFilePath s)) tr1
         = (Ok tt,
            Scheduler.setState (Scheduler.state s)
              (Scheduler.new (Scheduler.stateFilePath s)),
            tr2).
Proof.
  intros E s tr [Hread Hmk Hwr].
  unfold Scheduler.saveState, tryCatch, bind, ask, get, fsMkdir, fsWriteFile.
  rewrite Hmk, Hwr.
  eexists _, _. split; [reflexivity|].
  unfold Scheduler.loadState, tryCatch, bind, get, fsReadFile.
  cbn [Scheduler.stateFilePath Scheduler.new].
  rewrite (Hread _ _ _ (LifecycleFacts.lastWritten_write _ _ _)).
  pose proof (LifecycleFacts.merge_stringify (Scheduler.stateFilePath s) (Scheduler.state s))
    as Hm.
  unfold Scheduler.stringify in *. unfold Scheduler.parse, ret, Scheduler.modifyState, modify.
  cbn [Scheduler.state Scheduler.new] in *. rewrite Hm. reflexivity.
Qed.

Module DiskFacts.

Lemma coherent clk answers cb : Props.Coherent (Disk.env clk answers cb).
Proof.
  constructor; [|reflexivity|reflexivity].
  intros tr path d H. cbn. now rewrite H.
Qed.

End DiskFacts.

Lemma saveState_loadState_on_disk :
  exists tr1 tr2,
    Scheduler.saveState (Disk.env Sample.morning Sample.healthy None) (Sample.daily true) []
    = (Ok tt, Sample.daily true, tr1)
    /\ Scheduler.loadState (Disk.env Sample.morning Sample.healthy None)
         (Scheduler.new (Scheduler.stateFilePath (Sample.daily true))) tr1
       = (Ok tt,
          Scheduler.setState (Scheduler.state (Sample.daily true))
            (Scheduler.new (Scheduler.stateFilePath (Sample.daily true))),
          tr2).
Proof.
  apply (saveState_loadState_round_trip (Disk.env Sample.morning Sample.healthy None)
           (Sample.daily true) []).
  apply DiskFacts.coherent.
Defined.

(** X14. [stop] destroys the task: after it the scheduler has no task and
    is not running, and [start] throws the error that asks for [schedule]
    first, changing nothing. *)
Theorem start_after_stop_throws :
  forall E s tr, exists s1 tr1,
    Scheduler.stop E s tr = (Ok tt, s1, tr1)
    /\ Scheduler.task s1 = None
    /\ Scheduler.isRunning s1 = false
    /\ forall tr2,
         Scheduler.start E s1 tr2
         = (Throw (newSchedulerError "No task scheduled. Call schedule() first." None),
            s1, tr2).
Proof.
  intros E s tr. unfold Scheduler.stop. cbv beta iota zeta delta [bind get].
  destruct (Scheduler.task s) as [tk|] eqn:Et.
  - cbv beta iota zeta delta [bind tryCatch emit modify Scheduler.modifyState logInfo].
    match goal with |- context [Scheduler.saveState E ?x ?y] =>
      destruct (SchedulerFacts.saveState_ok E x y) as (tr4 & -> & _) end.
    eexists _, _. split; [reflexivity|]. repeat split.
  - exists s, tr. split; [reflexivity|]. split; [exact Et|].
    split; [unfold Scheduler.isRunning; now rewrite Et|].
    intros tr2. unfold Scheduler.start, bind, get. now rewrite Et.
Qed.

(** X15. [updateSchedule] with an expression the cron library rejects
    throws a [SchedulerError] and leaves the scheduler as it was: the
    running task is not stopped and keeps the old expression. *)
Theorem updateSchedule_rejected_expression_changes_nothing :
  forall E s tr expr cb,
    Scheduler.callback s = Some cb ->
    expr <> Scheduler.cronExpression s ->
    cronValidate E expr = false ->
    Scheduler.updateSchedule expr E s tr
    = (Throw (newSchedulerError
                ("Failed to schedule task: Invalid cron expression: " ++ expr)
                (Some (newSchedulerError ("Invalid cron expression: " ++ expr) None))),
       s,
       (tr ++ [EvLog SError ("Failed to schedule task: Invalid cron expression: " ++ expr)])%list).
Proof.
  intros E s tr expr cb Hcb Hne Hv.
  unfold Scheduler.updateSchedule, bind, get.
  apply String.eqb_neq in Hne. rewrite Hne, Hcb.
  unfold Scheduler.schedule, tryCatch, bind, ask, throw. rewrite Hv. reflexivity.
Qed.

Lemma updateSchedule_every_day_rejected :
  exists e,
    Scheduler.updateSchedule "every day" Sample.envTwoDaysLater (Sample.daily true) []
    = (Throw e, Sample.daily true,
       [EvLog SError "Failed to schedule task: Invalid cron expression: every day"])
    /\ Scheduler.isRunning (Sample.daily true) = true.
Proof.
  eexists. split; [|reflexivity].
  apply (updateSchedule_rejected_expression_changes_nothing Sample.envTwoDaysLater
           (Sample.daily true) [] "every day" (Handler 0)).
  - reflexivity.
  - discriminate.
  - reflexivity.
Defined.

(** ** The configuration file *)

Module ConfigFacts.
Import Props TraceFacts EffectFacts ConfigValidation ConfigStore.
Local Open Scope list_scope.

Lemma split_nonempty sep s : Js.split sep s <> [].
Proof.
  induction s as [|c s IH]; [discriminate|].
  cbn. destruct (Ascii.eqb c sep); [discriminate|].
  destruct (Js.split sep s); [contradiction|discriminate].
Qed.

(** Joining the parts of a split gives the string back. *)
Lemma join_split sep s : Js.join (String sep "") (Js.split sep s) = s.
Proof.
  induction s as [|c s IH]; [reflexivity|].
  cbn [Js.split]. destruct (Ascii.eqb_spec c sep) as [->|Hne].
  - pose proof (split_nonempty sep s) as Hn.
    destruct (Js.split sep s) as [|h t] eqn:Es; [contradiction|].
    change (Js.join (String sep "") ("" :: h :: t))%string
      with (String sep (Js.join (String sep "") (h :: t))).
    now rewrite IH.
  - pose proof (split_nonempty sep s) as Hn.
    destruct (Js.split sep s) as [|h t] eqn:Es; [contradiction|].
    destruct t as [|h2 t].
    + cbn [Js.join] in *. now rewrite IH.
    + change (Js.join (String sep "") (String c h :: h2 :: t))
        with (String c (Js.join (String sep "") (h :: h2 :: t))).
      now rewrite IH.
Qed.

Lemma endsClean_app a b : b <> ""%string -> endsClean (a ++ b) = endsClean b.
Proof.
  intros Hb. induction a as [|c a IH]; [reflexivity|].
  cbn [append]. rewrite StatusFacts.endsClean_cons; [exact IH|].
  destruct a; [exact Hb|discriminate].
Qed.

Lemma digit_not_space c : Js.isDigit c = true -> Js.isSpace c = false.
Proof. destruct c as [[] [] [] [] [] [] [] []]; intros H; try discriminate H; reflexivity. Qed.

(** An expression the pattern accepts has no white space at its ends. *)
Lemma CRON_PATTERN_trimmed s :
  Validation.CRON_PATTERN_test s = true -> Js.trim s = s.
Proof.
  intros H. apply EscapeFacts.trim_clean.
  - (* the first field starts the string, with a star or a digit *)
    unfold Validation.CRON_PATTERN_test in H.
    destruct s as [|c r]; [reflexivity|]. cbn [startsClean].
    cbn [Js.split] in H. destruct (Ascii.eqb c " ") eqn:Ec.
    + destruct (Js.split " " r) as [|b [|c3 [|d [|e [|x t]]]]]; try discriminate H.
    + destruct (Js.split " " r) as [|a [|b [|c3 [|d [|e [|x t]]]]]]; try discriminate H.
      apply andb_prop in H as [H _]. apply andb_prop in H as [H _].
      apply andb_prop in H as [H _]. apply andb_prop in H as [H _].
      unfold Validation.minuteField, Validation.isStar in H.
      apply orb_prop in H as [H|H].
      * apply String.eqb_eq in H. inversion H; subst. reflexivity.
      * destruct a as [|a2 [|a3 a4]]; try discriminate H.
        -- rewrite CronFacts.d09_isDigit in H. now rewrite (digit_not_space _ H).
        -- apply andb_prop in H as [H _]. apply CronFacts.inRange_spec in H.
           assert (Hd : Js.isDigit c = true) by (apply CronFacts.isDigit_spec; lia).
           now rewrite (digit_not_space _ Hd).
  - (* the last field ends the string, with a star or a digit *)
    unfold Validation.CRON_PATTERN_test in H.
    rewrite <- (join_split " " s).
    destruct (Js.split " " s) as [|a [|b [|c3 [|d [|e [|x t]]]]]]; try discriminate H.
    apply andb_prop in H as [_ H].
    change (Js.join " " [a; b; c3; d; e])
      with (a ++ " " ++ b ++ " " ++ c3 ++ " " ++ d ++ " " ++ e)%string.
    assert (He : e <> ""%string /\ endsClean e = true).
    { unfold Validation.weekdayField, Validation.isStar in H.
      apply orb_prop in H as [H|H].
      - apply String.eqb_eq in H. subst e. split; [discriminate|reflexivity].
      - destruct e as [|e1 [|e2 e3]]; try discriminate H.
        split; [discriminate|]. cbn. apply CronFacts.inRange_spec in H.
        assert (Hd : Js.isDigit e1 = true) by (apply CronFacts.isDigit_spec; lia).
        now rewrite (digit_not_space _ Hd). }
    destruct He as [He1 He2].
    rewrite <- !StrFacts.append_assoc. rewrite endsClean_app; assumption.
Qed.

Lemma validationErrors_nil c :
  Validation.validateConfig c = true <-> Validation.validationErrors c = [].
Proof.
  unfold Validation.validateConfig. destruct (Validation.validationErrors c).
  - split; reflexivity.
  - split; discriminate.
Qed.

(** What a valid configuration satisfies, field by field. *)
Lemma valid_fields c :
  Validation.validateConfig c = true ->
  Validation.CRON_PATTERN_test (commitTime c) = true
  /\ 10 <= Z.of_nat (String.length (messageTemplate c)) <= 200
  /\ 20 <= maxCommitMessageLength c <= 200
  /\ 0 <= retryAttempts c <= 10
  /\ 1000 <= retryDelayMs c.
Proof.
  intros H. apply validationErrors_nil in H. unfold Validation.validationErrors in H.
  repeat match type of H with
         | (?a ++ ?b) = [] => apply app_eq_nil in H; destruct H as [? H]
         end.
  repeat match goal with
         | H : (if ?b then _ :: _ else []) = [] |- _ =>
             destruct b eqn:?; [discriminate H|clear H]
         end.
  repeat match goal with
         | H : negb _ = false |- _ => apply negb_false_iff in H
         | H : (_ <? _) = false |- _ => apply Z.ltb_ge in H
         end.
  repeat split; try assumption; lia.
Qed.

Lemma fields_valid c :
  Validation.CRON_PATTERN_test (commitTime c) = true ->
  10 <= Z.of_nat (String.length (messageTemplate c)) <= 200 ->
  20 <= maxCommitMessageLength c <= 200 ->
  0 <= retryAttempts c <= 10 ->
  1000 <= retryDelayMs c ->
  Validation.validateConfig c = true.
Proof.
  intros H1 H2 H3 H4 H5. apply validationErrors_nil. unfold Validation.validationErrors.
  rewrite H1. cbn [negb].
  replace (Z.of_nat (String.length (messageTemplate c)) <? 10) with false
    by (symmetry; apply Z.ltb_ge; lia).
  replace (200 <? Z.of_nat (String.length (messageTemplate c))) with false
    by (symmetry; apply Z.ltb_ge; lia).
  replace (maxCommitMessageLength c <? 20) with false by (symmetry; apply Z.ltb_ge; lia).
  replace (200 <? maxCommitMessageLength c) with false by (symmetry; apply Z.ltb_ge; lia).
  replace (retryAttempts c <? 0) with false by (symmetry; apply Z.ltb_ge; lia).
  replace (10 <? retryAttempts c) with false by (symmetry; apply Z.ltb_ge; lia).
  replace (retryDelayMs c <? 1000) with false by (symmetry; apply Z.ltb_ge; lia).
  reflexivity.
Qed.

Lemma overrides_none penv : noOverrides penv -> getEnvironmentOverrides penv = noKeys.
Proof.
  intros (H1 & H2 & H3 & H4). unfold getEnvironmentOverrides. now rewrite H1, H2, H3, H4.
Qed.

(** What [loadConfig] builds from a file that [saveConfig] wrote. *)
Lemma fullConfigOf_saved penv c :
  noOverrides penv -> Validation.validateConfig c = true ->
  fullConfigOf penv (allKeys c) = trimmedConfig c.
Proof.
  intros Hp Hv. destruct (valid_fields c Hv) as (V1 & V2 & V3 & V4 & V5).
  unfold fullConfigOf. rewrite (overrides_none _ Hp).
  unfold mergeWithDefaults, sanitizeConfig, overlay, allKeys, noKeys, trimmedConfig,
    AutoCommitService.mergeConfig.
  cbn [p_enabled p_commitTime p_messageTemplate p_excludePatterns p_logLevel
       p_repositoryPath p_maxCommitMessageLength p_retryAttempts p_retryDelayMs
       Scheduler.orElse Scheduler.orDefault option_map].
  rewrite (CRON_PATTERN_trimmed _ V1).
  unfold clamp.
  replace (Z.max 20 (Z.min 200 (maxCommitMessageLength c)))
    with (maxCommitMessageLength c) by lia.
  replace (Z.max 0 (Z.min 10 (retryAttempts c))) with (retryAttempts c) by lia.
  replace (Z.max 1000 (retryDelayMs c)) with (retryDelayMs c) by lia.
  destruct (repositoryPath c); reflexivity.
Qed.

Lemma fullConfigOf_defaults penv :
  noOverrides penv -> fullConfigOf penv noKeys = Validation.DEFAULT_CONFIG.
Proof.
  intros Hp. unfold fullConfigOf. now rewrite (overrides_none _ Hp).
Qed.

Lemma length_trim_le s : (String.length (Js.trim s) <= String.length s)%nat.
Proof.
  unfold Js.trim.
  assert (H1 : forall t, (String.length (Js.trimEnd t) <= String.length t)%nat).
  { induction t as [|c t IH]; [cbn; lia|].
    cbn [Js.trimEnd]. destruct (Js.trimEnd t).
    - destruct (Js.isSpace c); cbn; lia.
    - cbn [String.length] in *. lia. }
  assert (H2 : forall t, (String.length (Js.trimStart t) <= String.length t)%nat).
  { induction t as [|c t IH]; [cbn; lia|].
    cbn [Js.trimStart]. destruct (Js.isSpace c); cbn [String.length]; lia. }
  specialize (H1 (Js.trimStart s)). specialize (H2 s). lia.
Qed.

End ConfigFacts.

(** X16. [saveConfig] keeps the file and the cache in step: when it
    returns, the configuration is valid, the file was written with it (one
    write, of that configuration) and the cache holds it; when it throws,
    the error is a [ConfigurationError] and the cache is as before; and for a
    configuration that is not valid nothing is touched at all. *)
Theorem saveConfig_writes_valid_configurations_only :
  forall E m tr c,
    let '(r, m', tr') := ConfigManager.saveConfig c E m tr in
    match r with
    | Ok _ =>
        Validation.validateConfig c = true
        /\ m' = ConfigStore.setCached (Some c) m
        /\ writes tr' = (writes tr
                         ++ [EvWriteFile (ConfigManager.configPath m) (ConfigJson c)])%list
    | Throw e =>
        isConfigurationError e = true /\ m' = m
        /\ (Validation.validateConfig c = false -> tr' = tr)
    end.
Proof.
  intros E m tr c.
  destruct (ConfigManager.saveConfig c E m tr) as [[r m'] tr'] eqn:Hrun. revert Hrun.
  unfold ConfigManager.saveConfig, tryCatch, bind, ask, get, fsMkdir, fsWriteFile,
    modify, throw, ret.
  destruct (Validation.validateConfig c) eqn:Ev; cbn [negb].
  - destruct (mkdir E tr _) as [e|].
    + destruct (isConfigurationError e) eqn:Ee; intros H; inversion H; subst;
        (split; [assumption || reflexivity|]); (split; [reflexivity|]); discriminate.
    + destruct (writeFile E _ _ _) as [e|].
      * destruct (isConfigurationError e) eqn:Ee; intros H; inversion H; subst;
          (split; [assumption || reflexivity|]); (split; [reflexivity|]); discriminate.
      * intros H; inversion H; subst. split; [reflexivity|].
        split; [destruct m; reflexivity|].
        rewrite !EffectFacts.writes_app. cbn. now rewrite app_nil_r.
  - intros H; inversion H; subst. repeat split.
Qed.

(** X17. [loadConfig] returns valid configurations only and caches what
    it returns; every error it throws is a [ConfigurationError] and leaves
    the manager as it was; it reads the file once and writes nothing. *)
Theorem loadConfig_returns_valid_configurations_only :
  forall penv E m tr,
    let '(r, m', tr') := ConfigStore.loadConfig penv E m tr in
    tr' = (tr ++ [EvReadFile (ConfigManager.configPath m)])%list
    /\ match r with
       | Ok c =>
           Validation.validateConfig c = true
           /\ m' = ConfigStore.setCached (Some c) m
       | Throw e => isConfigurationError e = true /\ m' = m
       end.
Proof.
  intros penv E m tr.
  destruct (ConfigStore.loadConfig penv E m tr) as [[r m'] tr'] eqn:Hrun. revert Hrun.
  unfold ConfigStore.loadConfig, tryCatch, bind, get, fsReadFile, ConfigStore.parse,
    modify, throw, ret.
  destruct (readFile E tr _) as [[j|c|x]|e].
  - destruct (Validation.validateConfig _) eqn:Ev; cbn [negb];
      intros H; inversion H; subst; repeat split; assumption.
  - destruct (Validation.validateConfig _) eqn:Ev; cbn [negb];
      intros H; inversion H; subst; repeat split; assumption.
  - cbn. intros H; inversion H; subst. repeat split.
  - destruct (hasCode "ENOENT" e); cbn [negb].
    + destruct (Validation.validateConfig _) eqn:Ev; cbn [negb];
        intros H; inversion H; subst; repeat split; assumption.
    + cbn. intros H; inversion H; subst. repeat split.
Qed.

(** X18. When the file does not exist and no variable of the environment
    overrides a key, [loadConfig] returns the default configuration and
    caches it. *)
Theorem loadConfig_missing_file_gives_defaults :
  forall penv E m tr e,
    Props.noOverrides penv ->
    readFile E tr (ConfigManager.configPath m) = inr e ->
    hasCode "ENOENT" e = true ->
    ConfigStore.loadConfig penv E m tr
    = (Ok Validation.DEFAULT_CONFIG,
       ConfigStore.setCached (Some Validation.DEFAULT_CONFIG) m,
       (tr ++ [EvReadFile (ConfigManager.configPath m)])%list).
Proof.
  intros penv E m tr e Hp Hr He.
  unfold ConfigStore.loadConfig, tryCatch, bind, get, fsReadFile.
  rewrite Hr, He. cbn [negb]. unfold ret at 1.
  rewrite (ConfigFacts.fullConfigOf_defaults _ Hp). reflexivity.
Qed.

Lemma loadConfig_first_start :
  ConfigStore.loadConfig Disk.bare Sample.envUnchanged
    (ConfigStore.new Disk.bare None) []
  = (Ok Validation.DEFAULT_CONFIG,
     ConfigStore.setCached (Some Validation.DEFAULT_CONFIG) (ConfigStore.new Disk.bare None),
     [EvReadFile "./config/auto-commit.config.json"]).
Proof.
  apply (loadConfig_missing_file_gives_defaults Disk.bare Sample.envUnchanged
           (ConfigStore.new Disk.bare None) [] Sample.ENOENT).
  - repeat split.
  - reflexivity.
  - reflexivity.
Defined.

(** X19. Saving and loading again, for a configuration whose numbers
    are integers (what [JSON.stringify] writes for them, [JSON.parse] reads
    back): over a file system that keeps what is
    written and with no override in the environment, [loadConfig] after
    [saveConfig c] gives [c] back with the white space at the ends of the
    message template and of the repository path removed; and it throws the
    validation error instead when the template, so trimmed, has fewer than
    10 characters (a configuration [saveConfig] accepts, as it counts the
    white space). *)
Theorem saveConfig_loadConfig_round_trip :
  forall penv E m tr c,
    Props.Coherent E -> Props.noOverrides penv ->
    Validation.validateConfig c = true ->
    exists tr1 tr2,
      ConfigManager.saveConfig c E m tr = (Ok tt, ConfigStore.setCached (Some c) m, tr1)
      /\ ConfigStore.loadConfig penv E (ConfigStore.setCached (Some c) m) tr1
         = if (Z.of_nat (String.length (Js.trim (messageTemplate c))) <? 10)
           then (Throw (newConfigurationError
                          ("Configuration validation failed: "
                           ++ "messageTemplate must be at least 10 characters long") None),
                 ConfigStore.setCached (Some c) m, tr2)
           else (Ok (Props.trimmedConfig c),
                 ConfigStore.setCached (Some (Props.trimmedConfig c)) m, tr2).
Proof.
  intros penv E m tr c [Hread Hmk Hwr] Hp Hv.
  unfold ConfigManager.saveConfig, tryCatch, bind, ask, get, fsMkdir, fsWriteFile,
    modify, throw, ret.
  rewrite Hv. cbn [negb]. rewrite Hmk, Hwr.
  eexists _, _. split; [destruct m; reflexivity|].
  unfold ConfigStore.loadConfig, tryCatch, bind, get, fsReadFile, ConfigStore.parse,
    modify, throw, ret.
  cbn [ConfigManager.configPath ConfigStore.setCached].
  rewrite (Hread _ _ _ (LifecycleFacts.lastWritten_write _ _ _)).
  rewrite (ConfigFacts.fullConfigOf_saved _ _ Hp Hv).
  destruct (ConfigFacts.valid_fields c Hv) as (V1 & V2 & V3 & V4 & V5).
  pose proof (ConfigFacts.length_trim_le (messageTemplate c)) as Hl.
  destruct (Z.ltb_spec (Z.of_nat (String.length (Js.trim (messageTemplate c)))) 10) as [Hs|Hs].
  - assert (Hbad : Validation.validationErrors (Props.trimmedConfig c)
                   = ["messageTemplate must be at least 10 characters long"]).
    { unfold Validation.validationErrors. cbn [Props.trimmedConfig commitTime messageTemplate
        maxCommitMessageLength retryAttempts retryDelayMs].
      rewrite V1. cbn [negb].
      replace (Z.of_nat (String.length (Js.trim (messageTemplate c))) <? 10) with true
        by (symmetry; apply Z.ltb_lt; lia).
      replace (200 <? Z.of_nat (String.length (Js.trim (messageTemplate c)))) with false
        by (symmetry; apply Z.ltb_ge; lia).
      replace (maxCommitMessageLength c <? 20) with false by (symmetry; apply Z.ltb_ge; lia).
      replace (200 <? maxCommitMessageLength c) with false by (symmetry; apply Z.ltb_ge; lia).
      replace (retryAttempts c <? 0) with false by (symmetry; apply Z.ltb_ge; lia).
      replace (10 <? retryAttempts c) with false by (symmetry; apply Z.ltb_ge; lia).
      replace (retryDelayMs c <? 1000) with false by (symmetry; apply Z.ltb_ge; lia).
      reflexivity. }
    unfold Validation.validateConfig. rewrite Hbad. cbn. reflexivity.
  - rewrite (ConfigFacts.fields_valid (Props.trimmedConfig c)); try assumption.
    + cbn [negb]. reflexivity.
    + cbn [Props.trimmedConfig messageTemplate]. lia.
Qed.

Lemma saveConfig_loadConfig_padded_template :
  exists tr1 tr2,
    ConfigManager.saveConfig Cases.padded (Disk.env Sample.morning Sample.healthy None)
      (ConfigStore.new Disk.bare None) []
    = (Ok tt, ConfigStore.setCached (Some Cases.padded) (ConfigStore.new Disk.bare None), tr1)
    /\ ConfigStore.loadConfig Disk.bare (Disk.env Sample.morning Sample.healthy None)
         (ConfigStore.setCached (Some Cases.padded) (ConfigStore.new Disk.bare None)) tr1
       = (Throw (newConfigurationError
                   ("Configuration validation failed: "
                    ++ "messageTemplate must be at least 10 characters long") None),
          ConfigStore.setCached (Some Cases.padded) (ConfigStore.new Disk.bare None), tr2).
Proof.
  apply (saveConfig_loadConfig_round_trip Disk.bare
           (Disk.env Sample.morning Sample.healthy None)
           (ConfigStore.new Disk.bare None) [] Cases.padded).
  - apply DiskFacts.coherent.
  - repeat split.
  - reflexivity.
Defined.

(** ** Invariants of a method *)

Module KeepFacts.
Import Props TraceFacts EffectFacts.
Local Open Scope list_scope.


Section Keeps.
Context {S : Type} (P : S -> Prop) (q : Event -> bool).

Lemma keeps_ret {A} (a : A) : keeps P q (ret a).
Proof. intros E s tr r s' tr' HP H. inversion H; subst. split; [exact HP|apply extends_refl]. Qed.
Lemma keeps_throw {A} e : keeps (A:=A) P q (throw e).
Proof. intros E s tr r s' tr' HP H. inversion H; subst. split; [exact HP|apply extends_refl]. Qed.
Lemma keeps_get : keeps P q get.
Proof. intros E s tr r s' tr' HP H. inversion H; subst. split; [exact HP|apply extends_refl]. Qed.
Lemma keeps_ask : keeps P q ask.
Proof. intros E s tr r s' tr' HP H. inversion H; subst. split; [exact HP|apply extends_refl]. Qed.
Lemma keeps_now : keeps P q now.
Proof. intros E s tr r s' tr' HP H. inversion H; subst. split; [exact HP|apply extends_refl]. Qed.
Lemma keeps_emit ev : q ev = true -> keeps P q (emit ev).
Proof.
  intros Hq E s tr r s' tr' HP H. inversion H; subst. split; [exact HP|now apply extends_one].
Qed.
Lemma keeps_modify f : (forall s, P s -> P (f s)) -> keeps P q (modify f).
Proof.
  intros Hf E s tr r s' tr' HP H. inversion H; subst. split; [now apply Hf|apply extends_refl].
Qed.

Lemma keeps_bind {A B} (m : M S A) (k : A -> M S B) :
  keeps P q m -> (forall a, keeps P q (k a)) -> keeps P q (bind m k).
Proof.
  intros Hm Hk E s tr r s' tr' HP H. unfold bind in H.
  destruct (m E s tr) as [[[a|e] s1] tr1] eqn:Em.
  - destruct (Hm _ _ _ _ _ _ HP Em) as [HP1 Hx1].
    destruct (Hk a _ _ _ _ _ _ HP1 H) as [HP2 Hx2].
    split; [exact HP2 | eapply extends_trans; eassumption].
  - inversion H; subst. exact (Hm _ _ _ _ _ _ HP Em).
Qed.

Lemma keeps_tryCatch {A} (m : M S A) (h : JsError -> M S A) :
  keeps P q m -> (forall e, keeps P q (h e)) -> keeps P q (tryCatch m h).
Proof.
  intros Hm Hh E s tr r s' tr' HP H. unfold tryCatch in H.
  destruct (m E s tr) as [[[a|e] s1] tr1] eqn:Em.
  - inversion H; subst. exact (Hm _ _ _ _ _ _ HP Em).
  - destruct (Hm _ _ _ _ _ _ HP Em) as [HP1 Hx1].
    destruct (Hh e _ _ _ _ _ _ HP1 H) as [HP2 Hx2].
    split; [exact HP2 | eapply extends_trans; eassumption].
Qed.

End Keeps.

(** A method of a component that [P] does not look at. *)
Lemma keeps_zoom_frame {S T A} (P : S -> Prop) q (proj : S -> T) inj (m : M T A) :
  emitsOnly q m -> (forall s t, P s -> P (inj t s)) -> keeps P q (zoom proj inj m).
Proof.
  intros Hm Hf E s tr r s' tr' HP H. unfold zoom in H.
  destruct (m E (proj s) tr) as [[r1 t1] tr1] eqn:Em.
  inversion H; subst. split; [now apply Hf | eapply Hm, Em].
Qed.

(** A method of the component that [P] is about. *)
Lemma keeps_zoom_inner {S T A} (P : S -> Prop) (Q : T -> Prop) q
      (proj : S -> T) inj (m : M T A) :
  keeps Q q m -> (forall s, P s -> Q (proj s)) -> (forall s t, P s -> Q t -> P (inj t s)) ->
  keeps P q (zoom proj inj m).
Proof.
  intros Hm Hp Hi E s tr r s' tr' HP H. unfold zoom in H.
  destruct (m E (proj s) tr) as [[r1 t1] tr1] eqn:Em.
  inversion H; subst.
  destruct (Hm _ _ _ _ _ _ (Hp _ HP) Em) as [HQ Hx]. split; [now apply Hi | exact Hx].
Qed.

Ltac keeps_step :=
  first
    [ assumption
    | apply keeps_ret | apply keeps_throw | apply keeps_get | apply keeps_ask
    | apply keeps_now
    | apply keeps_emit; reflexivity
    | apply keeps_modify; intros ? ?; assumption
    | apply keeps_bind; [|intros ?]
    | apply keeps_tryCatch; [|intros ?]
    | match goal with
      | |- keeps _ _ (if ?b then _ else _) => destruct b
      | |- keeps _ _ (match ?x with _ => _ end) => destruct x
      end ].

Ltac keeping := repeat keeps_step.

End KeepFacts.

(** ** What the git manager adds to the trace *)

Module RepositoryFacts.
Import Props TraceFacts EffectFacts GitManager GitQueries.
Local Open Scope list_scope.

#[local] Ltac ro defs :=
  intros; unfold defs, logDebug, logInfo, logError, defaultLogger_warn, sleep;
  effects; eauto.

Lemma only_executeGitCommand c : emitsOnly repositoryOnly (executeGitCommand c).
Proof. ro executeGitCommand. Qed.
#[local] Hint Resolve only_executeGitCommand : core.
Lemma only_hasChanges : emitsOnly repositoryOnly hasChanges.
Proof. pose proof only_executeGitCommand. ro hasChanges. Qed.
Lemma only_getChangedFiles : emitsOnly repositoryOnly getChangedFiles.
Proof. pose proof only_executeGitCommand. ro getChangedFiles. Qed.
Lemma only_getGitDirectory : emitsOnly repositoryOnly getGitDirectory.
Proof. pose proof only_executeGitCommand. ro getGitDirectory. Qed.
Lemma only_getRepositoryState : emitsOnly repositoryOnly getRepositoryState.
Proof.
  pose proof only_executeGitCommand. pose proof only_hasChanges.
  pose proof only_getGitDirectory. ro getRepositoryState.
Qed.
Lemma only_isRepositoryClean : emitsOnly repositoryOnly isRepositoryClean.
Proof. pose proof only_getRepositoryState. ro isRepositoryClean. Qed.
Lemma only_getLatestCommitHash : emitsOnly repositoryOnly getLatestCommitHash.
Proof. pose proof only_executeGitCommand. ro getLatestCommitHash. Qed.
Lemma only_getChangedFilesFromCommit h :
  emitsOnly repositoryOnly (getChangedFilesFromCommit h).
Proof. pose proof only_executeGitCommand. ro getChangedFilesFromCommit. Qed.
Lemma only_createCommit message : emitsOnly repositoryOnly (createCommit message).
Proof.
  pose proof only_executeGitCommand. pose proof only_hasChanges.
  pose proof only_isRepositoryClean. pose proof only_getLatestCommitHash.
  pose proof only_getChangedFilesFromCommit. ro createCommit.
Qed.
Lemma only_retryLoop message maxRetries delay left attempt lastError :
  emitsOnly repositoryOnly (retryLoop message maxRetries delay left attempt lastError).
Proof.
  pose proof only_createCommit.
  revert attempt lastError. induction left as [|left IH]; intros attempt lastError.
  - ro retryLoop.
  - cbn [retryLoop]. unfold logDebug, defaultLogger_warn, sleep.
    repeat first [apply IH | effects_step].
Qed.
Lemma only_createCommitWithRetry message maxRetries delay :
  emitsOnly repositoryOnly (createCommitWithRetry message maxRetries delay).
Proof. pose proof only_retryLoop. ro createCommitWithRetry. Qed.
Lemma only_generateCommitMessage fs template :
  emitsOnly repositoryOnly (generateCommitMessage fs template).
Proof. ro generateCommitMessage. Qed.
Lemma only_isGitRepository : emitsOnly repositoryOnly isGitRepository.
Proof. pose proof only_executeGitCommand. ro isGitRepository. Qed.
Lemma only_getCurrentBranch : emitsOnly repositoryOnly getCurrentBranch.
Proof. pose proof only_executeGitCommand. ro getCurrentBranch. Qed.
Lemma only_getRepositoryInfo : emitsOnly repositoryOnly getRepositoryInfo.
Proof.
  pose proof only_isGitRepository. pose proof only_getCurrentBranch.
  pose proof only_getLatestCommitHash. pose proof only_hasChanges.
  pose proof only_getRepositoryState. ro getRepositoryInfo.
Qed.
Lemma only_setRepositoryPath p : emitsOnly repositoryOnly (setRepositoryPath p).
Proof. ro setRepositoryPath. Qed.
Lemma only_isGitAvailable : emitsOnly repositoryOnly isGitAvailable.
Proof. ro isGitAvailable. Qed.

Lemma repositoryOnly_passive ev : repositoryOnly ev = true -> passive ev = true.
Proof. destruct ev; intros H; try discriminate H; reflexivity. Qed.

Lemma repositoryOnly_noCall tr tr' : extends repositoryOnly tr tr' -> extends noCall tr tr'.
Proof.
  apply extends_weaken. intros ev H. destruct ev; try discriminate H; reflexivity.
Qed.

End RepositoryFacts.

(** ** The service: start-up *)

Module StartupFacts.
Import Props TraceFacts EffectFacts KeepFacts AutoCommitService ServiceLifecycle.
Local Open Scope list_scope.

Lemma emitsOnly_weaken {S A} (p q : Event -> bool) (m : M S A) :
  (forall ev, p ev = true -> q ev = true) -> emitsOnly p m -> emitsOnly q m.
Proof.
  intros Hpq Hm E s tr r s' tr' H. eapply extends_weaken; [exact Hpq | eapply Hm, H].
Qed.

Lemma passive_of_repositoryOnly {A} (m : M GitManager.t A) :
  emitsOnly repositoryOnly m -> emitsOnly passive m.
Proof. apply emitsOnly_weaken, RepositoryFacts.repositoryOnly_passive. Qed.

Lemma passive_loadConfig penv : emitsOnly passive (ConfigStore.loadConfig penv).
Proof.
  unfold ConfigStore.loadConfig, ConfigStore.parse. effects.
Qed.


Lemma keeps_loadState : keeps idle passive Scheduler.loadState.
Proof.
  intros E s tr r s' tr' HP H.
  pose proof (LifecycleFacts.passive_loadState _ _ _ _ _ _ H) as Hp.
  destruct (SchedulerFacts.loadState_ok E s tr) as (st & tr1 & H1 & _).
  rewrite H in H1. inversion H1; subst. split; [exact HP | exact Hp].
Qed.

Lemma keeps_handleMissedExecutions : keeps idle passive Scheduler.handleMissedExecutions.
Proof.
  intros E s tr r s' tr' HP H.
  destruct (LifecycleFacts.handleMissedExecutions_no_callback E s tr HP)
    as (st & tr1 & H1 & Hp).
  rewrite H in H1. inversion H1; subst. split; [exact HP | exact Hp].
Qed.

Lemma keeps_scheduler_initialize : keeps idle passive SchedulerLifecycle.initialize.
Proof.
  pose proof keeps_loadState. pose proof keeps_handleMissedExecutions.
  unfold SchedulerLifecycle.initialize, logInfo, logError. keeping.
Qed.

Lemma keeps_git {A} (m : M GitManager.t A) :
  emitsOnly repositoryOnly m -> keeps idleService passive (git m).
Proof.
  intros H. apply keeps_zoom_frame; [now apply passive_of_repositoryOnly|].
  intros s t Hs. exact Hs.
Qed.

Lemma keeps_conf {A} (m : M ConfigManager.t A) :
  emitsOnly passive m -> keeps idleService passive (conf m).
Proof. intros H. apply keeps_zoom_frame; [exact H|]. intros s t Hs. exact Hs. Qed.

Lemma keeps_sched {A} (m : M Scheduler.t A) :
  keeps idle passive m -> keeps idleService passive (sched m).
Proof.
  intros H. apply (keeps_zoom_inner idleService idle); [exact H| |].
  - intros s Hs. exact Hs.
  - intros s t _ Ht. exact Ht.
Qed.

Lemma keeps_initialize penv : keeps idleService passive (initialize penv).
Proof.
  unfold initialize, recordAndRethrow, setLogLevel, logInfo, logDebug, logError.
  repeat first
    [ apply keeps_conf, passive_loadConfig
    | apply keeps_git, RepositoryFacts.only_setRepositoryPath
    | apply keeps_git, RepositoryFacts.only_isGitAvailable
    | apply keeps_git, RepositoryFacts.only_isGitRepository
    | apply keeps_git, RepositoryFacts.only_getRepositoryInfo
    | apply keeps_sched, keeps_scheduler_initialize
    | apply keeps_sched, keeps_handleMissedExecutions
    | keeps_step ].
Qed.

End StartupFacts.

(** X20. The start-up of the service never recovers a missed run when the
    scheduler has no callback yet, which is the case of every service just
    constructed (the callback is installed by [start], after [initialize]):
    whatever the state file says and however [initialize] ends, no callback
    is called, no file is written and the scheduler still has no callback. *)
Theorem service_initialize_recovers_nothing_before_start :
  forall penv E s tr,
    Scheduler.callback (AutoCommitService.scheduler s) = None ->
    let '(_, s', tr') := ServiceLifecycle.initialize penv E s tr in
    Scheduler.callback (AutoCommitService.scheduler s') = None
    /\ calls tr' = calls tr /\ writes tr' = writes tr.
Proof.
  intros penv E s tr H.
  destruct (ServiceLifecycle.initialize penv E s tr) as [[r s'] tr'] eqn:Hrun.
  destruct (StartupFacts.keeps_initialize penv E s tr r s' tr' H Hrun) as [Hc Hp].
  split; [exact Hc|]. now apply EffectFacts.passive_extends.
Qed.

Lemma service_initialize_after_two_days_off :
  exists s' tr',
    ServiceLifecycle.initialize Disk.bare Cases.envRestart
      (ServiceLifecycle.new Disk.bare "/srv/site" None None None) []
    = (Ok tt, s', tr')
    /\ In (EvReadFile "./config/scheduler-state.json") tr'
    /\ In (EvLog SDebug "Scheduler initialized") tr'
    /\ Scheduler.callback (AutoCommitService.scheduler s') = None
    /\ calls tr' = calls [] /\ writes tr' = writes [].
Proof.
  pose proof (service_initialize_recovers_nothing_before_start Disk.bare Cases.envRestart
                (ServiceLifecycle.new Disk.bare "/srv/site" None None None) [] eq_refl) as H.
  destruct (ServiceLifecycle.initialize Disk.bare Cases.envRestart
              (ServiceLifecycle.new Disk.bare "/srv/site" None None None) [])
    as [[r s'] tr'] eqn:Hrun.
  vm_compute in Hrun.
  injection Hrun as <- <- <-.
  eexists _, _. split; [reflexivity|].
  split; [vm_compute; tauto|]. split; [vm_compute; tauto|]. exact H.
Defined.

Module OutcomeFacts.
Import Props TraceFacts EffectFacts AutoCommitService ServiceLifecycle.
Local Open Scope list_scope.

(** What [loadConfig] returns is valid. *)
Lemma loadConfig_valid penv E m tr c m' tr' :
  ConfigStore.loadConfig penv E m tr = (Ok c, m', tr') ->
  Validation.validateConfig c = true.
Proof.
  unfold ConfigStore.loadConfig, tryCatch, bind, get, fsReadFile, ConfigStore.parse,
    modify, throw, ret.
  destruct (readFile E tr _) as [[j|c0|x]|e].
  - destruct (Validation.validateConfig _) eqn:Ev; cbn [negb];
      intros H; inversion H; subst; assumption.
  - destruct (Validation.validateConfig _) eqn:Ev; cbn [negb];
      intros H; inversion H; subst; assumption.
  - cbn. discriminate.
  - destruct (hasCode "ENOENT" e); cbn [negb].
    + destruct (Validation.validateConfig _) eqn:Ev; cbn [negb];
        intros H; inversion H; subst; assumption.
    + cbn. discriminate.
Qed.

Ltac step_service :=
  cbv beta iota zeta delta
    [bind tryCatch now logInfo logDebug logError emit get modify ret throw
     git sched conf zoom recordAndRethrow setLogLevel GitManager.setRepositoryPath];
  cbn [gitManager scheduler configManager logger config isInitialized isServiceRunning
       totalCommits lastCommitDate lastError
       setGitManager setScheduler setConfigManager setLogger setConfig
       setIsServiceRunning setTotalCommits setLastCommitDate setLastError
       setIsInitialized].

End OutcomeFacts.

(** X21. [initialize] sets the flag last: when it returns, the service is
    initialized and holds a valid configuration, at whose level the logger
    now is; when it throws, the text of the error is in [lastError] and the
    flag is what it was.  Neither way does it start the service, and on
    success it leaves [lastError] as it was. *)
Theorem service_initialize_sets_the_flag_last :
  forall penv E s tr,
    let '(r, s', tr') := ServiceLifecycle.initialize penv E s tr in
    AutoCommitService.isServiceRunning s' = AutoCommitService.isServiceRunning s
    /\ match r with
       | Ok _ =>
           AutoCommitService.isInitialized s' = true
           /\ AutoCommitService.lastError s' = AutoCommitService.lastError s
           /\ exists cfg,
                AutoCommitService.config s' = Some cfg
                /\ Validation.validateConfig cfg = true
                /\ level (AutoCommitService.logger s') = logLevel cfg
       | Throw e =>
           AutoCommitService.lastError s' = Some (errMessage e)
           /\ AutoCommitService.isInitialized s' = AutoCommitService.isInitialized s
       end.
Proof.
  intros penv E s tr. unfold ServiceLifecycle.initialize.
  OutcomeFacts.step_service.
  destruct (ConfigStore.loadConfig penv E _ _) as [[[cfg|e] cm] tr1] eqn:Hload;
    [|repeat split].
  apply OutcomeFacts.loadConfig_valid in Hload.
  OutcomeFacts.step_service.
  repeat match goal with
         | |- context [match ?x with _ => _ end] =>
             lazymatch x with
             | context [match _ with _ => _ end] => fail
             | _ => destruct x
             end
         end;
    cbn; repeat split; try reflexivity; eauto.
Qed.

(** ** The service: a run *)

Module RunFacts.
Import Props TraceFacts EffectFacts AutoCommitService ServiceLifecycle.
Local Open Scope list_scope.

Lemma returns_executeCommit : returns executeCommit.
Proof.
  unfold executeCommit. apply returns_bind; [apply returns_now|intros t0].
  apply returns_bind; [apply returns_emit|intros _].
  apply returns_tryCatch. intros e. unfold logError. returning.
Qed.

Lemma returns_triggerManualCommit : returns triggerManualCommit.
Proof.
  unfold triggerManualCommit, logInfo.
  apply returns_bind; [apply returns_emit | intros _; apply returns_executeCommit].
Qed.

(** A run reads three keys of the configuration. *)
Lemma executeCommit_config E s tr c1 c2 :
  messageTemplate c1 = messageTemplate c2 ->
  retryAttempts c1 = retryAttempts c2 ->
  retryDelayMs c1 = retryDelayMs c2 ->
  executeCommit E (setConfig (Some c1) s) tr
  = let '(r, s', tr') := executeCommit E (setConfig (Some c2) s) tr in
    (r, setConfig (Some c1) s', tr').
Proof.
  intros H1 H2 H3. unfold executeCommit.
  OutcomeFacts.step_service. rewrite H1, H2, H3.
  repeat (match goal with
          | |- context [match ?x with _ => _ end] =>
              lazymatch x with
              | context [match _ with _ => _ end] => fail
              | _ => destruct x
              end
          end;
          OutcomeFacts.step_service;
          cbv beta iota zeta delta [warn logger_warn bind get throw emit];
          cbn [logger setConfig setGitManager setLastError]);
    reflexivity.
Qed.

End RunFacts.

(** X22. A run of [executeCommit] depends on the configuration through
    the message template, the number of attempts and the delay only: two
    configurations that agree on these three keys give the same result, the
    same trace and the same state.  The exclude patterns, the maximal length
    of the message, the flag [enabled] and the commit time are not read. *)
Theorem executeCommit_reads_three_keys :
  forall E s tr c1 c2,
    messageTemplate c1 = messageTemplate c2 ->
    retryAttempts c1 = retryAttempts c2 ->
    retryDelayMs c1 = retryDelayMs c2 ->
    AutoCommitService.executeCommit E (AutoCommitService.setConfig (Some c1) s) tr
    = let '(r, s', tr') :=
        AutoCommitService.executeCommit E (AutoCommitService.setConfig (Some c2) s) tr in
      (r, AutoCommitService.setConfig (Some c1) s', tr').
Proof. exact RunFacts.executeCommit_config. Qed.

Lemma executeCommit_ignores_exclude_patterns :
  AutoCommitService.executeCommit Cases.envTwoChanges
    (AutoCommitService.setConfig (Some Cases.otherKeys) (Sample.service Sample.testLogger true))
    []
  = let '(r, s', tr') :=
      AutoCommitService.executeCommit Cases.envTwoChanges
        (AutoCommitService.setConfig (Some Validation.DEFAULT_CONFIG)
           (Sample.service Sample.testLogger true)) [] in
    (r, AutoCommitService.setConfig (Some Cases.otherKeys) s', tr').
Proof.
  apply (executeCommit_reads_three_keys Cases.envTwoChanges
           (Sample.service Sample.testLogger true) []
           Cases.otherKeys Validation.DEFAULT_CONFIG); reflexivity.
Defined.

(** X23. The counter of the commits: a run adds one to [totalCommits]
    exactly when its result carries a commit hash, and then the result is a
    success, [lastCommitDate] is the time of the run and [lastError] is
    cleared; a run without commit hash leaves the counter and the date as
    they were. *)
Theorem executeCommit_counts_commits :
  forall E s tr,
    exists res s' tr',
      AutoCommitService.executeCommit E s tr = (Ok res, s', tr')
      /\ Props.counted s res s'.
Proof.
  intros E s tr. unfold AutoCommitService.executeCommit.
  ServiceFacts.run_service.
  all: eexists _, _, _; (split; [reflexivity|]); cbn; repeat split.
Qed.

(** ** The history of the commits *)

Module HistoryFacts.
Import Props TraceFacts EffectFacts GitManager GitQueries.
Local Open Scope list_scope.

Lemma commitOf_line E (g : GitManager.t) tr line :
  commitOf (Js.split "|" line) [] E g tr
  = if wellFormed line then (Ok (commitOfLine E line), g, tr)
    else (Throw (newTypeError "Cannot read properties of undefined (reading 'trim')"),
          g, tr).
Proof.
  unfold wellFormed, commitOfLine, commitOf, bind, trimOf, ask, ret, throw.
  destruct (Js.split "|" line) as [|a [|b [|c [|d r]]]]; reflexivity.
Qed.

Lemma mapM_lines E (g : GitManager.t) tr lines :
  mapM (fun line => commitOf (Js.split "|" line) []) lines E g tr
  = if forallb wellFormed lines then (Ok (map (commitOfLine E) lines), g, tr)
    else (Throw (newTypeError "Cannot read properties of undefined (reading 'trim')"),
          g, tr).
Proof.
  induction lines as [|line lines IH]; [reflexivity|].
  cbn [mapM forallb map]. unfold bind at 1. rewrite commitOf_line.
  destruct (wellFormed line); [|reflexivity].
  unfold bind at 1. rewrite IH. cbn [andb].
  destruct (forallb wellFormed lines); reflexivity.
Qed.

Lemma returns_getRecentCommits count : returns (getRecentCommits count).
Proof. unfold getRecentCommits, logError. returning. Qed.

Lemma only_mapM {A B} (f : A -> M GitManager.t B) l :
  (forall x, emitsOnly repositoryOnly (f x)) -> emitsOnly repositoryOnly (mapM f l).
Proof.
  intros Hf. induction l as [|x l IH]; cbn [mapM]; effects. apply Hf.
Qed.

Lemma only_getRecentCommits count : emitsOnly repositoryOnly (getRecentCommits count).
Proof.
  pose proof RepositoryFacts.only_executeGitCommand.
  unfold getRecentCommits, logError.
  apply emitsOnly_tryCatch; [|intros e; effects].
  apply emitsOnly_bind; [auto|intros r].
  apply only_mapM. intros line. unfold commitOf, trimOf. effects.
Qed.

Lemma requestedCount_range p : 1 <= HistoryRoute.requestedCount p <= 50.
Proof.
  unfold HistoryRoute.requestedCount.
  destruct (Scheduler.truthy p); [|lia].
  destruct (Js.parseInt _) as [n|]; [|lia].
  destruct (Z.ltb_spec 0 n); lia.
Qed.

End HistoryFacts.

(** X24. [getRecentCommits] reads the log line by line, four fields
    separated by bars: when every line has its four fields the result is the
    commits of the lines, in order; a single line with fewer fields empties
    the whole result (the exception of that line is caught around all of
    them). *)
Theorem getRecentCommits_one_short_line_empties_history :
  forall E g tr count r,
    exec E (tr ++ [EvLog SDebug "Executing Git command"])%list
         (GitManager.repositoryPath g) (Props.logCommand count) = ExecOk r ->
    let lines := GitManager.nonEmptyLines (stdout r) in
    exists tr',
      GitQueries.getRecentCommits count E g tr
      = (Ok (if forallb Props.wellFormed lines
             then map (Props.commitOfLine E) lines else []),
         g, tr').
Proof.
  intros E g tr count r Hx lines.
  unfold GitQueries.getRecentCommits, tryCatch. unfold bind at 1.
  rewrite ClassifierFacts.executeGitCommand_run. cbv zeta.
  change ("git " ++ _) with (Props.logCommand count).
  rewrite Hx, HistoryFacts.mapM_lines. fold lines.
  destruct (forallb Props.wellFormed lines); eexists; reflexivity.
Qed.

Lemma getRecentCommits_truncated_log :
  exists tr',
    GitQueries.getRecentCommits 10 Cases.envBrokenLog Sample.repo []
    = (Ok [], Sample.repo, tr').
Proof.
  apply (getRecentCommits_one_short_line_empties_history Cases.envBrokenLog Sample.repo []
           10 Cases.brokenLog).
  reflexivity.
Defined.

(** ** The routes and the manager *)

Module RouteFacts.
Import Props TraceFacts EffectFacts ServiceManager.
Local Open Scope list_scope.

Lemma returns_onService {A} (m : M AutoCommitService.t A) E s sv tr :
  returns m -> service s = Some sv ->
  exists a sv' tr',
    m E sv tr = (Ok a, sv', tr')
    /\ onService m E s tr = (Ok a, setService (Some sv') s, tr').
Proof.
  intros Hm Hs. destruct (Hm E sv tr) as (a & sv' & tr' & H).
  exists a, sv', tr'. split; [exact H|]. unfold onService. now rewrite Hs, H.
Qed.

Lemma returns_service_getRecentCommits count :
  returns (ServiceLifecycle.getRecentCommits count).
Proof.
  unfold ServiceLifecycle.getRecentCommits, AutoCommitService.git.
  apply returns_zoom, HistoryFacts.returns_getRecentCommits.
Qed.

Lemma only_service_getRecentCommits count :
  emitsOnly repositoryOnly (ServiceLifecycle.getRecentCommits count).
Proof.
  unfold ServiceLifecycle.getRecentCommits, AutoCommitService.git.
  apply emitsOnly_zoom, HistoryFacts.only_getRecentCommits.
Qed.

(** [start] leaves the flag of the initialization alone, and a service
    runs after it only if it ran before or is initialized. *)
Lemma start_flags E s tr r s' tr' :
  AutoCommitService.start E s tr = (r, s', tr') ->
  AutoCommitService.isInitialized s' = AutoCommitService.isInitialized s
  /\ (AutoCommitService.isServiceRunning s' = true ->
      AutoCommitService.isServiceRunning s = true
      \/ AutoCommitService.isInitialized s = true).
Proof.
  unfold AutoCommitService.start. OutcomeFacts.step_service.
  destruct (AutoCommitService.isInitialized s) eqn:Ei; cbn [negb].
  - repeat match goal with
           | |- context [match ?x with _ => _ end] =>
               lazymatch x with
               | context [match _ with _ => _ end] => fail
               | _ => destruct x
               end
           end;
      intros H; inversion H; subst; cbn; split; auto.
  - intros H; inversion H; subst; cbn. split; auto.
Qed.

Lemma initialize_flags penv E s tr r s' tr' :
  ServiceLifecycle.initialize penv E s tr = (r, s', tr') ->
  AutoCommitService.isServiceRunning s' = AutoCommitService.isServiceRunning s
  /\ (r = Ok tt -> AutoCommitService.isInitialized s' = true).
Proof.
  unfold ServiceLifecycle.initialize. OutcomeFacts.step_service.
  repeat match goal with
         | |- context [match ?x with _ => _ end] =>
             lazymatch x with
             | context [match _ with _ => _ end] => fail
             | _ => destruct x
             end
         end;
    intros H; inversion H; subst; cbn; split; try reflexivity; discriminate.
Qed.

End RouteFacts.

(** X25. The history route asks for between 1 and 50 commits whatever
    the query says (10 when the parameter is missing, not a number or not
    positive); it answers 503 and does nothing when the manager holds no
    service, and 200 with the commits and their number otherwise; it never
    answers 500, and all it does is what the git manager does (log, run
    git commands): no file is read or written and no callback is called. *)
Theorem history_route_asks_for_1_to_50 :
  forall E m tr countParam,
    1 <= HistoryRoute.requestedCount countParam <= 50
    /\ exists resp m' tr',
         HistoryRoute.GET countParam E m tr = (Ok resp, m', tr')
         /\ extends Props.repositoryOnly tr tr'
         /\ match ServiceManager.service m with
            | None => HistoryRoute.status resp = 503 /\ m' = m /\ tr' = tr
            | Some _ =>
                HistoryRoute.status resp = 200
                /\ exists commits,
                     HistoryRoute.body resp
                     = HistoryRoute.History commits (Z.of_nat (List.length commits))
                         (HistoryRoute.requestedCount countParam)
            end.
Proof.
  intros E m tr p. split; [apply HistoryFacts.requestedCount_range|].
  unfold HistoryRoute.GET, tryCatch, bind, get, ServiceManager.getService.
  destruct (ServiceManager.service m) as [sv|] eqn:Es.
  - destruct (RouteFacts.returns_onService
                (ServiceLifecycle.getRecentCommits (HistoryRoute.requestedCount p))
                E m sv tr (RouteFacts.returns_service_getRecentCommits _) Es)
      as (commits & sv' & tr' & Hrun & ->).
    eexists _, _, _. split; [reflexivity|]. split.
    + eapply RouteFacts.only_service_getRecentCommits, Hrun.
    + split; [reflexivity|]. now exists commits.
  - eexists _, _, _. split; [reflexivity|]. split; [apply TraceFacts.extends_refl|].
    repeat split.
Qed.

(** X26. The trigger route commits only through a running service: it
    answers 503 and does nothing when the manager holds no service or the
    service is not running; otherwise it runs [triggerManualCommit] once and
    answers 200 when the result is a success and 400 when it is not.  It
    never answers 500. *)
Theorem trigger_route_needs_a_running_service :
  forall E m tr,
    exists resp m' tr',
      TriggerRoute.POST E m tr = (Ok resp, m', tr')
      /\ match ServiceManager.service m with
         | None => TriggerRoute.status resp = 503 /\ m' = m /\ tr' = tr
         | Some sv =>
             if AutoCommitService.isServiceRunning sv
             then exists res sv',
                    ServiceLifecycle.triggerManualCommit E sv tr = (Ok res, sv', tr')
                    /\ m' = ServiceManager.setService (Some sv') m
                    /\ TriggerRoute.status resp = (if success res then 200 else 400)
             else TriggerRoute.status resp = 503 /\ m' = m /\ tr' = tr
         end.
Proof.
  intros E m tr.
  unfold TriggerRoute.POST, tryCatch, bind, get, ServiceManager.getService.
  destruct (ServiceManager.service m) as [sv|] eqn:Es.
  - destruct (AutoCommitService.isServiceRunning sv); cbn [negb].
    + destruct (RouteFacts.returns_onService ServiceLifecycle.triggerManualCommit
                  E m sv tr RunFacts.returns_triggerManualCommit Es)
        as (res & sv' & tr' & Hrun & ->).
      destruct (success res) eqn:Hs;
        (eexists _, _, _; split; [reflexivity|]; exists res, sv';
         rewrite Hs; now repeat split).
    + eexists _, _, _. split; [reflexivity|]. repeat split.
  - eexists _, _, _. split; [reflexivity|]. repeat split.
Qed.

(** X27. The manager never throws from [initialize] and keeps the service
    it constructed even when the start-up of that service failed: after a
    first call in an environment that enables the service the manager holds
    a service, which runs only if it is initialized, and every later call of
    [initialize] does nothing, so that a failed start-up is not tried again. *)
Theorem manager_initialize_is_not_retried :
  forall penv cwd E m tr,
    Props.levelNamedOrUnset penv ->
    ServiceManager.shouldEnableService penv = true ->
    ServiceManager.service m = None ->
    exists sv m' tr',
      ServiceManager.initialize penv cwd E m tr = (Ok tt, m', tr')
      /\ ServiceManager.service m' = Some sv
      /\ (AutoCommitService.isServiceRunning sv = true ->
          AutoCommitService.isInitialized sv = true)
      /\ forall penv2 cwd2 E2 tr2,
           ServiceManager.initialize penv2 cwd2 E2 m' tr2 = (Ok tt, m', tr2).
Proof.
  intros penv cwd E m tr _ Hen Hs.
  unfold ServiceManager.initialize. unfold bind at 1. unfold get at 1.
  rewrite Hs, Hen. cbn [negb].
  assert (Hagain : forall sv m',
            ServiceManager.service m' = Some sv ->
            forall penv2 cwd2 E2 tr2,
              ServiceManager.initialize penv2 cwd2 E2 m' tr2 = (Ok tt, m', tr2)).
  { intros sv m' Hm' penv2 cwd2 E2 tr2.
    unfold ServiceManager.initialize, bind, get. now rewrite Hm'. }
  unfold tryCatch. unfold bind at 1. unfold modify at 1.
  set (fresh := ServiceLifecycle.new penv cwd _ _ _).
  unfold bind at 1. unfold ServiceManager.onService at 1.
  cbn [ServiceManager.service ServiceManager.setService].
  destruct (ServiceLifecycle.initialize penv E fresh tr) as [[r1 sv1] tr1] eqn:Hinit.
  destruct (RouteFacts.initialize_flags _ _ _ _ _ _ _ Hinit) as [Hrun1 Hok1].
  destruct r1 as [[]|e].
  - specialize (Hok1 eq_refl).
    unfold bind at 1. unfold logInfo at 1, emit at 1.
    unfold bind at 1. unfold ServiceManager.onService at 1.
    cbn [ServiceManager.service ServiceManager.setService].
    destruct (AutoCommitService.start E sv1 _) as [[r2 sv2] tr2] eqn:Hstart.
    destruct (RouteFacts.start_flags _ _ _ _ _ _ Hstart) as [Hi2 _].
    destruct r2 as [[]|e];
      (eexists sv2, _, _; split; [reflexivity|]; split; [reflexivity|];
       split; [intros _; congruence | eapply Hagain; reflexivity]).
  - eexists sv1, _, _. split; [reflexivity|]. split; [reflexivity|].
    split; [|eapply Hagain; reflexivity].
    rewrite Hrun1. subst fresh. cbn. discriminate.
Qed.

Lemma manager_initialize_first_start :
  exists sv m' tr',
    ServiceManager.initialize Cases.noVariables "/srv/site" Sample.envUnchanged
      ServiceManager.new [] = (Ok tt, m', tr')
    /\ ServiceManager.service m' = Some sv
    /\ (AutoCommitService.isServiceRunning sv = true ->
        AutoCommitService.isInitialized sv = true)
    /\ forall penv2 cwd2 E2 tr2,
         ServiceManager.initialize penv2 cwd2 E2 m' tr2 = (Ok tt, m', tr2).
Proof.
  apply (manager_initialize_is_not_retried Cases.noVariables "/srv/site"
           Sample.envUnchanged ServiceManager.new []).
  - exact I.
  - reflexivity.
  - reflexivity.
Defined.

(** ** The statistics of a list of files *)

Module StatsFacts.
Import Props FileAnalyzer FileStats.
Local Open Scope list_scope.

Lemma sameCategory_sym a b : sameCategory a b = sameCategory b a.
Proof. unfold sameCategory. apply String.eqb_sym. Qed.

Lemma breakdown_from E fs : forall acc k,
  fold_left (fun breakdown file =>
               update (categorizeFile E file) (fun l => l ++ [file]) breakdown) fs acc k
  = acc k ++ filesOf E fs k.
Proof.
  induction fs as [|f fs IH]; intros acc k; cbn [fold_left].
  - unfold filesOf. cbn. now rewrite app_nil_r.
  - rewrite IH. unfold update, filesOf. cbn [filter].
    rewrite (sameCategory_sym k).
    destruct (sameCategory (categorizeFile E f) k).
    + now rewrite <- app_assoc.
    + reflexivity.
Qed.

Lemma byType_from E fs : forall acc k,
  fold_left (fun byType file => update (categorizeFile E file) (fun n => n + 1) byType)
            fs acc k
  = acc k + countOf E fs k.
Proof.
  induction fs as [|f fs IH]; intros acc k; cbn [fold_left].
  - unfold countOf. cbn. lia.
  - rewrite IH. unfold update, countOf. cbn [filter].
    rewrite (sameCategory_sym k).
    destruct (sameCategory (categorizeFile E f) k); cbn [List.length]; lia.
Qed.

(** Every file is of one of the seven categories. *)
Lemma countOf_total E fs :
  categorized E fs + countOf E fs mixed = Z.of_nat (List.length fs).
Proof.
  rewrite AnalyzerFacts.categorized_sum. unfold countOf.
  induction fs as [|f fs IH]; [reflexivity|].
  cbn [filter].
  destruct (categorizeFile E f);
    repeat match goal with
           | |- context [if sameCategory ?a ?b then _ else _] =>
               let v := eval vm_compute in (sameCategory a b) in
               change (sameCategory a b) with v; cbv iota
           end;
    cbn [List.length]; lia.
Qed.

Lemma sumOf_from l : forall a, fold_left Z.add l a = a + fold_left Z.add l 0.
Proof.
  induction l as [|x l IH]; intros a; cbn [fold_left]; [lia|].
  rewrite IH, (IH (0 + x)). lia.
Qed.

Lemma sumOf_cons k n m : sumOf ((k, n) :: m) = n + sumOf m.
Proof. unfold sumOf. cbn [map snd fold_left]. rewrite sumOf_from. lia. Qed.

Lemma sumOf_bump e m : sumOf (bump e m) = sumOf m + 1.
Proof.
  induction m as [|[k n] m IH]; [reflexivity|].
  cbn [bump]. destruct (String.eqb k e); rewrite !sumOf_cons; [|rewrite IH]; lia.
Qed.

Lemma keys_bump e m x :
  In x (map fst (bump e m)) <-> x = e \/ In x (map fst m).
Proof.
  induction m as [|[k n] m IH]; cbn [bump map fst In].
  - intuition.
  - destruct (String.eqb_spec k e) as [->|Hne]; cbn [map fst In].
    + intuition.
    + rewrite IH. intuition.
Qed.

Lemma NoDup_bump e m : NoDup (map fst m) -> NoDup (map fst (bump e m)).
Proof.
  induction m as [|[k n] m IH]; cbn [bump map fst]; intros H.
  - constructor; [intros []|constructor].
  - inversion H as [|? ? Hk Hm]; subst.
    destruct (String.eqb_spec k e) as [->|Hne]; cbn [map fst].
    + now constructor.
    + constructor; [|now apply IH].
      rewrite keys_bump. intros [->|Hin]; [now apply Hne | now apply Hk].
Qed.

Lemma byExtension_from E fs : forall acc,
  NoDup (map fst acc) ->
  let m := fold_left
             (fun byExtension file =>
                let e := Js.toLowerCase (extname E file) in
                bump (if GitManager.nonEmpty e then e else "(no extension)") byExtension)
             fs acc in
  sumOf m = sumOf acc + Z.of_nat (List.length fs) /\ NoDup (map fst m).
Proof.
  induction fs as [|f fs IH]; intros acc Hacc; cbn [fold_left List.length].
  - split; [cbn; lia | exact Hacc].
  - cbv zeta in *.
    set (e := if GitManager.nonEmpty (Js.toLowerCase (extname E f))
              then Js.toLowerCase (extname E f) else "(no extension)").
    destruct (IH _ (NoDup_bump e _ Hacc)) as [Hs Hn].
    split; [|exact Hn]. rewrite Hs, sumOf_bump. lia.
Qed.

End StatsFacts.

(** X28. [getFileChangeBreakdown] and [getFileStats] put every file in
    exactly one of the seven categories: the breakdown of a category is the
    files of that category in the order of the list, the counter of the
    category is their number, the seven counters add up to [total], and so
    do the counters of the extensions, each extension having one counter. *)
Theorem getFileStats_counts_every_file_once :
  forall E fs,
    let stats := FileStats.getFileStats E fs in
    (forall k, FileStats.getFileChangeBreakdown E fs k = Props.filesOf E fs k)
    /\ (forall k, FileStats.byType stats k
                  = Z.of_nat (List.length (FileStats.getFileChangeBreakdown E fs k)))
    /\ fold_left Z.add (map (FileStats.byType stats) Props.allCategories) 0
       = FileStats.total stats
    /\ Props.sumOf (FileStats.byExtension stats) = FileStats.total stats
    /\ NoDup (map fst (FileStats.byExtension stats)).
Proof.
  intros E fs stats.
  assert (Hb : forall k, FileStats.getFileChangeBreakdown E fs k = Props.filesOf E fs k).
  { intros k. unfold FileStats.getFileChangeBreakdown. now rewrite StatsFacts.breakdown_from. }
  assert (Ht : forall k, FileStats.byType stats k = Props.countOf E fs k).
  { intros k. subst stats. unfold FileStats.getFileStats. cbn [FileStats.byType].
    now rewrite StatsFacts.byType_from. }
  split; [exact Hb|]. split; [intros k; now rewrite Ht, Hb|].
  split.
  - unfold Props.allCategories, FileAnalyzer.categoryKeys.
    cbn [app map fold_left]. rewrite !Ht.
    pose proof (StatsFacts.countOf_total E fs) as H.
    rewrite AnalyzerFacts.categorized_sum in H.
    subst stats. cbn [FileStats.total FileStats.getFileStats]. lia.
  - subst stats. unfold FileStats.getFileStats. cbn [FileStats.byExtension FileStats.total].
    destruct (StatsFacts.byExtension_from E fs [] (NoDup_nil _)) as [Hs Hn].
    split; [etransitivity; [exact Hs | reflexivity] | exact Hn].
Qed.

(** ** A message of blanks *)

(** X29. [createCommit] rejects a message that is empty or of blanks
    only: it throws a [GitOperationError] whatever the repository answers,
    and runs neither [git add] nor [git commit]. *)
Theorem createCommit_blank_message_never_stages :
  forall E g tr message,
    Js.trim message = "" ->
    exists e g' tr',
      GitManager.createCommit message E g tr = (Throw e, g', tr')
      /\ isGitOperationError e = true
      /\ extends noStaging tr tr'.
Proof.
  intros E g tr message Hm.
  unfold GitManager.createCommit, tryCatch.
  assert (Hcatch : forall (e : JsError) (g1 : GitManager.t) tr1,
            extends noStaging tr tr1 ->
            exists e' (g' : GitManager.t) tr',
              ((logError "Failed to create commit" ;;
                if isGitOperationError e then throw e
                else throw (newGitOperationError
                              ("Failed to create commit: " ++ errMessage e) (Some e)))
               : M GitManager.t string)
                E g1 tr1 = (Throw e', g', tr')
              /\ isGitOperationError e' = true
              /\ extends noStaging tr tr').
  { intros e g1 tr1 H1. unfold bind, logError, emit, throw.
    destruct (isGitOperationError e) eqn:He; eexists _, _, _;
      (split; [reflexivity|]; split;
       [first [exact He | reflexivity]
       | eapply TraceFacts.extends_trans; [exact H1|];
         apply TraceFacts.extends_one; reflexivity]). }
  unfold bind at 1.
  destruct (GitManager.isRepositoryClean E g tr) as [[r1 g1] tr1] eqn:E1.
  pose proof (ClassifierFacts.noStaging_isRepositoryClean _ _ _ _ _ _ E1) as X1.
  destruct r1 as [safe|e]; [|now apply Hcatch].
  unfold bind at 1.
  destruct safe; cbn [negb]; [|unfold throw at 1; now apply Hcatch].
  unfold ret at 1. unfold bind at 1.
  destruct (GitManager.hasChanges E g1 tr1) as [[r2 g2] tr2] eqn:E2.
  pose proof (ClassifierFacts.noStaging_hasChanges _ _ _ _ _ _ E2) as X2.
  assert (X12 : extends noStaging tr tr2) by (eapply TraceFacts.extends_trans; eassumption).
  destruct r2 as [changes|e]; [|now apply Hcatch].
  unfold bind at 1.
  destruct changes; cbn [negb]; [|unfold throw at 1; now apply Hcatch].
  unfold ret at 1. unfold bind at 1.
  rewrite Hm. cbn [String.length Nat.eqb orb].
  rewrite orb_true_r. unfold throw at 1. now apply Hcatch.
Qed.

Lemma createCommit_three_blanks :
  exists e g' tr',
    GitManager.createCommit Cases.blank Cases.envTwoChanges Sample.repo []
    = (Throw e, g', tr')
    /\ isGitOperationError e = true
    /\ extends noStaging [] tr'.
Proof.
  apply (createCommit_blank_message_never_stages _ Sample.repo [] Cases.blank).
  reflexivity.
Defined.
